(** * Slide rasterizer and annotation overlay: a shallow embedding

    The development embeds [src/main.py] (module [Main]) and its older
    sibling [src/venv/main.py] (module [Venv]) and proves properties of
    the rasterizer ([draw_slide_content]), of the overlay engine
    ([overlay_comments]) and of the three request handlers
    ([convert_ppt], [add_comment], [get_comments]).

    Layout: Python primitives ([Py]), the imaging library ([PIL]), the
    presentation shape tree ([Pptx]), the process state and its monad
    ([Session]), the two source files, then the theorems. *)

From Stdlib Require Import ZArith List Ascii String Bool Lia.
From stdpp Require Import base option list list_numbers gmap strings pretty.

Open Scope Z_scope.

(** ** Python primitives *)

Module Py.

(** A Python [str] is modelled by [string]; a character is its code
    point, restricted to the range below 256. *)

Definition bytes := list Byte.byte.

Definition code (c : ascii) : Z := Z.of_N (N_of_ascii c).

(** [str.isspace] for one code point below 256. *)
Definition isspace (c : ascii) : bool :=
  let n := code c in
  ((9 <=? n) && (n <=? 13)) || ((28 <=? n) && (n <=? 32))
  || (n =? 133) || (n =? 160).

Fixpoint lstrip (s : string) : string :=
  match s with
  | EmptyString => EmptyString
  | String c s' => if isspace c then lstrip s' else s
  end.

(** [s.strip()]: whitespace removed at both ends. *)
Definition strip (s : string) : string :=
  String.rev (lstrip (String.rev (lstrip s))).

(** Truth value of a [str]: non-empty. *)
Definition truthy (s : string) : bool :=
  match s with EmptyString => false | String _ _ => true end.

(** [str.lower] for one code point below 256: the ASCII capitals and
    the Latin-1 capitals (0xC0 to 0xDE without 0xD7) move up by 32. *)
Definition lower_char (c : ascii) : ascii :=
  let n := code c in
  if ((65 <=? n) && (n <=? 90))
     || ((192 <=? n) && (n <=? 222) && negb (n =? 215))
  then ascii_of_N (Z.to_N (n + 32)) else c.

Fixpoint lower (s : string) : string :=
  match s with
  | EmptyString => EmptyString
  | String c s' => String (lower_char c) (lower s')
  end.

(** [s.endswith(suffix)]: some tail of [s] is [suffix]. *)
Fixpoint endswith (s suffix : string) : bool :=
  if String.eqb s suffix then true
  else match s with
       | EmptyString => false
       | String _ s' => endswith s' suffix
       end.

(** ["".join(parts)]. *)
Definition join (parts : list string) : string :=
  fold_right String.append EmptyString parts.

(** [a // b], Python's floor division on [int]. *)
Definition floordiv (a b : Z) : Z := a / b.

(** [str(n)] for an [int]. *)
Definition str_int (n : Z) : string := pretty n.

(** The one-character string of a line feed. *)
Definition newline : string := String (ascii_of_nat 10) EmptyString.

(** Exceptions.  [IOError] stands for the whole [OSError] family
    (the imaging library's "cannot identify image file" error and
    [FileNotFoundError] belong to it); [HTTPException] is the web
    framework's exception, a subclass of [Exception] like every other
    constructor here.  The detail of the 500 answer built by the
    handlers is the text "Internal Server Error: " followed by the
    caught exception and its traceback; it is kept as the caught
    exception itself. *)
Inductive detail :=
| Message (s : string)
| InternalServerError (cause : exn)
with exn :=
| IOError (msg : string)
| ValueError (msg : string)
| KeyError
| OverflowError (msg : string)
| SystemError (msg : string)
| DecompressionBombError (msg : string)
| OtherError (msg : string)
| HTTPException (status_code : Z) (d : detail).

(** [except IOError]: which exceptions the clause catches. *)
Definition is_IOError (e : exn) : bool :=
  match e with IOError _ => true | _ => false end.

Inductive result (A : Type) :=
| Ok (a : A)
| Raise (e : exn).
Arguments Ok {A} a.
Arguments Raise {A} e.

Definition is_ok {A} (r : result A) : bool :=
  match r with Ok _ => true | Raise _ => false end.

End Py.
Export Py.

Notation "a // b" := (Py.floordiv a b) (at level 40, left associativity).

(** ** The imaging library

    Rasters and the operations of the imaging library that the program
    calls.  A raster is its mode, its size and its pixels in row-major
    order; a pixel is four channel values, the fourth being the alpha
    channel (padding, kept at 255, for an [RGB] raster).  What the
    program cannot fix (the decoder, the resampling filter and the
    glyphs of the default font) is the interface [Imaging].  The
    decoder answers with rasters of the two modes that the program
    itself makes. *)

Module PIL.

Inductive Mode := RGB | RGBA.

Definition pixel : Type := Z * Z * Z * Z.

Record Image := { mode : Mode; size : Z * Z; data : list pixel }.

Definition alpha (p : pixel) : Z := snd p.

Definition set_alpha (a : Z) (p : pixel) : pixel :=
  let '(r, g, b, _) := p in (r, g, b, a).

(** A pixel as stored in a raster of mode [m]. *)
Definition to_mode (m : Mode) (p : pixel) : pixel :=
  match m with RGB => set_alpha 255 p | RGBA => p end.

Definition size_eqb (s1 s2 : Z * Z) : bool :=
  (fst s1 =? fst s2) && (snd s1 =? snd s2).

(** A size without pixels. *)
Definition empty (sz : Z * Z) : bool := (fst sz <=? 0) || (snd sz <=? 0).

(** [Image.MAX_IMAGE_PIXELS], and the sizes that [Image.open] refuses
    as a decompression bomb: more than twice that many pixels. *)
Definition MAX_IMAGE_PIXELS : Z := 89478485.

Definition bomb (sz : Z * Z) : bool :=
  2 * MAX_IMAGE_PIXELS <? Z.max 1 (fst sz) * Z.max 1 (snd sz).

Definition decompression_bomb : exn :=
  DecompressionBombError "Image size exceeds limit, could be decompression bomb DOS attack.".

(** The integers that the C core of the library takes as an [int]. *)
Definition c_int (v : Z) : bool := (-2147483648 <=? v) && (v <=? 2147483647).

(** The pixels of a [w] by [h] raster given by a function of the
    position. *)
Definition raster (w h : Z) (f : Z → Z → pixel) : list pixel :=
  (λ i, f (i mod w) (i / w)) <$> seqZ 0 (w * h).

Definition getpixel (im : Image) (x y : Z) : pixel :=
  default (0, 0, 0, 0) (data im !! Z.to_nat (y * fst (size im) + x)).

(** A raster of the program is well formed when the pixel list has
    the length its size announces. *)
Definition wf (im : Image) : Prop :=
  0 ≤ fst (size im) ∧ 0 ≤ snd (size im) ∧
  length (data im) = Z.to_nat (fst (size im) * snd (size im)).

(** The rasters that a PNG file of an opaque picture decodes to; no
    image file holds a raster without pixels. *)
Definition opaque_rgb (im : Image) : Prop :=
  mode im = RGB ∧ wf im ∧ Forall (λ p, alpha p = 255) (data im) ∧
  empty (size im) = false.

(** An image file as [Image.open] answers with it: the header is
    read, the pixels are decoded when they are first needed, and that
    is where a truncated payload is found out. *)
Record ImageFile := {
  header_mode : Mode;
  header_size : Z * Z;
  body : result (list pixel);
}.

(** [im.load()]. *)
Definition load (f : ImageFile) : result Image :=
  match body f with
  | Ok ps => Ok {| mode := header_mode f; size := header_size f; data := ps |}
  | Raise e => Raise e
  end.

Class Imaging := {
  (** [Image.open(BytesIO(blob))]: the decoder. *)
  decode : bytes → result ImageFile;
  (** The colour at each position of a raster resized to the given
      width and height. *)
  resample : Image → Z → Z → Z → Z → pixel;
  (** The default font: the coverage (0 to 255) of a text at each
      offset from its origin, or the error the font raises. *)
  getmask : string → result (Z → Z → Z);
}.

(** [Image.new(mode, size, color)]: a negative side is refused, then
    the sides go to the C core, which refuses what is not an [int]. *)
Definition new (m : Mode) (sz : Z * Z) (color : pixel) : result Image :=
  let '(w, h) := sz in
  if (w <? 0) || (h <? 0)
  then Raise (ValueError "Width and height must be >= 0")
  else if negb (c_int w && c_int h)
  then Raise (OverflowError "Python int too large to convert to C int")
  else Ok {| mode := m; size := sz;
             data := replicate (Z.to_nat (w * h)) (to_mode m color) |}.

(** [im.convert(mode)]. *)
Definition convert (im : Image) (m : Mode) : Image :=
  {| mode := m; size := size im;
     data := match mode im, m with
             | RGB, RGBA | RGBA, RGB => set_alpha 255 <$> data im
             | _, _ => data im
             end |}.

(** [dst.paste(src, (left, top))]: in place on [dst]; the part of
    [src] outside [dst] is clipped.  The four sides of the box go to
    the C core, which refuses what is not an [int]. *)
Definition paste (dst src : Image) (box : Z * Z) : result Image :=
  let '(x0, y0) := box in
  let w := fst (size dst) in
  let '(sw, sh) := size src in
  if c_int x0 && c_int y0 && c_int (x0 + sw) && c_int (y0 + sh) then
    Ok {| mode := mode dst; size := size dst;
          data := imap (λ i p,
                    let x := Z.of_nat i mod w in
                    let y := Z.of_nat i / w in
                    if (x0 <=? x) && (x <? x0 + sw) && (y0 <=? y) && (y <? y0 + sh)
                    then to_mode (mode dst) (getpixel src (x - x0) (y - y0))
                    else p) (data dst) |}
  else Raise (OverflowError "Python int too large to convert to C int").

(** Division by 255 as the library computes it, exact on the range
    it is used on, and its rounded variant. *)
Definition shift_for_div255 (a : Z) : Z := Z.shiftr (Z.shiftr a 8 + a) 8.

Definition div255 (a : Z) : Z := shift_for_div255 (a + 128).

Definition blend (c : Z) (d i : Z) : Z := div255 (d * (255 - c) + i * c).

(** One pixel under a glyph of coverage [c], on a raster of mode
    [m].  The channels are blended by the coverage; on a raster with
    an alpha channel the colour channels of a pixel that is still
    fully transparent take the ink as it is, and only its alpha is
    blended. *)
Definition blend_pixel (m : Mode) (c : Z) (dst ink : pixel) : pixel :=
  if c <=? 0 then dst
  else if 255 <=? c then ink
  else let '(r, g, b, a) := dst in
       let '(ir, ig, ib, ia) := ink in
       let cc := match m with
                 | RGBA => if a =? 0 then 255 else c
                 | RGB => c
                 end in
       (blend cc r ir, blend cc g ig, blend cc b ib, blend c a ia).

Section WithImaging.
Context {lib : Imaging}.

(** [im.resize((w, h))] on an image file: the pixels are loaded
    first; a picture that has the size already is copied; the C core
    refuses a size that is not a pair of [int]s, then a size below one
    pixel. *)
Definition resize (im : ImageFile) (sz : Z * Z) : result Image :=
  let '(w, h) := sz in
  match load im with
  | Raise e => Raise e
  | Ok loaded =>
      if size_eqb (size loaded) sz then Ok loaded
      else if negb (c_int w && c_int h)
      then Raise (OverflowError "Python int too large to convert to C int")
      else if (w <? 1) || (h <? 1)
      then Raise (ValueError "height and width must be > 0")
      else Ok {| mode := mode loaded; size := sz;
                 data := raster w h (resample loaded w h) |}
  end.

(** [ImageDraw.Draw(im).text(xy, text, fill=fill, font=font)] with
    the default font: in place on [im]; glyphs outside the raster
    are clipped. *)
Definition text (im : Image) (xy : Z * Z) (s : string) (fill : pixel)
  : result Image :=
  let '(x0, y0) := xy in
  let w := fst (size im) in
  match getmask s with
  | Raise e => Raise e
  | Ok mask =>
      Ok {| mode := mode im; size := size im;
            data := imap (λ i p,
                      let x := Z.of_nat i mod w in
                      let y := Z.of_nat i / w in
                      blend_pixel (mode im) (mask (x - x0) (y - y0)) p
                                  (to_mode (mode im) fill)) (data im) |}
  end.
End WithImaging.

(** One pixel of [Image.alpha_composite]: [src] over [dst]. *)
Definition composite_pixel (dst src : pixel) : pixel :=
  if alpha src =? 0 then dst
  else
    let '(dr, dg, db, da) := dst in
    let '(sr, sg, sb, sa) := src in
    let bl := da * (255 - sa) in
    let outa255 := sa * 255 + bl in
    let coef1 := sa * 255 * 255 * 128 / outa255 in
    let coef2 := 255 * 128 - coef1 in
    let ch s d :=
      Z.shiftr (shift_for_div255 (s * coef1 + d * coef2 + Z.shiftl 128 7)) 7 in
    (ch sr dr, ch sg dg, ch sb db, div255 outa255).

(** [Image.alpha_composite(im1, im2)]: both [RGBA], same size. *)
Definition alpha_composite (im1 im2 : Image) : result Image :=
  match mode im1, mode im2 with
  | RGBA, RGBA =>
      if size_eqb (size im1) (size im2)
      then Ok {| mode := RGBA; size := size im1;
                 data := zip_with composite_pixel (data im1) (data im2) |}
      else Raise (ValueError "images do not match")
  | _, _ => Raise (ValueError "image has wrong mode")
  end.

(** The colours the program names. *)
Definition white : pixel := (255, 255, 255, 255).
Definition black : pixel := (0, 0, 0, 255).

#[global] Arguments new : simpl never.
#[global] Arguments convert : simpl never.
#[global] Arguments paste : simpl never.
#[global] Arguments load : simpl never.
#[global] Arguments resize : simpl never.
#[global] Arguments text : simpl never.
#[global] Arguments alpha_composite : simpl never.

End PIL.

(** ** The presentation library

    The part of a parsed presentation that the program reads.  Sizes
    and offsets are integers in the format's own unit (EMU).  Every
    shape is taken with a position and a size of its own, every picture
    with an embedded image, and the presentation with a nominal size. *)

Module Pptx.

Record Run := { run_text : string }.
Record Paragraph := { runs : list Run }.
Record TextFrame := { paragraphs : list Paragraph }.
Record ImagePart := { blob : bytes }.

(** A shape: [shape_type] is 13 for a picture and some other number
    for every other kind; [image] is read for pictures only and
    [text_frame] only when [has_text_frame] holds. *)
Record Shape := {
  shape_type : Z;
  image : ImagePart;
  has_text_frame : bool;
  text_frame : TextFrame;
  shape_left : Z;
  shape_top : Z;
  shape_width : Z;
  shape_height : Z;
}.

Record Slide := { shapes : list Shape }.

Record Presentation := {
  slide_width : Z;
  slide_height : Z;
  slides : list Slide;
}.

(** [Presentation(path)] applied to the bytes of the file. *)
Class Parser := { parse : bytes → result Presentation }.

End Pptx.

(** ** Process state

    The module-level dictionary [comments_store], the two image
    directories, the working directory that receives the uploaded file,
    and the log.  A PNG file is identified with the raster it encodes;
    no PNG file encodes a raster without pixels, and an entry that
    holds one stands for a file that the decoder does not identify.
    The working directory holds files only, no directories.
    A directory that does not exist and an empty one are not told
    apart: every path of the program that writes into a directory runs
    after the directory was created. *)

Module Session.

Import PIL Pptx.

(** The two directories, ["slides"] and ["original_slides"]. *)
Inductive Dir := OUTPUT_DIR | ORIGINAL_DIR.

(** [os.path.join(dir, name)]. *)
Definition path : Type := Dir * string.

Inductive Level := WARNING | ERROR.

(** The log messages of the program, by their format string:
    "Error opening image in shape: {e}. Skipping this image." and
    "Error in {handler}: {e}". *)
Inductive LogMessage :=
| ErrorOpeningImage (e : exn)
| ErrorIn (handler : string) (e : exn).

Record State := {
  comments_store : gmap Z (list string);
  original_slides : gmap string Image;
  slides_dir : gmap string Image;
  cwd : gmap string bytes;
  logged : list (Level * LogMessage);
}.

Definition listdir (d : Dir) (s : State) : gmap string Image :=
  match d with OUTPUT_DIR => slides_dir s | ORIGINAL_DIR => original_slides s end.

Definition set_dir (d : Dir) (files : gmap string Image) (s : State) : State :=
  match d with
  | OUTPUT_DIR =>
      {| comments_store := comments_store s; original_slides := original_slides s;
         slides_dir := files; cwd := cwd s; logged := logged s |}
  | ORIGINAL_DIR =>
      {| comments_store := comments_store s; original_slides := files;
         slides_dir := slides_dir s; cwd := cwd s; logged := logged s |}
  end.

Definition set_comments (c : gmap Z (list string)) (s : State) : State :=
  {| comments_store := c; original_slides := original_slides s;
     slides_dir := slides_dir s; cwd := cwd s; logged := logged s |}.

Definition set_cwd (c : gmap string bytes) (s : State) : State :=
  {| comments_store := comments_store s; original_slides := original_slides s;
     slides_dir := slides_dir s; cwd := c; logged := logged s |}.

Definition add_log (r : Level * LogMessage) (s : State) : State :=
  {| comments_store := comments_store s; original_slides := original_slides s;
     slides_dir := slides_dir s; cwd := cwd s; logged := logged s ++ [r] |}.

(** Computations of the program: they read and write the state and
    end with a value or a raised exception.  What was written before
    an exception stays written. *)
Definition M (A : Type) : Type := State → result A * State.

Definition ret {A} (a : A) : M A := λ s, (Ok a, s).

Definition raise {A} (e : exn) : M A := λ s, (Raise e, s).

Definition bind {A B} (m : M A) (k : A → M B) : M B :=
  λ s, match m s with
       | (Ok a, s') => k a s'
       | (Raise e, s') => (Raise e, s')
       end.

(** [try: m except cls as e: h e], where [cls] tells which
    exceptions the clause catches. *)
Definition try_except {A} (m : M A) (cls : exn → bool) (h : exn → M A) : M A :=
  λ s, match m s with
       | (Ok a, s') => (Ok a, s')
       | (Raise e, s') => if cls e then h e s' else (Raise e, s')
       end.

(** [except Exception]: every exception of the model. *)
Definition Exception (e : exn) : bool := true.

Definition lift {A} (r : result A) : M A := λ s, (r, s).

Definition gets {A} (f : State → A) : M A := λ s, (Ok (f s), s).

Definition modify (f : State → State) : M unit := λ s, (Ok tt, f s).

End Session.

Notation "'let*' x ':=' m 'in' k" := (Session.bind m (λ x, k))
  (at level 10, x name, m at level 100, k at level 200).
Notation "m '>>' k" := (Session.bind m (λ _, k))
  (at level 90, right associativity).

Module IO.

Import PIL Pptx Session.

(** [logger.warning(...)], [logger.error(...)]. *)
Definition log (l : Level) (msg : LogMessage) : M unit :=
  modify (add_log (l, msg)).

(** [os.path.exists(p)]. *)
Definition path_exists (p : path) : M bool :=
  gets (λ s, bool_decide (is_Some (listdir p.1 s !! p.2))).

(** What [Image.open] refuses in a file whose header it reads: a
    raster without pixels, which no decoder identifies, and a raster of
    more pixels than twice [MAX_IMAGE_PIXELS]. *)
Definition refusal (im : Image) : option exn :=
  if empty (size im) then Some (IOError "cannot identify image file")
  else if bomb (size im) then Some decompression_bomb
  else None.

(** [Image.open(p)] on a file of one of the two directories, which
    the program wrote itself: its pixels are all there. *)
Definition Image_open (p : path) : M Image :=
  λ s, match listdir p.1 s !! p.2 with
       | Some im =>
           match refusal im with
           | Some e => (Raise e, s)
           | None => (Ok im, s)
           end
       | None => (Raise (IOError "No such file or directory"), s)
       end.

(** [im.save(p)]: the encoder refuses a raster without pixels, and
    the file that was created for it is removed again.  (The program
    never saves such a raster over an existing file: a canvas is saved
    after the directories were cleared, and an overlay has the size of
    its base image, which has pixels.) *)
Definition Image_save (im : Image) (p : path) : M unit :=
  if empty (size im)
  then raise (SystemError "tile cannot extend outside image")
  else modify (λ s, set_dir p.1 (<[p.2 := im]> (listdir p.1 s)) s).

(** [shutil.copy(src, dst)]: the file is copied as it is. *)
Definition copy (src dst : path) : M unit :=
  λ s, match listdir src.1 s !! src.2 with
       | Some im => (Ok tt, set_dir dst.1 (<[dst.2 := im]> (listdir dst.1 s)) s)
       | None => (Raise (IOError "No such file or directory"), s)
       end.

(** [if os.path.exists(d): shutil.rmtree(d)] then [os.makedirs(d)]. *)
Definition rmtree_makedirs (d : Dir) : M unit := modify (set_dir d ∅).

(** The length of a name in bytes, as the file system counts it
    (UTF-8: two bytes for a code point from 128 on). *)
Fixpoint utf8_length (name : string) : Z :=
  match name with
  | EmptyString => 0
  | String c rest => (if code c <? 128 then 1 else 2) + utf8_length rest
  end.

Fixpoint contains (c : ascii) (name : string) : bool :=
  match name with
  | EmptyString => false
  | String d rest => Ascii.eqb c d || contains c rest
  end.

(** [open(name, "wb")] in the working directory: a name with a NUL
    character is refused before the file system is asked; a name with
    a path separator points into a directory, and the working
    directory has none; a name of more than 255 bytes is too long for
    the file system. *)
Definition open_wb (name : string) : result unit :=
  if contains (ascii_of_nat 0) name
  then Raise (ValueError "embedded null byte")
  else if contains (ascii_of_nat 47) name
  then Raise (IOError "No such file or directory")
  else if 255 <? utf8_length name
  then Raise (IOError "File name too long")
  else Ok tt.

(** [with open(name, "wb") as f: f.write(content)]. *)
Definition write_file (name : string) (content : bytes) : M unit :=
  lift (open_wb name) >>
  modify (λ s, set_cwd (<[name := content]> (cwd s)) s).

(** [os.remove(name)]. *)
Definition remove (name : string) : M unit :=
  λ s, match cwd s !! name with
       | Some _ => (Ok tt, set_cwd (delete name (cwd s)) s)
       | None => (Raise (IOError "No such file or directory"), s)
       end.

(** [Presentation(name)]. *)
Definition Presentation {office : Parser} (name : string) : M Presentation :=
  λ s, match cwd s !! name with
       | Some content => (parse content, s)
       | None => (Raise (IOError "No such file or directory"), s)
       end.

(** [for x in xs: body x], the body working on a value it updates in
    place. *)
Fixpoint for_each {A B} (xs : list A) (body : A → B → M B) (acc : B) : M B :=
  match xs with
  | [] => ret acc
  | x :: xs' => let* acc' := body x acc in for_each xs' body acc'
  end.

(** [enumerate(xs, start)]. *)
Fixpoint enumerate {A} (xs : list A) (start : Z) : list (Z * A) :=
  match xs with
  | [] => []
  | x :: xs' => (start, x) :: enumerate xs' (start + 1)
  end.

End IO.

(** ** The web framework

    What a handler hands back: a JSON answer with a status, or a raised
    exception which the framework turns into an answer. *)

Module Http.

Inductive Content :=
| error_content (error : string)
| convert_content (slideCount : Z) (imageUrls : list string)
| comment_content (message updatedImageUrl : string)
| comments_content (comments : list string).

Record Response := { status_code : Z; content : Content }.

(** [JSONResponse(content=c, status_code=n)]. *)
Definition JSONResponse (c : Content) (n : Z) : Response :=
  {| status_code := n; content := c |}.

(** A handler that returns a dictionary answers with status 200. *)
Definition returned (c : Content) : Response := JSONResponse c 200.

(** The status the client sees: the one of the answer, the one of a
    raised [HTTPException], and 500 for any other exception. *)
Definition status (r : result Response) : Z :=
  match r with
  | Ok resp => status_code resp
  | Raise (HTTPException n _) => n
  | Raise _ => 500
  end.

(** An uploaded file: its name and its bytes. *)
Record UploadFile := { filename : string; read : bytes }.

End Http.

(** ** [src/main.py] *)

Module Main.

Import PIL Pptx Session IO Http.

(** [f"slide_{n}.png"] and [f"/slides/slide_{n}.png"]. *)
Definition slide_png (n : Z) : string := "slide_" +:+ str_int n +:+ ".png".
Definition slide_url (n : Z) : string := "/slides/" +:+ slide_png n.

Section Program.
Context {lib : Imaging} {office : Parser}.

(** The text of a text frame (lines 59 to 63): the paragraphs with
    something other than whitespace, each followed by a line feed. *)
Definition frame_text (text_frame : TextFrame) : string :=
  fold_left (λ text paragraph,
               let para_text := join (run_text <$> runs paragraph) in
               if truthy (strip para_text)
               then text +:+ para_text +:+ newline
               else text)
            (paragraphs text_frame) EmptyString.

(** The body of the loop over the shapes (lines 40 to 71), working
    on the canvas [img]. *)
Definition draw_shape (shape : Shape) (img : Image) : M Image :=
  if shape_type shape =? 13 then
    let image := Pptx.image shape in
    let* opened :=
      try_except
        (let image_bytes := blob image in
         let* pil_img := lift (decode image_bytes) in
         ret (Some pil_img))
        is_IOError
        (λ e, log WARNING (ErrorOpeningImage e) >> ret None) in
    match opened with
    | None => ret img
    | Some pil_img =>
        let x_left := shape_left shape // 9525 in
        let y_top := shape_top shape // 9525 in
        let shape_width := Pptx.shape_width shape // 9525 in
        let shape_height := Pptx.shape_height shape // 9525 in
        let* pil_img := lift (resize pil_img (shape_width, shape_height)) in
        lift (paste img pil_img (x_left, y_top))
    end
  else if has_text_frame shape then
    let text := frame_text (text_frame shape) in
    if negb (truthy (strip text)) then ret img
    else
      let x_left := shape_left shape // 9525 in
      let y_top := shape_top shape // 9525 in
      lift (PIL.text img (x_left, y_top) text black)
  else ret img.

Definition draw_slide_content (slide : Slide) (width height : Z)
    (output_path : path) : M unit :=
  let* img := lift (new RGB (width, height) white) in
  let* img := for_each (shapes slide) draw_shape img in
  Image_save img output_path.

(** The body of the loop over the comments (lines 84 and 85),
    working on the overlay and the running [y_offset]. *)
Definition draw_comment (comment : string) (acc : Image * Z) : M (Image * Z) :=
  let '(overlay, y_offset) := acc in
  let* overlay := lift (PIL.text overlay (10, y_offset) comment (255, 0, 0, 255)) in
  ret (overlay, y_offset + 20).

Definition overlay_comments (slide_image_path : path) (comments : list string)
  : M Image :=
  let* opened := Image_open slide_image_path in
  let img := convert opened RGBA in
  let* overlay := lift (new RGBA (size img) (255, 255, 255, 0)) in
  let* drawn := for_each comments draw_comment (overlay, 10) in
  let* combined := lift (alpha_composite img drawn.1) in
  ret (convert combined RGB).

(** The body of the loop of [convert_ppt] over the slides. *)
Definition convert_slide (slide_width slide_height : Z) (item : Z * Slide)
    (_ : unit) : M unit :=
  let '(idx, slide) := item in
  let orig_path := (ORIGINAL_DIR, slide_png idx) in
  draw_slide_content slide slide_width slide_height orig_path >>
  copy orig_path (OUTPUT_DIR, slide_png idx).

Definition convert_ppt (file : UploadFile) : M Response :=
  try_except
    (if negb (endswith (lower (filename file)) ".pptx")
     then ret (JSONResponse (error_content "Only .pptx files are supported.") 400)
     else
       let file_path := "temp_" +:+ filename file in
       write_file file_path (read file) >>
       for_each [OUTPUT_DIR; ORIGINAL_DIR] (λ d _, rmtree_makedirs d) tt >>
       let* prs := Presentation file_path in
       let slide_width := Pptx.slide_width prs // 9525 in
       let slide_height := Pptx.slide_height prs // 9525 in
       for_each (enumerate (slides prs) 1)
                (convert_slide slide_width slide_height) tt >>
       remove file_path >>
       modify (set_comments ∅) >>
       let n := Z.of_nat (length (slides prs)) in
       let slide_urls := (λ i, slide_url (i + 1)) <$> seqZ 0 n in
       ret (returned (convert_content n slide_urls)))
    Exception
    (λ e, log ERROR (ErrorIn "convert_ppt" e) >>
          raise (HTTPException 500 (InternalServerError e))).

(** [comments_store.setdefault(k, []).append(c)]. *)
Definition setdefault_append (k : Z) (c : string) : M unit :=
  modify (λ s, set_comments
                 (<[k := default [] (comments_store s !! k) ++ [c]]>
                    (comments_store s)) s).

(** [comments_store[k]]. *)
Definition getitem (k : Z) : M (list string) :=
  λ s, match comments_store s !! k with
       | Some l => (Ok l, s)
       | None => (Raise KeyError, s)
       end.

Definition add_comment (slide_number : Z) (comment : string) : M Response :=
  try_except
    (let orig_image_path := (ORIGINAL_DIR, slide_png slide_number) in
     let* found := path_exists orig_image_path in
     (if negb found
      then raise (HTTPException 404 (Message "Slide not found"))
      else ret tt) >>
     setdefault_append slide_number comment >>
     let* comments := getitem slide_number in
     let* updated_img := overlay_comments orig_image_path comments in
     let updated_path := (OUTPUT_DIR, slide_png slide_number) in
     Image_save updated_img updated_path >>
     ret (returned (comment_content "Comment added" (slide_url slide_number))))
    Exception
    (λ e, log ERROR (ErrorIn "add_comment" e) >>
          raise (HTTPException 500 (InternalServerError e))).

Definition get_comments (slide_number : Z) : M Response :=
  let* comments := gets (λ s, default [] (comments_store s !! slide_number)) in
  ret (returned (comments_content comments)).

End Program.

End Main.

(** ** [src/venv/main.py]

    The older copy of the program: the same text without the [try]
    blocks, that is, without the guard around the decoder and without
    the conversion of every exception of a handler into a 500 answer. *)

Module Venv.

Import PIL Pptx Session IO Http.

Section Program.
Context {lib : Imaging} {office : Parser}.

(** The body of the loop over the shapes (lines 34 to 61). *)
Definition draw_shape (shape : Shape) (img : Image) : M Image :=
  if shape_type shape =? 13 then
    let image := Pptx.image shape in
    let image_bytes := blob image in
    let* pil_img := lift (decode image_bytes) in
    let x_left := shape_left shape // 9525 in
    let y_top := shape_top shape // 9525 in
    let shape_width := Pptx.shape_width shape // 9525 in
    let shape_height := Pptx.shape_height shape // 9525 in
    let* pil_img := lift (resize pil_img (shape_width, shape_height)) in
    lift (paste img pil_img (x_left, y_top))
  else if has_text_frame shape then
    let text := Main.frame_text (text_frame shape) in
    if negb (truthy (strip text)) then ret img
    else
      let x_left := shape_left shape // 9525 in
      let y_top := shape_top shape // 9525 in
      lift (PIL.text img (x_left, y_top) text black)
  else ret img.

Definition draw_slide_content (slide : Slide) (width height : Z)
    (output_path : path) : M unit :=
  let* img := lift (new RGB (width, height) white) in
  let* img := for_each (shapes slide) draw_shape img in
  Image_save img output_path.

(** Lines 66 to 78, the same text as in [src/main.py]. *)
Definition overlay_comments : path → list string → M Image :=
  Main.overlay_comments.

Definition convert_slide (slide_width slide_height : Z) (item : Z * Slide)
    (_ : unit) : M unit :=
  let '(idx, slide) := item in
  let orig_path := (ORIGINAL_DIR, Main.slide_png idx) in
  draw_slide_content slide slide_width slide_height orig_path >>
  copy orig_path (OUTPUT_DIR, Main.slide_png idx).

Definition convert_ppt (file : UploadFile) : M Response :=
  if negb (endswith (lower (filename file)) ".pptx")
  then ret (JSONResponse (error_content "Only .pptx files are supported.") 400)
  else
    let file_path := "temp_" +:+ filename file in
    write_file file_path (read file) >>
    for_each [OUTPUT_DIR; ORIGINAL_DIR] (λ d _, rmtree_makedirs d) tt >>
    let* prs := Presentation file_path in
    let slide_width := Pptx.slide_width prs // 9525 in
    let slide_height := Pptx.slide_height prs // 9525 in
    for_each (enumerate (slides prs) 1)
             (convert_slide slide_width slide_height) tt >>
    remove file_path >>
    modify (set_comments ∅) >>
    let n := Z.of_nat (length (slides prs)) in
    let slide_urls := (λ i, Main.slide_url (i + 1)) <$> seqZ 0 n in
    ret (returned (convert_content n slide_urls)).

Definition add_comment (slide_number : Z) (comment : string) : M Response :=
  let orig_image_path := (ORIGINAL_DIR, Main.slide_png slide_number) in
  let* found := path_exists orig_image_path in
  (if negb found
   then raise (HTTPException 404 (Message "Slide not found"))
   else ret tt) >>
  Main.setdefault_append slide_number comment >>
  let* comments := Main.getitem slide_number in
  let* updated_img := overlay_comments orig_image_path comments in
  let updated_path := (OUTPUT_DIR, Main.slide_png slide_number) in
  Image_save updated_img updated_path >>
  ret (returned (comment_content "Comment added" (Main.slide_url slide_number))).

Definition get_comments : Z → M Response := Main.get_comments.

End Program.

End Venv.

(** ** Predicates and views used in the statements

    The words of the properties proved below: what a case variant of
    the suffix is, what it means for a computation to touch the log
    only or nothing at all, which shapes are blank, and the pieces of
    the program singled out by the statements. *)

Module Properties.

Import PIL Pptx Session IO Http Main.

Section Suffix.
Open Scope char_scope.

(** A case variant of the suffix [.pptx], letter by letter. *)
Definition pptx_variant (v : string) : Prop :=
  ∃ c1 c2 c3 c4,
    v = String "." (String c1 (String c2 (String c3 (String c4 EmptyString)))) ∧
    (c1 = "p" ∨ c1 = "P") ∧ (c2 = "p" ∨ c2 = "P") ∧
    (c3 = "t" ∨ c3 = "T") ∧ (c4 = "x" ∨ c4 = "X").

(** A file name that ends in a case variant of [.pptx]. *)
Definition pptx_name (name : string) : Prop :=
  ∃ stem v, name = (stem +:+ v)%string ∧ pptx_variant v.

End Suffix.

Definition add_logs (l : list (Level * LogMessage)) (s : State) : State :=
  {| comments_store := comments_store s; original_slides := original_slides s;
     slides_dir := slides_dir s; cwd := cwd s; logged := logged s ++ l |}.

Definition logs_only {A} (m : M A) : Prop :=
  ∃ r l, ∀ s, m s = (r, add_logs l s).

(** Two states with the same comments and the same image files. *)
Definition same_session (s s' : State) : Prop :=
  comments_store s = comments_store s' ∧
  original_slides s = original_slides s' ∧
  slides_dir s = slides_dir s'.

(** No character other than whitespace. *)
Fixpoint blank (s : string) : bool :=
  match s with
  | EmptyString => true
  | String c s' => isspace c && blank s'
  end.

(** A text shape all of whose runs are blank. *)
Definition whitespace_text_shape (shape : Shape) : Prop :=
  shape_type shape ≠ 13 ∧ has_text_frame shape = true ∧
  Forall (λ paragraph, Forall (λ run, blank (run_text run) = true) (runs paragraph))
         (paragraphs (text_frame shape)).

(** The conversion the specification words as a truncating division. *)
Definition truncated_px (emu : Z) : Z := Z.quot emu 9525.

(** Painting keeps the mode, the size and the number of pixels of
    the canvas. *)
Definition same_frame (a b : Image) : Prop :=
  mode a = mode b ∧ size a = size b ∧ length (data a) = length (data b).

(** A computation that neither reads nor writes the state. *)
Definition stateless {A} (m : M A) : Prop := ∃ r, ∀ s, m s = (r, s).

Definition not_found : exn := HTTPException 404 (Message "Slide not found").

(** The directory [m] after the files of the slides numbered from [k]
    on were written into it, in order. *)
Fixpoint store (k : Z) (imgs : list Image) (m : gmap string Image)
  : gmap string Image :=
  match imgs with
  | [] => m
  | img :: rest => store (k + 1) rest (<[slide_png k := img]> m)
  end.

Definition rejection : Response :=
  JSONResponse (error_content "Only .pptx files are supported.") 400.

(** The answer of a conversion that went through. *)
Definition converted_answer (prs : Pptx.Presentation) : Response :=
  let n := Z.of_nat (length (slides prs)) in
  returned (convert_content n ((λ i, slide_url (i + 1)) <$> seqZ 0 n)).

Section Views.
Context {lib : Imaging}.

(** Lines 35 to 71 of [draw_slide_content]: the canvas with every
    shape painted, before it is saved. *)
Definition painted (slide : Slide) (width height : Z) : M Image :=
  let* img := lift (new RGB (width, height) white) in
  for_each (shapes slide) draw_shape img.

(** Lines 77 to 88 of [overlay_comments], after the base image was
    opened. *)
Definition composed (opened : Image) (comments : list string) : M Image :=
  let img := convert opened RGBA in
  let* overlay := lift (new RGBA (size img) (255, 255, 255, 0)) in
  let* drawn := for_each comments draw_comment (overlay, 10) in
  let* combined := lift (alpha_composite img drawn.1) in
  ret (convert combined RGB).

(** The raster that the rasterizer produces for a slide. *)
Definition rendered (w h : Z) (slide : Slide) (img : Image) : Prop :=
  ∀ t, (painted slide w h t).1 = Ok img.

End Views.

End Properties.

(** ** Concrete libraries and documents

    One instance of each interface, small enough to run the program on:
    a decoder that refuses the empty payload, takes a payload of one
    byte for a one-pixel grey picture and any longer payload for such a
    picture cut short after its header, nearest-neighbour resampling,
    a font whose text is a one-pixel-high bar with one pixel per
    character, and a parser that answers with a given presentation. *)

Module Sample.

Import PIL Pptx Session IO Http Main.

Definition grey (b : Byte.byte) : pixel :=
  let v := Z.of_N (Byte.to_N b) in (v, v, v, 255).

#[local] Instance imaging : Imaging := {|
  decode bs :=
    match bs with
    | [] => Raise (IOError "cannot identify image file")
    | [b] => Ok {| header_mode := RGB; header_size := (1, 1);
                   body := Ok [grey b] |}
    | _ :: _ :: _ =>
        Ok {| header_mode := RGB; header_size := (1, 1);
              body := Raise (IOError "image file is truncated") |}
    end;
  resample im w h x y :=
    getpixel im (x * fst (size im) / w) (y * snd (size im) / h);
  getmask s :=
    Ok (λ dx dy, if (0 <=? dx) && (dx <? Z.of_nat (String.length s)) && (dy =? 0)
                 then 255 else 0);
|}.

Definition parser (answer : result Pptx.Presentation) : Parser :=
  {| parse _ := answer |}.

Definition no_frame : TextFrame := {| paragraphs := [] |}.
Definition no_image : ImagePart := {| blob := [] |}.

Definition text_shape (x y : Z) (lines : list string) : Shape :=
  {| shape_type := 17; image := no_image; has_text_frame := true;
     text_frame := {| paragraphs := (λ l, {| runs := [{| run_text := l |}] |}) <$> lines |};
     shape_left := x; shape_top := y; shape_width := 0; shape_height := 0 |}.

Definition picture (payload : bytes) (x y w h : Z) : Shape :=
  {| shape_type := 13; image := {| blob := payload |}; has_text_frame := false;
     text_frame := no_frame;
     shape_left := x; shape_top := y; shape_width := w; shape_height := h |}.

(** The state of a process that has just started. *)
Definition start : State :=
  {| comments_store := ∅; original_slides := ∅; slides_dir := ∅;
     cwd := ∅; logged := [] |}.

(** A two-slide deck of 12 by 11 pixels: a greeting on the first
    slide, a one-pixel black picture on the second. *)
Definition deck : Pptx.Presentation :=
  {| slide_width := 12 * 9525; slide_height := 11 * 9525 + 17;
     slides := [ {| shapes := [text_shape 0 0 ["Hello"]] |};
                 {| shapes := [picture [Byte.x00] 9525 9525 9525 9525] |} ] |}.

Definition upload (name : string) : UploadFile :=
  {| filename := name; read := [Byte.x50; Byte.x4b] |}.

Definition blank_slide : Slide :=
  {| shapes := [text_shape 9525 0 ["  "; ""];
                text_shape 0 19050 [newline]] |}.

Definition corrupt : Shape := picture [] 0 0 9525 9525.

Definition greeting : Shape := text_shape 0 0 ["Hi"].

Definition sample_parser : Parser := parser (Ok deck).

(** The conversion request for the sample deck under a given name. *)
Definition sample_run (name : string) (s : State) : result Response * State :=
  convert_ppt (lib := imaging) (office := sample_parser) (upload name) s.

(** The state after the conversion of the sample deck. *)
Definition converted : State := (sample_run "deck.pptx" start).2.

Definition first_base : Image :=
  default {| mode := RGB; size := (0, 0); data := [] |}
          (original_slides converted !! slide_png 1).

(** A state with comments and a stale file, as left by earlier
    requests. *)
Definition used : State :=
  {| comments_store := {[ 1 := ["old"]; 7 := ["older"] ]};
     original_slides := {[ slide_png 7 := {| mode := RGB; size := (1, 1); data := [white] |} ]};
     slides_dir := {[ slide_png 7 := {| mode := RGB; size := (1, 1); data := [white] |} ]};
     cwd := ∅; logged := [] |}.

(** A one-pixel picture placed one unit left of the canvas. *)
Definition offside : Shape := picture [Byte.x00] (-1) 0 9525 9525.

Definition two_white : Image :=
  {| mode := RGB; size := (2, 1); data := [white; white] |}.

Definition dot : Image := {| mode := RGB; size := (1, 1); data := [black] |}.

(** The image file that [dot] is loaded from. *)
Definition dot_file : ImageFile :=
  {| header_mode := RGB; header_size := (1, 1); body := Ok [black] |}.

End Sample.

(** ** The static mount

    The last line of both source files,
    [app.mount("/slides", StaticFiles(directory=OUTPUT_DIR))]: the served
    directory is published under the prefix [/slides]. *)

Module Static.

Import PIL Pptx Session IO Http Main.

(** The rest of [s] after [prefix], when [s] starts with it. *)
Fixpoint strip_prefix (prefix s : string) : option string :=
  match prefix, s with
  | EmptyString, _ => Some s
  | String a prefix', String b s' =>
      if Ascii.eqb a b then strip_prefix prefix' s' else None
  | String _ _, EmptyString => None
  end.

(** The answer of the framework for a file that is not there. *)
Definition no_such_file : exn := HTTPException 404 (Message "Not Found").

(** A GET request for a file: below [/slides/] the file of that name in
    the served directory, 404 for everything else. *)
Definition get_file (url : string) : M Image :=
  match strip_prefix "/slides/" url with
  | Some name =>
      λ s, match listdir OUTPUT_DIR s !! name with
           | Some im => (Ok im, s)
           | None => (Raise no_such_file, s)
           end
  | None => raise no_such_file
  end.

End Static.

(** ** Runs of requests and paintable shapes

    More words for the statements: a run of annotation requests on one
    slide, the shapes that the rasterizer paints without raising, the
    position of a pixel, and the two colours of the overlay. *)

Module Scenarios.

Import Properties PIL Pptx Session IO Http Main.

(** The text colour and the background of the overlay (lines 78 and 84). *)
Definition red : pixel := (255, 0, 0, 255).
Definition transparent : pixel := (255, 255, 255, 0).

(** Column and row of the [i]-th pixel of a raster [w] pixels wide. *)
Definition column (w : Z) (i : nat) : Z := Z.of_nat i mod w.
Definition row (w : Z) (i : nat) : Z := Z.of_nat i / w.

(** The paragraphs of a frame that are not blank, each with its line
    feed. *)
Definition visible_lines (frame : TextFrame) : list string :=
  (λ paragraph, join (run_text <$> runs paragraph) +:+ newline)
    <$> List.filter (λ paragraph, negb (blank (join (run_text <$> runs paragraph))))
                    (paragraphs frame).

(** The largest side that the format allows for a slide, in its own
    unit: 5376 pixels. *)
Definition largest_side : Z := 51206400.

(** Pixels that are all opaque. *)
Definition opaque (ps : list pixel) : Prop := Forall (λ p, alpha p = 255) ps.

(** The image files of a state are in order: every base image is a
    well-formed opaque [RGB] raster, and so is every served image,
    which moreover has a base image of the same name and the same
    size. *)
Definition images_in_order (s : State) : Prop :=
  (∀ name base, original_slides s !! name = Some base → opaque_rgb base) ∧
  (∀ name img, slides_dir s !! name = Some img →
     opaque_rgb img ∧
     ∃ base, original_slides s !! name = Some base ∧ size img = size base).

Section Views.
Context {lib : Imaging}.

(** The state after a run of annotation requests on slide [n]. *)
Fixpoint add_comments (n : Z) (cs : list string) (s : State) : State :=
  match cs with
  | [] => s
  | c :: rest => add_comments n rest (add_comment n c s).2
  end.

(** A shape that [draw_shape] paints or skips without raising on a
    slide of nominal size [W] by [H]: a picture that the decoder
    refuses with an [IOError], or a picture whose pixels load, that is
    at least one pixel big and lies inside the slide; a text shape that
    is blank, or whose text the font renders and whose origin lies
    inside the slide; any shape that is neither. *)
Definition paintable (W H : Z) (shape : Shape) : Prop :=
  if shape_type shape =? 13 then
    match decode (blob (image shape)) with
    | Ok pil =>
        is_ok (load pil) = true ∧
        9525 ≤ shape_width shape ∧ 9525 ≤ shape_height shape ∧
        0 ≤ shape_left shape ∧ 0 ≤ shape_top shape ∧
        shape_left shape + shape_width shape ≤ W ∧
        shape_top shape + shape_height shape ≤ H
    | Raise e => is_IOError e = true
    end
  else if has_text_frame shape then
    truthy (strip (frame_text (text_frame shape))) = false ∨
    (is_ok (getmask (frame_text (text_frame shape))) = true ∧
     0 ≤ shape_left shape ≤ W ∧ 0 ≤ shape_top shape ≤ H)
  else True.

End Views.

End Scenarios.

(** ** More concrete libraries

    The sample library with a font that renders ASCII text only, as a
    bitmap font with a fixed code page does. *)

Module Samples.

Import PIL Pptx Session IO Http Main.

Definition ascii_only (s : string) : bool :=
  forallb (λ c, code c <? 128) (list_ascii_of_string s).

#[local] Instance ascii_imaging : Imaging := {|
  decode := decode (Imaging := Sample.imaging);
  resample := resample (Imaging := Sample.imaging);
  getmask s :=
    if ascii_only s then getmask (Imaging := Sample.imaging) s
    else Raise (OtherError "UnicodeEncodeError");
|}.

(** A comment with the letter e-acute (code point 233). *)
Definition accented : string := String (ascii_of_nat 233) "t".

(** A slide with a picture, a blank text, a text and a corrupt picture. *)
Definition busy_slide : Slide :=
  {| shapes := [Sample.picture [Byte.x00] 9525 0 19050 9525;
                Sample.text_shape 0 0 [" "];
                Sample.text_shape 0 9525 ["ab"];
                Sample.corrupt] |}.



(** A deck with the busy slide and a slide without shapes. *)
Definition busy_deck : Pptx.Presentation :=
  {| slide_width := 3 * 9525; slide_height := 2 * 9525;
     slides := [ busy_slide; {| shapes := [] |} ] |}.

Definition busy_parser : Parser := Sample.parser (Ok busy_deck).

(** A document without slides and with a negative nominal width. *)
Definition empty_deck : Pptx.Presentation :=
  {| slide_width := -9525; slide_height := 9525; slides := [] |}.

Definition empty_parser : Parser := Sample.parser (Ok empty_deck).

End Samples.

(** ** The extension test of [convert_ppt] *)

Module Extension.

Import Properties.
Open Scope char_scope.

Ltac by_cases_on_char c :=
  destruct c as [[] [] [] [] [] [] [] []]; vm_compute;
  split; intros Hc; try discriminate Hc; auto;
  destruct Hc as [Hc | Hc]; discriminate Hc.

Lemma lower_char_dot c : lower_char c = "." ↔ c = ".".
Proof.
  destruct c as [[] [] [] [] [] [] [] []]; vm_compute;
    split; intros Hc; try discriminate Hc; auto.
Qed.

Lemma lower_char_p c : lower_char c = "p" ↔ c = "p" ∨ c = "P".
Proof. by_cases_on_char c. Qed.

Lemma lower_char_t c : lower_char c = "t" ↔ c = "t" ∨ c = "T".
Proof. by_cases_on_char c. Qed.

Lemma lower_char_x c : lower_char c = "x" ↔ c = "x" ∨ c = "X".
Proof. by_cases_on_char c. Qed.

Lemma lower_variant v : lower v = ".pptx"%string ↔ pptx_variant v.
Proof.
  split.
  - destruct v as [|c0 [|c1 [|c2 [|c3 [|c4 [|c5 v]]]]]]; simpl; try discriminate.
    intros H. injection H as H0 H1 H2 H3 H4.
    apply (proj1 (lower_char_dot _)) in H0. rewrite H0.
    exists c1, c2, c3, c4. split; [reflexivity|].
    rewrite <- !lower_char_p, <- lower_char_t, <- lower_char_x. auto.
  - intros (c1 & c2 & c3 & c4 & -> & H1 & H2 & H3 & H4). simpl.
    apply (proj2 (lower_char_p _)) in H1, H2.
    apply (proj2 (lower_char_t _)) in H3.
    apply (proj2 (lower_char_x _)) in H4.
    rewrite H1, H2, H3, H4. reflexivity.
Qed.

Open Scope string_scope.

Lemma endswith_unfold s suffix :
  endswith s suffix =
    if String.eqb s suffix then true
    else match s with
         | EmptyString => false
         | String _ s' => endswith s' suffix
         end.
Proof. destruct s; reflexivity. Qed.

Lemma endswith_spec s suffix :
  endswith s suffix = true ↔ ∃ stem, s = stem +:+ suffix.
Proof.
  split.
  - induction s as [|c s IH]; rewrite endswith_unfold.
    + destruct (String.eqb_spec "" suffix) as [<-|Hne]; [|discriminate].
      intros _. by exists "".
    + destruct (String.eqb_spec (String c s) suffix) as [<-|Hne].
      * intros _. by exists "".
      * intros H. destruct (IH H) as [stem ->]. by exists (String c stem).
  - intros [stem ->]. induction stem as [|c stem IH].
    + rewrite endswith_unfold. change ("" +:+ suffix) with suffix.
      by rewrite String.eqb_refl.
    + change (String c stem +:+ suffix) with (String c (stem +:+ suffix)).
      rewrite endswith_unfold.
      destruct (String.eqb (String c (stem +:+ suffix)) suffix);
        [reflexivity | exact IH].
Qed.

Lemma lower_app a b : lower (a +:+ b) = lower a +:+ lower b.
Proof. induction a as [|c a IH]; simpl; [reflexivity | by rewrite IH]. Qed.

Lemma lower_split s a b :
  lower s = a +:+ b → ∃ s1 s2, s = s1 +:+ s2 ∧ lower s1 = a ∧ lower s2 = b.
Proof.
  revert s. induction a as [|c a IH]; intros s H.
  - by exists "", s.
  - destruct s as [|d s]; [discriminate|]. simpl in H.
    injection H as Hd Hs. destruct (IH _ Hs) as (s1 & s2 & -> & H1 & H2).
    exists (String d s1), s2. simpl. by rewrite Hd, H1.
Qed.

(** The test of the program accepts exactly the names that end in a
    case variant of the suffix. *)
Lemma accepted_iff name :
  endswith (lower name) ".pptx" = true ↔ pptx_name name.
Proof.
  rewrite endswith_spec. split.
  - intros [stem H]. apply lower_split in H as (s1 & s2 & -> & _ & H2).
    exists s1, s2. split; [reflexivity|]. by apply lower_variant.
  - intros (stem & v & -> & Hv). apply lower_variant in Hv.
    exists (lower stem). by rewrite lower_app, Hv.
Qed.

End Extension.

(** ** Computations that only log

    The rasterizer touches the process state through the log alone: a
    computation is [logs_only] when, from every state, it ends with the
    same outcome and appends the same records. *)

Module Logs.

Import Properties PIL Pptx Session IO.

Lemma ok_inv {A} (a b : A) (s s' : State) :
  (Ok a, s) = (Ok b, s') → a = b ∧ s = s'.
Proof. intros [= -> ->]. by split. Qed.

Lemma run_inv {A} (r r' : result A) (s s' : State) :
  (r, s) = (r', s') → r = r' ∧ s = s'.
Proof. intros [= -> ->]. by split. Qed.

Lemma add_logs_nil s : add_logs [] s = s.
Proof. destruct s. unfold add_logs. simpl. by rewrite app_nil_r. Qed.

Lemma add_logs_app l l' s : add_logs l' (add_logs l s) = add_logs (l ++ l') s.
Proof. unfold add_logs. simpl. by rewrite app_assoc. Qed.

Lemma logs_only_lift {A} (r : result A) : logs_only (lift r).
Proof. exists r, []. intros s. by rewrite add_logs_nil. Qed.

Lemma logs_only_ret {A} (a : A) : logs_only (ret a).
Proof. apply (logs_only_lift (Ok a)). Qed.

Lemma logs_only_raise {A} e : logs_only (@raise A e).
Proof. apply (logs_only_lift (Raise e)). Qed.

Lemma logs_only_log lvl msg : logs_only (log lvl msg).
Proof. exists (Ok tt), [(lvl, msg)]. reflexivity. Qed.

Lemma logs_only_bind {A B} (m : M A) (k : A → M B) :
  logs_only m → (∀ a, logs_only (k a)) → logs_only (bind m k).
Proof.
  intros (r & l & Hm) Hk. destruct r as [a|e].
  - destruct (Hk a) as (r' & l' & Hka). exists r', (l ++ l').
    intros s. unfold bind. by rewrite Hm, Hka, add_logs_app.
  - exists (Raise e), l. intros s. unfold bind. by rewrite Hm.
Qed.

Lemma logs_only_try {A} (m : M A) cls (h : exn → M A) :
  logs_only m → (∀ e, logs_only (h e)) → logs_only (try_except m cls h).
Proof.
  intros (r & l & Hm) Hh. destruct r as [a|e].
  - exists (Ok a), l. intros s. unfold try_except. by rewrite Hm.
  - destruct (cls e) eqn:Hcls.
    + destruct (Hh e) as (r' & l' & Hhe). exists r', (l ++ l').
      intros s. unfold try_except. by rewrite Hm, Hcls, Hhe, add_logs_app.
    + exists (Raise e), l. intros s. unfold try_except. by rewrite Hm, Hcls.
Qed.

Lemma logs_only_for_each {A B} (xs : list A) (body : A → B → M B) acc :
  (∀ x b, logs_only (body x b)) → logs_only (for_each xs body acc).
Proof.
  intros Hbody. revert acc. induction xs as [|x xs IH]; intros acc; simpl.
  - apply logs_only_ret.
  - apply logs_only_bind; [apply Hbody | exact IH].
Qed.

Lemma for_each_app {A B} (xs ys : list A) (body : A → B → M B) acc s :
  for_each (xs ++ ys) body acc s =
    (let* acc' := for_each xs body acc in for_each ys body acc') s.
Proof.
  revert acc s. induction xs as [|x xs IH]; intros acc s; simpl.
  - reflexivity.
  - unfold bind. destruct (body x acc s) as [[b|e] s1].
    + rewrite IH. reflexivity.
    + reflexivity.
Qed.

End Logs.

(** ** The rasterizer *)

Module Rasterizer.

Import Properties PIL Pptx Session IO Logs Main.

Section Facts.
Context {lib : Imaging}.

Lemma draw_slide_content_painted slide w h p s :
  draw_slide_content slide w h p s =
    (let* img := painted slide w h in Image_save img p) s.
Proof.
  unfold draw_slide_content, painted, bind, lift.
  destruct (new RGB (w, h) white); [|reflexivity].
  destruct (for_each _ _ _ _) as [[?|?] ?]; reflexivity.
Qed.

Lemma draw_shape_logs_only shape img : logs_only (draw_shape shape img).
Proof.
  unfold draw_shape. destruct (shape_type shape =? 13).
  - apply logs_only_bind.
    + apply logs_only_try.
      * apply logs_only_bind; [apply logs_only_lift | intros; apply logs_only_ret].
      * intros e. apply logs_only_bind; [apply logs_only_log | intros; apply logs_only_ret].
    + intros [pil|]; [|apply logs_only_ret].
      apply logs_only_bind; [apply logs_only_lift | intros; apply logs_only_lift].
  - destruct (has_text_frame shape); [|apply logs_only_ret].
    destruct (negb _); [apply logs_only_ret | apply logs_only_lift].
Qed.

Lemma painted_logs_only slide w h : logs_only (painted slide w h).
Proof.
  apply logs_only_bind; [apply logs_only_lift|].
  intros img. apply logs_only_for_each. apply draw_shape_logs_only.
Qed.

Lemma paste_frame dst src box im :
  paste dst src box = Ok im → same_frame im dst.
Proof.
  unfold paste. destruct box as [x0 y0]. destruct (size src) as [sw sh].
  destruct (_ && _); [|discriminate].
  intros [= <-]. repeat split. simpl. apply length_imap.
Qed.

Lemma text_frame_kept im xy t fill im' :
  PIL.text im xy t fill = Ok im' → same_frame im' im.
Proof.
  unfold PIL.text. destruct xy as [x0 y0].
  destruct (getmask t); [|discriminate].
  intros [= <-]. repeat split. simpl. apply length_imap.
Qed.

Lemma draw_shape_frame shape img s img' s' :
  draw_shape shape img s = (Ok img', s') → same_frame img' img.
Proof.
  unfold draw_shape. destruct (shape_type shape =? 13).
  - unfold bind, try_except, lift, ret, log, modify.
    destruct (decode _) as [pil|e].
    + destruct (resize pil _); [|discriminate].
      intros [Hp _]%run_inv. by apply paste_frame in Hp.
    + destruct (is_IOError e); [|discriminate].
      intros [= <- _]. by repeat split.
  - destruct (has_text_frame shape).
    + destruct (negb _).
      * intros [= <- _]. by repeat split.
      * unfold lift. intros [Ht _]%run_inv. by apply text_frame_kept in Ht.
    + intros [= <- _]. by repeat split.
Qed.

Lemma for_each_frame shapes img s img' s' :
  for_each shapes draw_shape img s = (Ok img', s') → same_frame img' img.
Proof.
  revert img s. induction shapes as [|shape shapes IH]; intros img s; simpl.
  - intros [= <- _]. by repeat split.
  - unfold bind. destruct (draw_shape shape img s) as [[img1|e] s1] eqn:H1;
      [|discriminate].
    intros H2. apply IH in H2. apply draw_shape_frame in H1.
    destruct H2 as (? & ? & ?), H1 as (? & ? & ?). repeat split; congruence.
Qed.

Lemma new_frame m w h color im :
  new m (w, h) color = Ok im →
  mode im = m ∧ size im = (w, h) ∧ wf im ∧
  data im = replicate (Z.to_nat (w * h)) (to_mode m color).
Proof.
  unfold new. destruct (_ || _) eqn:Hneg; [discriminate|].
  destruct (negb _); [discriminate|].
  intros [= <-]. apply orb_false_iff in Hneg as [Hw Hh].
  repeat split; simpl; try lia. by rewrite length_replicate.
Qed.

(** Every painted canvas is an [RGB] raster of the requested size. *)
Lemma painted_frame slide w h s img s' :
  painted slide w h s = (Ok img, s') →
  mode img = RGB ∧ size img = (w, h) ∧ wf img.
Proof.
  unfold painted, bind, lift.
  destruct (new RGB (w, h) white) as [canvas|] eqn:Hnew; [|discriminate].
  intros Hp. apply for_each_frame in Hp as (Hm & Hs & Hl).
  apply new_frame in Hnew as (Hm' & Hs' & (Hw & Hh & Hl') & _).
  unfold wf. rewrite Hm, Hs, Hl. repeat split; congruence.
Qed.

End Facts.

End Rasterizer.

(** ** Blank text and skipped shapes *)

Module Shapes.

Import Properties PIL Pptx Session IO Logs Main Rasterizer.

Lemma blank_lstrip s : blank s = true → lstrip s = EmptyString.
Proof.
  induction s as [|c s IH]; simpl; [reflexivity|].
  intros [Hc Hs]%andb_true_iff. rewrite Hc. by apply IH.
Qed.

Lemma blank_strip s : blank s = true → strip s = EmptyString.
Proof. intros Hs. unfold strip. rewrite (blank_lstrip s Hs). reflexivity. Qed.

Lemma blank_app a b : blank a = true → blank b = true → blank (a +:+ b) = true.
Proof.
  intros Ha Hb. induction a as [|c a IH]; simpl in *; [exact Hb|].
  apply andb_true_iff in Ha as [Hc Ha]. rewrite Hc. by apply IH.
Qed.

Lemma blank_join parts :
  Forall (λ part, blank part = true) parts → blank (join parts) = true.
Proof.
  induction 1 as [|part parts Hpart _ IH]; simpl; [reflexivity|].
  by apply blank_app.
Qed.

Lemma frame_text_blank frame :
  Forall (λ paragraph, Forall (λ run, blank (run_text run) = true) (runs paragraph))
         (paragraphs frame) →
  frame_text frame = EmptyString.
Proof.
  unfold frame_text. intros Hall.
  enough (Hgen : ∀ text,
    fold_left (λ text paragraph,
                 let para_text := join (run_text <$> runs paragraph) in
                 if truthy (strip para_text)
                 then text +:+ para_text +:+ newline
                 else text) (paragraphs frame) text = text) by apply Hgen.
  induction Hall as [|paragraph rest Hp _ IH]; intros text; simpl; [reflexivity|].
  rewrite blank_strip; [apply IH|].
  apply blank_join. apply Forall_fmap. exact Hp.
Qed.

Section Facts.
Context {lib : Imaging}.

Lemma draw_whitespace_shape shape img s :
  whitespace_text_shape shape → draw_shape shape img s = (Ok img, s).
Proof.
  intros (Htype & Hframe & Hblank). unfold draw_shape.
  apply Z.eqb_neq in Htype. rewrite Htype, Hframe.
  by rewrite (frame_text_blank _ Hblank).
Qed.

Lemma draw_whitespace_shapes shapes img s :
  Forall whitespace_text_shape shapes →
  for_each shapes draw_shape img s = (Ok img, s).
Proof.
  induction 1 as [|shape rest Hshape _ IH]; simpl; [reflexivity|].
  unfold bind. by rewrite draw_whitespace_shape.
Qed.

(** C6. A text shape with nothing but whitespace in its runs
    contributes nothing: wherever it stands among the shapes of a
    slide, the slide is rasterized exactly like the slide without it,
    with the same outcome and the same files.  A slide whose shapes are
    all of that kind is rasterized exactly like a slide with no shape
    at all, and whenever its rasterization goes through, the file it
    has written is the solid white canvas of the requested size. *)
Theorem whitespace_only_slide_is_blank slide shape before after w h p s :
  whitespace_text_shape shape →
  Forall whitespace_text_shape (shapes slide) →
  draw_slide_content {| shapes := before ++ shape :: after |} w h p s
    = draw_slide_content {| shapes := before ++ after |} w h p s ∧
  draw_slide_content slide w h p s
    = draw_slide_content {| shapes := [] |} w h p s ∧
  (∀ s', draw_slide_content slide w h p s = (Ok tt, s') →
     0 < w ∧ 0 < h ∧
     s' = set_dir p.1
            (<[p.2 := {| mode := RGB; size := (w, h);
                         data := replicate (Z.to_nat (w * h)) white |}]>
               (listdir p.1 s)) s).
Proof.
  intros Hshape Hall.
  assert (Hblank : draw_slide_content slide w h p s
                   = draw_slide_content {| shapes := [] |} w h p s).
  { unfold draw_slide_content, bind, lift.
    destruct (new RGB (w, h) white) as [canvas|e]; [|reflexivity].
    by rewrite draw_whitespace_shapes. }
  split; [|split; [exact Hblank|]].
  - unfold draw_slide_content, bind, lift. cbn [shapes].
    destruct (new RGB (w, h) white) as [canvas|e]; [|reflexivity].
    rewrite !for_each_app. unfold bind.
    destruct (for_each before draw_shape canvas s) as [[img1|e1] s1]; [|reflexivity].
    cbn [for_each]. unfold bind. by rewrite draw_whitespace_shape.
  - intros s'. rewrite Hblank. unfold draw_slide_content, bind, lift, new.
    destruct (_ || _) eqn:Hneg; [discriminate|].
    destruct (negb _); [discriminate|].
    cbn [shapes for_each ret]. unfold Image_save. cbn [size].
    destruct (empty (w, h)) eqn:Hempty; [discriminate|].
    unfold modify. intros [= <-].
    apply orb_false_iff in Hempty as [Hw%Z.leb_gt Hh%Z.leb_gt].
    cbn [fst snd] in *. by repeat split.
Qed.

End Facts.

Lemma whitespace_only_slide_is_blank_witness :
  let p := (ORIGINAL_DIR, slide_png 1) in
  let draw shapes :=
    draw_slide_content (lib := Sample.imaging) {| shapes := shapes |} 3 2 p Sample.start in
  let spaces := Sample.text_shape 9525 0 ["  "; ""] in
  draw [Sample.greeting; spaces; Sample.greeting] = draw [Sample.greeting; Sample.greeting] ∧
  draw (shapes Sample.blank_slide) = draw [] ∧
  original_slides (draw (shapes Sample.blank_slide)).2 !! slide_png 1
    = Some {| mode := RGB; size := (3, 2); data := replicate 6 white |}.
Proof.
  intros p draw spaces.
  assert (Hspaces : whitespace_text_shape spaces).
  { repeat constructor; discriminate. }
  assert (Hall : Forall whitespace_text_shape (shapes Sample.blank_slide)).
  { repeat constructor; discriminate. }
  destruct (whitespace_only_slide_is_blank (lib := Sample.imaging)
              Sample.blank_slide spaces [Sample.greeting] [Sample.greeting]
              3 2 p Sample.start Hspaces Hall)
    as (Hone & Hblank & Hwhite).
  split; [exact Hone|]. split; [exact Hblank|].
  destruct (Hwhite (draw (shapes Sample.blank_slide)).2 eq_refl) as (_ & _ & ->).
  reflexivity.
Defined.

End Shapes.

(** ** Failures while painting a shape *)

Module Failures.

Import Properties PIL Pptx Session IO Logs Http Main Rasterizer.

Section Facts.
Context {lib : Imaging}.

Lemma same_session_add_logs l s : same_session (add_logs l s) s.
Proof. by repeat split. Qed.

Lemma same_session_save im p s t :
  same_session s t →
  same_session (Image_save im p s).2 (Image_save im p t).2.
Proof.
  intros (Hc & Ho & Hs). unfold Image_save.
  destruct (empty (size im)); [by repeat split|].
  destruct p as [[] name]; repeat split; simpl; congruence.
Qed.

Lemma Image_save_outcome im p s t : (Image_save im p s).1 = (Image_save im p t).1.
Proof. unfold Image_save. by destruct (empty (size im)). Qed.

Lemma Image_save_logged im p s : logged (Image_save im p s).2 = logged s.
Proof.
  unfold Image_save. destruct (empty (size im)); [reflexivity|].
  by destruct p as [[] name].
Qed.

Lemma draw_undecodable bad img s msg :
  shape_type bad = 13 → decode (blob (image bad)) = Raise (IOError msg) →
  draw_shape bad img s
    = (Ok img, add_logs [(WARNING, ErrorOpeningImage (IOError msg))] s).
Proof.
  intros Htype Hdecode. unfold draw_shape. rewrite Htype. simpl.
  unfold bind, try_except, lift. by rewrite Hdecode.
Qed.

(** The slide is painted as if the undecodable picture were not on
    it; the only trace of the picture is in the log. *)
Lemma skipped_like_absent before bad after msg w h p s :
  shape_type bad = 13 → decode (blob (image bad)) = Raise (IOError msg) →
  let with_bad := draw_slide_content {| shapes := before ++ bad :: after |} w h p s in
  let without := draw_slide_content {| shapes := before ++ after |} w h p s in
  with_bad.1 = without.1 ∧ same_session with_bad.2 without.2 ∧
  (is_ok (painted {| shapes := before |} w h s).1 = true →
   (WARNING, ErrorOpeningImage (IOError msg)) ∈ logged with_bad.2).
Proof.
  intros Htype Hdecode. cbv zeta.
  rewrite !draw_slide_content_painted. unfold painted, bind, lift.
  cbn [shapes].
  destruct (new RGB (w, h) white) as [canvas|e0]; [|by repeat split].
  rewrite !for_each_app. unfold bind.
  destruct (logs_only_for_each before draw_shape canvas draw_shape_logs_only)
    as (r1 & l1 & H1).
  rewrite H1. destruct r1 as [img1|e1]; [|by repeat split].
  simpl for_each. unfold bind. rewrite (draw_undecodable _ _ _ msg) by done.
  destruct (logs_only_for_each after draw_shape img1 draw_shape_logs_only)
    as (r3 & l3 & H3).
  rewrite !H3. destruct r3 as [img3|e3].
  - split; [apply Image_save_outcome|]. split.
    + apply same_session_save. by repeat split.
    + intros _. rewrite Image_save_logged. simpl. set_solver.
  - split; [reflexivity|]. split; [by repeat split|].
    intros _. simpl. set_solver.
Qed.




End Facts.


End Failures.

(** ** The overlay engine *)

Module Overlay.

Import Properties PIL Pptx Session IO Logs Http Main Rasterizer.

Lemma stateless_lift {A} (r : result A) : stateless (lift r).
Proof. by exists r. Qed.

Lemma stateless_ret {A} (a : A) : stateless (ret a).
Proof. by exists (Ok a). Qed.

Lemma stateless_bind {A B} (m : M A) (k : A → M B) :
  stateless m → (∀ a, stateless (k a)) → stateless (bind m k).
Proof.
  intros [r Hm] Hk. destruct r as [a|e].
  - destruct (Hk a) as [r' Hka]. exists r'. intros s. unfold bind.
    by rewrite Hm, Hka.
  - exists (Raise e). intros s. unfold bind. by rewrite Hm.
Qed.

Lemma stateless_for_each {A B} (xs : list A) (body : A → B → M B) acc :
  (∀ x b, stateless (body x b)) → stateless (for_each xs body acc).
Proof.
  intros Hbody. revert acc. induction xs as [|x xs IH]; intros acc; simpl.
  - apply stateless_ret.
  - apply stateless_bind; [apply Hbody | exact IH].
Qed.

Section Facts.
Context {lib : Imaging}.

Lemma overlay_comments_composed p comments s :
  overlay_comments p comments s =
    match listdir p.1 s !! p.2 with
    | Some opened =>
        match refusal opened with
        | Some e => (Raise e, s)
        | None => composed opened comments s
        end
    | None => (Raise (IOError "No such file or directory"), s)
    end.
Proof.
  unfold overlay_comments, bind at 1, Image_open.
  destruct (listdir p.1 s !! p.2) as [opened|]; [|reflexivity].
  destruct (refusal opened); reflexivity.
Qed.

Lemma refusal_None im :
  refusal im = None ↔ empty (size im) = false ∧ bomb (size im) = false.
Proof.
  unfold refusal. destruct (empty (size im)), (bomb (size im)); split;
    try discriminate; try done; by intros [? ?].
Qed.

Lemma draw_comments_frame comments o y o' y' s s' :
  for_each comments draw_comment (o, y) s = (Ok (o', y'), s') →
  same_frame o' o.
Proof.
  revert o y. induction comments as [|c rest IH]; intros o y.
  - by intros [= <- _].
  - cbn [for_each]. unfold bind at 1, draw_comment at 1, bind, lift, ret.
    destruct (PIL.text o (10, y) c (255, 0, 0, 255)) as [o1|] eqn:Ht; [|discriminate].
    intros Hrest. apply IH in Hrest. apply text_frame_kept in Ht.
    destruct Hrest as (? & ? & ?), Ht as (? & ? & ?). repeat split; congruence.
Qed.

(** The overlay has the size of the image it was composed on. *)
Lemma composed_size opened comments s img s' :
  composed opened comments s = (Ok img, s') → size img = size opened.
Proof.
  unfold composed, bind at 1, lift.
  destruct (new RGBA _ _) as [overlay|]; [|discriminate].
  unfold bind at 1.
  destruct (for_each comments draw_comment _ s) as [[drawn|e] s1]; [|discriminate].
  unfold bind, lift, ret.
  destruct (alpha_composite _ _) as [combined|] eqn:Hc; [|discriminate].
  intros [= <- _]. unfold alpha_composite in Hc.
  destruct (mode (convert opened RGBA)), (mode drawn.1); try discriminate.
  destruct (size_eqb _ _); [|discriminate]. by injection Hc as <-.
Qed.

(** An overlay that was computed has pixels: it can be saved. *)
Lemma overlay_not_empty p comments s img :
  (overlay_comments p comments s).1 = Ok img → empty (size img) = false.
Proof.
  rewrite overlay_comments_composed.
  destruct (listdir p.1 s !! p.2) as [opened|]; [|discriminate].
  destruct (refusal opened) eqn:Href; [discriminate|].
  apply refusal_None in Href as [Hsize _].
  destruct (composed opened comments s) as [r s'] eqn:Hrun. cbn [fst].
  intros ->. by rewrite (composed_size _ _ _ _ _ Hrun).
Qed.

Lemma composed_stateless opened comments : stateless (composed opened comments).
Proof.
  unfold composed. apply stateless_bind; [apply stateless_lift|].
  intros overlay. apply stateless_bind.
  - apply stateless_for_each. intros comment [o y]. unfold draw_comment.
    apply stateless_bind; [apply stateless_lift | intros; apply stateless_ret].
  - intros drawn. apply stateless_bind; [apply stateless_lift|].
    intros; apply stateless_ret.
Qed.

(** The overlay leaves the whole state as it found it. *)
Lemma overlay_comments_state p comments s :
  (overlay_comments p comments s).2 = s.
Proof.
  rewrite overlay_comments_composed.
  destruct (listdir p.1 s !! p.2) as [opened|]; [|reflexivity].
  destruct (refusal opened); [reflexivity|].
  destruct (composed_stateless opened comments) as [r Hr]. by rewrite Hr.
Qed.

(** Its outcome is a function of the base image file and of the
    comments. *)
Lemma overlay_comments_outcome p comments s s' :
  listdir p.1 s !! p.2 = listdir p.1 s' !! p.2 →
  (overlay_comments p comments s).1 = (overlay_comments p comments s').1.
Proof.
  intros Hfile. rewrite !overlay_comments_composed, Hfile.
  destruct (listdir p.1 s' !! p.2) as [opened|]; [|reflexivity].
  destruct (refusal opened); [reflexivity|].
  destruct (composed_stateless opened comments) as [r Hr]. by rewrite !Hr.
Qed.

Lemma overlay_comments_run p comments s :
  overlay_comments p comments s = ((overlay_comments p comments s).1, s).
Proof.
  rewrite <- (overlay_comments_state p comments s) at 3.
  by destruct (overlay_comments p comments s).
Qed.

End Facts.

End Overlay.

(** ** The overlay of an empty log *)

Module EmptyLog.

Import Properties PIL Pptx Session IO Logs Http Main Overlay.

Lemma set_alpha_opaque (ps : list pixel) :
  Forall (λ p, alpha p = 255) ps → set_alpha 255 <$> ps = ps.
Proof.
  induction 1 as [|p ps Hp _ IH]; [reflexivity|].
  rewrite fmap_cons, IH. f_equal.
  destruct p as [[[r g] b] a]. unfold alpha in Hp. simpl in Hp. by subst a.
Qed.

Lemma composite_transparent (ps : list pixel) (n : nat) :
  (length ps ≤ n)%nat →
  zip_with composite_pixel ps (replicate n (255, 255, 255, 0)) = ps.
Proof.
  revert n. induction ps as [|p ps IH]; intros n Hn; simpl.
  - by destruct n.
  - destruct n as [|n]; simpl in *; [lia|].
    rewrite IH by lia. reflexivity.
Qed.

Lemma convert_opaque m w h ps m' :
  Forall (λ p, alpha p = 255) ps →
  convert {| mode := m; size := (w, h); data := ps |} m'
    = {| mode := m'; size := (w, h); data := ps |}.
Proof.
  intros Hopaque. unfold convert. cbn [mode size data].
  destruct m, m'; by rewrite ?(set_alpha_opaque ps Hopaque).
Qed.

Lemma new_ok m w h color :
  0 ≤ w ≤ 2147483647 → 0 ≤ h ≤ 2147483647 →
  new m (w, h) color
    = Ok {| mode := m; size := (w, h);
            data := replicate (Z.to_nat (w * h)) (to_mode m color) |}.
Proof.
  intros Hw Hh. unfold new, c_int.
  destruct (Z.ltb_spec w 0); [lia|]. destruct (Z.ltb_spec h 0); [lia|].
  cbn [orb].
  rewrite (proj2 (Z.leb_le _ w)), (proj2 (Z.leb_le w _)) by lia.
  by rewrite (proj2 (Z.leb_le _ h)), (proj2 (Z.leb_le h _)) by lia.
Qed.

(** The sides of an image that [Image.open] accepts. *)
Lemma accepted_size w h :
  empty (w, h) = false → bomb (w, h) = false →
  1 ≤ w ≤ 178956970 ∧ 1 ≤ h ≤ 178956970.
Proof.
  unfold empty, bomb, MAX_IMAGE_PIXELS. cbn [fst snd].
  intros [Hw%Z.leb_gt Hh%Z.leb_gt]%orb_false_iff Hbomb%Z.ltb_ge.
  rewrite !Z.max_r in Hbomb by lia. nia.
Qed.

Lemma alpha_composite_transparent w h ps n :
  (length ps ≤ n)%nat →
  alpha_composite {| mode := RGBA; size := (w, h); data := ps |}
                  {| mode := RGBA; size := (w, h);
                     data := replicate n (255, 255, 255, 0) |}
    = Ok {| mode := RGBA; size := (w, h); data := ps |}.
Proof.
  intros Hn. unfold alpha_composite, size_eqb. cbn [mode size data fst snd].
  by rewrite !Z.eqb_refl, composite_transparent.
Qed.

Section Facts.
Context {lib : Imaging}.

(** C8, as the program has it.  With an empty comment log the
    overlay of an existing opaque [RGB] base image of at most
    178956970 pixels succeeds and returns that very image.  A base
    image of more pixels is refused when it is opened, whatever the
    comment log is: the overlay raises and writes nothing. *)
Theorem overlay_of_empty_log_is_base p s base :
  listdir p.1 s !! p.2 = Some base →
  opaque_rgb base →
  (bomb (size base) = false → overlay_comments p [] s = (Ok base, s)) ∧
  (bomb (size base) = true →
   ∀ comments, overlay_comments p comments s = (Raise decompression_bomb, s)).
Proof.
  intros Hfile (Hmode & (Hw & Hh & Hlen) & Hopaque & Hsize). split.
  - intros Hbomb. rewrite overlay_comments_composed, Hfile.
    rewrite (proj2 (refusal_None base)) by done.
    destruct base as [m [w h] ps]. cbn [mode size data fst snd] in *. subst m.
    destruct (accepted_size w h Hsize Hbomb) as [Hw' Hh'].
    unfold composed. rewrite (convert_opaque _ _ _ _ RGBA Hopaque).
    cbn [size]. rewrite new_ok by lia.
    unfold bind, lift, ret. cbn [for_each ret fst to_mode].
    rewrite alpha_composite_transparent by lia.
    by rewrite (convert_opaque _ _ _ _ RGB Hopaque).
  - intros Hbomb comments. rewrite overlay_comments_composed, Hfile.
    unfold refusal. by rewrite Hsize, Hbomb.
Qed.

End Facts.

Lemma overlay_of_empty_log_is_base_witness :
  let p := (ORIGINAL_DIR, slide_png 1) in
  let base := {| mode := RGB; size := (2, 1);
                 data := [(1, 2, 3, 255); (255, 255, 255, 255)] |} in
  let s := set_dir ORIGINAL_DIR {[ slide_png 1 := base ]} Sample.start in
  overlay_comments (lib := Sample.imaging) p [] s = (Ok base, s).
Proof.
  intros p base s.
  apply (overlay_of_empty_log_is_base (lib := Sample.imaging) p s base).
  - reflexivity.
  - unfold opaque_rgb, wf. simpl. repeat split; try lia.
    repeat constructor.
  - reflexivity.
Defined.

(** C8, as the specification has it, fails: a white base image of
    13378 by 13378 pixels is an opaque [RGB] image file like any
    other, and its overlay with the empty log raises. *)
Lemma large_base_image_is_refused :
  let p := (ORIGINAL_DIR, slide_png 1) in
  let base := {| mode := RGB; size := (13378, 13378);
                 data := replicate (Z.to_nat (13378 * 13378)) white |} in
  let s := set_dir ORIGINAL_DIR {[ slide_png 1 := base ]} Sample.start in
  opaque_rgb base ∧
  listdir p.1 s !! p.2 = Some base ∧
  overlay_comments (lib := Sample.imaging) p [] s = (Raise decompression_bomb, s).
Proof.
  intros p base s.
  assert (Hfile : listdir p.1 s !! p.2 = Some base) by apply lookup_singleton_eq.
  split; [|split; [exact Hfile|]].
  - split; [reflexivity|]. split; [|split].
    + unfold wf. cbn [size data fst snd base]. split; [lia|]. split; [lia|].
      apply length_replicate.
    + cbn [data base]. by apply Forall_replicate.
    + reflexivity.
  - rewrite overlay_comments_composed, Hfile. reflexivity.
Qed.

End EmptyLog.

(** ** The annotation request *)

Module Annotation.

Import Properties PIL Pptx Session IO Logs Http Main Overlay.

Section Facts.
Context {lib : Imaging}.

(** The request for a slide without base image, in [src/main.py]:
    the 404 exception is raised inside the [try] block, caught by
    its [except Exception] clause, logged, and replaced by a 500. *)
Lemma add_comment_missing s n c :
  original_slides s !! slide_png n = None →
  add_comment n c s
    = (Raise (HTTPException 500 (InternalServerError not_found)),
       add_logs [(ERROR, ErrorIn "add_comment" not_found)] s).
Proof.
  intros Hnone. unfold add_comment, try_except, bind, path_exists, gets.
  cbn [fst snd listdir]. rewrite Hnone.
  rewrite bool_decide_false by (by intros [? ?]). reflexivity.
Qed.

(** The same request in [src/venv/main.py]: the 404 reaches the
    framework. *)
Lemma venv_add_comment_missing s n c :
  original_slides s !! slide_png n = None →
  Venv.add_comment n c s = (Raise not_found, s).
Proof.
  intros Hnone. unfold Venv.add_comment, bind, path_exists, gets.
  cbn [fst snd listdir]. rewrite Hnone.
  rewrite bool_decide_false by (by intros [? ?]). reflexivity.
Qed.

(** The request for a slide with a base image: the comment is
    appended, the overlay is computed from the base image and the
    whole log, and the served image is replaced; if the overlay
    raises, the comment stays appended and the answer is a 500. *)
Lemma add_comment_found s n c base :
  original_slides s !! slide_png n = Some base →
  let log := default [] (comments_store s !! n) ++ [c] in
  let s1 := set_comments (<[n := log]> (comments_store s)) s in
  add_comment n c s =
    match (overlay_comments (ORIGINAL_DIR, slide_png n) log s).1 with
    | Ok img =>
        (Ok (returned (comment_content "Comment added" (slide_url n))),
         set_dir OUTPUT_DIR (<[slide_png n := img]> (slides_dir s)) s1)
    | Raise e =>
        (Raise (HTTPException 500 (InternalServerError e)),
         add_logs [(ERROR, ErrorIn "add_comment" e)] s1)
    end.
Proof.
  intros Hbase log s1.
  rewrite (overlay_comments_outcome _ log s s1) by reflexivity.
  unfold add_comment, try_except, bind, path_exists, gets.
  cbn [fst snd listdir]. rewrite Hbase.
  rewrite bool_decide_true by eauto. cbn [negb].
  unfold ret at 1, setdefault_append, modify, getitem. fold log. fold s1.
  replace (comments_store s1 !! n) with (Some log)
    by (symmetry; apply lookup_insert_eq).
  rewrite (overlay_comments_run _ log s1).
  destruct (overlay_comments (ORIGINAL_DIR, slide_png n) log s1).1 as [img|e] eqn:Himg;
    [|reflexivity].
  unfold Image_save. by rewrite (overlay_not_empty _ _ _ _ Himg).
Qed.

End Facts.

End Annotation.

Module AnnotationClaims.

Import Properties PIL Pptx Session IO Logs Http Main Overlay Annotation.

Section Facts.
Context {lib : Imaging}.

Lemma add_comment_effect s n c base :
  original_slides s !! slide_png n = Some base →
  let s' := (add_comment n c s).2 in
  original_slides s' = original_slides s ∧
  comments_store s'
    = <[n := default [] (comments_store s !! n) ++ [c]]> (comments_store s).
Proof.
  intros Hbase. cbv zeta. rewrite (add_comment_found s n c base Hbase).
  by destruct (overlay_comments _ _ s).1.
Qed.

(** C1. The overlay is a function of the base image file and of the
    comment list: running it twice gives the same outcome and the
    same (unchanged) state, its outcome is the same from any two
    states that hold the same base image, and after two annotation
    requests on a fresh slide the served image is the overlay of
    the base image with both comments, computed directly. *)
Theorem overlay_is_function_of_base_and_log s s0 n c1 c2 comments base :
  original_slides s !! slide_png n = Some base →
  original_slides s0 !! slide_png n = Some base →
  comments_store s !! n = None →
  let p := (ORIGINAL_DIR, slide_png n) in
  let s2 := (add_comment n c2 (add_comment n c1 s).2).2 in
  overlay_comments p comments (overlay_comments p comments s).2
    = overlay_comments p comments s ∧
  (overlay_comments p comments s0).1 = (overlay_comments p comments s).1 ∧
  ∀ img, (overlay_comments p [c1; c2] s0).1 = Ok img →
         slides_dir s2 !! slide_png n = Some img.
Proof.
  intros Hbase Hbase0 Hfresh p s2. split; [|split].
  - by rewrite overlay_comments_state.
  - apply overlay_comments_outcome. subst p. cbn [fst snd listdir]. congruence.
  - intros img Himg. subst s2.
    destruct (add_comment_effect s n c1 base Hbase) as [Ho Hc].
    set (s1 := (add_comment n c1 s).2) in *.
    assert (Hbase1 : original_slides s1 !! slide_png n = Some base)
      by congruence.
    rewrite (add_comment_found s1 n c2 base Hbase1).
    rewrite Hc, Hfresh, lookup_insert_eq. cbn [default app].
    rewrite (overlay_comments_outcome _ [c1; c2] s1 s0)
      by (cbn [fst snd listdir]; congruence).
    fold p. rewrite Himg. cbn [snd slides_dir set_dir].
    apply lookup_insert_eq.
Qed.

(** C9. An annotation request on a slide with a base image leaves
    every base image as it was (the overlay itself writes nothing,
    it composes on a converted copy of the opened image), leaves
    every other served image as it was, and on success replaces
    the served image of that slide by the new overlay. *)
Theorem add_comment_keeps_base_image s n c base :
  original_slides s !! slide_png n = Some base →
  let p := (ORIGINAL_DIR, slide_png n) in
  let log := default [] (comments_store s !! n) ++ [c] in
  let s' := (add_comment n c s).2 in
  (overlay_comments p log s).2 = s ∧
  original_slides s' = original_slides s ∧
  (∀ name, name ≠ slide_png n → slides_dir s' !! name = slides_dir s !! name) ∧
  (∀ img, (overlay_comments p log s).1 = Ok img →
          status (add_comment n c s).1 = 200 ∧
          slides_dir s' = <[slide_png n := img]> (slides_dir s)).
Proof.
  intros Hbase p log s'. split; [apply overlay_comments_state|].
  split; [by apply (add_comment_effect s n c base)|].
  subst s'. rewrite (add_comment_found s n c base Hbase). fold p log.
  destruct (overlay_comments p log s).1 as [img|e]; split.
  - intros name Hname. cbn [snd slides_dir set_dir].
    by rewrite lookup_insert_ne.
  - by intros ? [= <-].
  - done.
  - discriminate.
Qed.

(** C3, as the program has it.  For a slide number without base
    image the handler of [src/main.py] raises the 404 exception
    inside its own [try] block, whose [except Exception] clause
    catches it: the client receives status 500, not 404.  The
    comments and the image files are left as they were.  The older
    copy [src/venv/main.py] has no [try] block and answers 404. *)
Theorem add_comment_missing_slide_answers_500 s n c :
  original_slides s !! slide_png n = None →
  (add_comment n c s).1
    = Raise (HTTPException 500 (InternalServerError not_found)) ∧
  status (add_comment n c s).1 = 500 ∧
  same_session (add_comment n c s).2 s ∧
  status (Venv.add_comment n c s).1 = 404 ∧
  (Venv.add_comment n c s).2 = s.
Proof.
  intros Hnone.
  rewrite (add_comment_missing s n c Hnone).
  rewrite (venv_add_comment_missing s n c Hnone).
  by repeat split.
Qed.

End Facts.

Lemma overlay_is_function_of_base_and_log_witness :
  let p := (ORIGINAL_DIR, slide_png 1) in
  let overlay := overlay_comments (lib := Sample.imaging) p in
  let add := add_comment (lib := Sample.imaging) 1 in
  let s2 := (add "Fix title" (add "Looks good" Sample.converted).2).2 in
  overlay ["a"; "b"] (overlay ["a"; "b"] Sample.converted).2 = overlay ["a"; "b"] Sample.converted ∧
  (overlay ["a"; "b"] s2).1 = (overlay ["a"; "b"] Sample.converted).1 ∧
  is_ok (overlay ["Looks good"; "Fix title"] Sample.converted).1 = true ∧
  ∀ img, (overlay ["Looks good"; "Fix title"] Sample.converted).1 = Ok img →
         slides_dir s2 !! slide_png 1 = Some img.
Proof.
  intros p overlay add s2.
  destruct (overlay_is_function_of_base_and_log (lib := Sample.imaging)
              Sample.converted s2 1 "Looks good" "Fix title" ["a"; "b"] Sample.first_base)
    as (Htwice & Hsame & _); [vm_compute; reflexivity ..|].
  destruct (overlay_is_function_of_base_and_log (lib := Sample.imaging)
              Sample.converted Sample.converted 1 "Looks good" "Fix title" ["a"; "b"] Sample.first_base)
    as (_ & _ & Hserved); [vm_compute; reflexivity ..|].
  split; [exact Htwice|]. split; [exact Hsame|].
  split; [vm_compute; reflexivity | exact Hserved].
Defined.

Lemma add_comment_keeps_base_image_witness :
  let s' := (add_comment (lib := Sample.imaging) 2 "Crop" Sample.converted).2 in
  original_slides s' = original_slides Sample.converted ∧
  (∀ name, name ≠ slide_png 2 → slides_dir s' !! name = slides_dir Sample.converted !! name).
Proof.
  refine (let H := add_comment_keeps_base_image (lib := Sample.imaging)
                     Sample.converted 2 "Crop"
                     (default Sample.first_base (original_slides Sample.converted !! slide_png 2))
                     _ in conj (proj1 (proj2 H)) (proj1 (proj2 (proj2 H)))).
  vm_compute; reflexivity.
Defined.

Lemma add_comment_missing_slide_answers_500_witness :
  status (add_comment (lib := Sample.imaging) 99 "x" Sample.converted).1 = 500 ∧
  status (Venv.add_comment (lib := Sample.imaging) 99 "x" Sample.converted).1 = 404.
Proof.
  refine (let H := add_comment_missing_slide_answers_500 (lib := Sample.imaging)
                     Sample.converted 99 "x" _ in
          conj (proj1 (proj2 H)) (proj1 (proj2 (proj2 (proj2 H))))).
  vm_compute; reflexivity.
Defined.

End AnnotationClaims.

(** ** File names of the slides *)

Module Names.

Import Properties Main.

Lemma length_app (a b : string) :
  String.length (a +:+ b) = (String.length a + String.length b)%nat.
Proof. induction a as [|x a IH]; [reflexivity|]. simpl. by rewrite <- IH. Qed.

Lemma app_cancel_r (a b c : string) : a +:+ c = b +:+ c → a = b.
Proof.
  intros Heq.
  assert (Hlen : String.length a = String.length b).
  { apply (f_equal String.length) in Heq.
    rewrite !length_app in Heq. lia. }
  revert b Heq Hlen. induction a as [|x a IH]; intros [|y b] Heq Hlen;
    try discriminate Hlen; [reflexivity|].
  injection Heq as -> Heq. f_equal. apply IH; [exact Heq|].
  simpl in Hlen. lia.
Qed.

(** Two slide numbers never share a file name. *)
Lemma slide_png_inj i j : slide_png i = slide_png j → i = j.
Proof.
  unfold slide_png, str_int. intros Heq.
  apply (inj (String.app "slide_")) in Heq.
  apply app_cancel_r in Heq. by apply (inj pretty) in Heq.
Qed.

End Names.

(** ** The conversion request *)

Module Conversion.

Import Properties PIL Pptx Session IO Logs Http Main Rasterizer Names.

Lemma store_lookup_other k imgs (m : gmap string Image) name :
  (∀ i, k ≤ i < k + Z.of_nat (length imgs) → name ≠ slide_png i) →
  store k imgs m !! name = m !! name.
Proof.
  revert k m. induction imgs as [|img rest IH]; intros k m Hname; [reflexivity|].
  cbn [store]. rewrite IH.
  - apply lookup_insert_ne. intros Heq. apply (Hname k); [|done].
    cbn [length]. lia.
  - intros i Hi. apply Hname. cbn [length]. lia.
Qed.

Lemma store_lookup k imgs (m : gmap string Image) (i : nat) img :
  imgs !! i = Some img →
  store k imgs m !! slide_png (k + Z.of_nat i) = Some img.
Proof.
  revert k m i. induction imgs as [|img0 rest IH]; intros k m i Hi;
    [discriminate|].
  destruct i as [|i]; cbn [store].
  - injection Hi as ->. rewrite store_lookup_other.
    + replace (k + Z.of_nat 0) with k by lia. apply lookup_insert_eq.
    + intros j Hj Heq. apply slide_png_inj in Heq. lia.
  - replace (k + Z.of_nat (S i)) with (k + 1 + Z.of_nat i) by lia.
    by apply IH.
Qed.

Lemma store_is_Some k imgs (m : gmap string Image) name :
  is_Some (store k imgs m !! name) →
  is_Some (m !! name) ∨
  ∃ i : nat, (i < length imgs)%nat ∧ name = slide_png (k + Z.of_nat i).
Proof.
  revert k m. induction imgs as [|img rest IH]; intros k m Hsome; [by left|].
  cbn [store] in Hsome. apply IH in Hsome as [Hsome | (i & Hi & ->)].
  - destruct (decide (name = slide_png k)) as [->|Hne].
    + right. exists 0%nat. split; [cbn [length]; lia|]. f_equal. lia.
    + left. by rewrite lookup_insert_ne in Hsome.
  - right. exists (S i). split; [cbn [length]; lia|]. f_equal. lia.
Qed.

Lemma store_size k imgs (m : gmap string Image) :
  (∀ j, k ≤ j → m !! slide_png j = None) →
  base.size (store k imgs m) = (length imgs + base.size m)%nat.
Proof.
  revert k m. induction imgs as [|img rest IH]; intros k m Hfree; [reflexivity|].
  cbn [store length]. rewrite IH.
  - rewrite map_size_insert_None by (apply Hfree; lia). lia.
  - intros j Hj. rewrite lookup_insert_ne; [apply Hfree; lia|].
    intros Heq. apply slide_png_inj in Heq. lia.
Qed.

Section Facts.
Context {lib : Imaging}.

Lemma rendered_run w h slide img :
  rendered w h slide img →
  ∃ l, ∀ t, painted slide w h t = (Ok img, add_logs l t).
Proof.
  intros Hr. destruct (painted_logs_only slide w h) as (r & l & Hrun).
  exists l. intros t. specialize (Hr t). rewrite Hrun in *.
  cbn [fst] in Hr. by rewrite Hr.
Qed.

Lemma rendered_size w h slide img :
  rendered w h slide img → size img = (w, h).
Proof.
  intros Hr. specialize (Hr Sample.start).
  destruct (painted slide w h Sample.start) as [r t] eqn:Hp.
  cbn [fst] in Hr. subst r. by apply painted_frame in Hp as (_ & Hs & _).
Qed.

Lemma convert_slide_run w h k slide img :
  rendered w h slide img → empty (w, h) = false →
  ∃ l, ∀ t,
    convert_slide w h (k, slide) tt t =
      (Ok tt,
       {| comments_store := comments_store t;
          original_slides := <[slide_png k := img]> (original_slides t);
          slides_dir := <[slide_png k := img]> (slides_dir t);
          cwd := cwd t; logged := logged t ++ l |}).
Proof.
  intros Hr Hsize. pose proof (rendered_size _ _ _ _ Hr) as Himg.
  apply rendered_run in Hr as [l Hrun]. exists l. intros t.
  unfold convert_slide, bind at 1. rewrite draw_slide_content_painted.
  unfold bind at 1. rewrite Hrun.
  unfold Image_save at 1. rewrite Himg, Hsize. unfold modify, copy.
  cbn [fst snd listdir set_dir add_logs original_slides].
  by rewrite lookup_insert_eq.
Qed.

(** A canvas without pixels is painted but cannot be saved. *)
Lemma convert_slide_empty w h k slide img t :
  rendered w h slide img → empty (w, h) = true →
  ∃ l, convert_slide w h (k, slide) tt t
         = (Raise (SystemError "tile cannot extend outside image"), add_logs l t).
Proof.
  intros Hr Hsize. pose proof (rendered_size _ _ _ _ Hr) as Himg.
  apply rendered_run in Hr as [l Hrun]. exists l.
  unfold convert_slide, bind at 1. rewrite draw_slide_content_painted.
  unfold bind at 1. rewrite Hrun.
  unfold Image_save at 1. by rewrite Himg, Hsize.
Qed.

Lemma convert_slide_raises w h k slide e t :
  (painted slide w h t).1 = Raise e →
  (convert_slide w h (k, slide) tt t).1 = Raise e.
Proof.
  intros He. unfold convert_slide, bind at 1.
  rewrite draw_slide_content_painted. unfold bind at 1.
  destruct (painted slide w h t) as [r t']. cbn [fst] in He. by subst r.
Qed.

Lemma convert_loop_total w h slides imgs :
  Forall2 (rendered w h) slides imgs →
  (slides ≠ [] → empty (w, h) = false) →
  ∀ k, ∃ l, ∀ t,
    for_each (enumerate slides k) (convert_slide w h) tt t =
      (Ok tt,
       {| comments_store := comments_store t;
          original_slides := store k imgs (original_slides t);
          slides_dir := store k imgs (slides_dir t);
          cwd := cwd t; logged := logged t ++ l |}).
Proof.
  induction 1 as [|slide img slides imgs Hr _ IH]; intros Hsize k.
  - exists []. intros t. destruct t. cbn. by rewrite app_nil_r.
  - specialize (Hsize ltac:(done)).
    destruct (convert_slide_run w h k slide img Hr Hsize) as [l1 H1].
    destruct (IH (λ _, Hsize) (k + 1)) as [l2 H2]. exists (l1 ++ l2). intros t.
    cbn [enumerate for_each]. unfold bind. rewrite H1, H2.
    cbn [comments_store original_slides slides_dir cwd logged store].
    by rewrite app_assoc.
Qed.

Lemma convert_loop_success w h slides k t t' :
  for_each (enumerate slides k) (convert_slide w h) tt t = (Ok tt, t') →
  (∃ imgs, Forall2 (rendered w h) slides imgs) ∧
  (slides ≠ [] → empty (w, h) = false).
Proof.
  revert k t. induction slides as [|slide slides IH]; intros k t Hrun.
  - split; [|done]. exists []. constructor.
  - cbn [enumerate for_each] in Hrun. unfold bind in Hrun.
    destruct (painted_logs_only slide w h) as (r & l & Hp).
    destruct r as [img|e].
    + assert (Hr : rendered w h slide img) by (intros u; by rewrite Hp).
      destruct (empty (w, h)) eqn:Hsize.
      { destruct (convert_slide_empty w h k slide img t Hr Hsize) as [l1 H1].
        rewrite H1 in Hrun. discriminate Hrun. }
      split; [|done].
      destruct (convert_slide_run w h k slide img Hr Hsize) as [l1 H1].
      rewrite H1 in Hrun. apply IH in Hrun as [[imgs Himgs] _].
      exists (img :: imgs). by constructor.
    + pose proof (convert_slide_raises w h k slide e t) as He.
      rewrite Hp in He. specialize (He eq_refl).
      destruct (convert_slide w h (k, slide) tt t) as [r' t1].
      cbn [fst] in He. subst r'. discriminate Hrun.
Qed.

End Facts.

End Conversion.

Module ConversionRuns.

Import Properties PIL Pptx Session IO Logs Http Main Rasterizer Names Conversion.

Section Facts.
Context {lib : Imaging} {office : Parser}.

Lemma write_file_ok name content s :
  open_wb name = Ok tt →
  write_file name content s = (Ok tt, set_cwd (<[name := content]> (cwd s)) s).
Proof. intros Hopen. unfold write_file, bind, lift. by rewrite Hopen. Qed.

Lemma write_file_fails name content e s :
  open_wb name = Raise e → write_file name content s = (Raise e, s).
Proof. intros Hopen. unfold write_file, bind, lift. by rewrite Hopen. Qed.

Lemma open_wb_cases name : open_wb name = Ok tt ∨ ∃ e, open_wb name = Raise e.
Proof. destruct (open_wb name) as [[]|e]; eauto. Qed.

Lemma convert_ppt_rejected file s :
  endswith (lower (filename file)) ".pptx" = false →
  convert_ppt file s = (Ok rejection, s).
Proof. intros Hrej. unfold convert_ppt, try_except. by rewrite Hrej. Qed.

Lemma venv_convert_ppt_rejected file s :
  endswith (lower (filename file)) ".pptx" = false →
  Venv.convert_ppt file s = (Ok rejection, s).
Proof. intros Hrej. unfold Venv.convert_ppt. by rewrite Hrej. Qed.

(** Whatever the handler of [src/main.py] raises is a 500; an
    accepted upload is never answered with the rejection. *)
Lemma convert_ppt_accepted_status file s :
  endswith (lower (filename file)) ".pptx" = true →
  status (convert_ppt file s).1 = 200 ∨ status (convert_ppt file s).1 = 500.
Proof.
  intros Hacc. unfold convert_ppt, try_except. rewrite Hacc. cbn [negb].
  match goal with |- context [match ?m s with _ => _ end] =>
    destruct (m s) as [[resp|e] s1] eqn:Hrun end.
  - left. revert Hrun. unfold bind.
    repeat match goal with
           | |- context [match ?m ?t with _ => _ end] =>
               destruct (m t) as [[?|?] ?]; try discriminate
           end.
    by intros [= <- _].
  - right. reflexivity.
Qed.

(** Status 200 is the status of an answer that the handler returned. *)
Lemma convert_ppt_200 file s :
  status (convert_ppt file s).1 = 200 →
  ∃ resp, (convert_ppt file s).1 = Ok resp ∧ status_code resp = 200.
Proof.
  destruct (endswith (lower (filename file)) ".pptx") eqn:Hacc.
  2:{ by rewrite convert_ppt_rejected. }
  unfold convert_ppt, try_except. rewrite Hacc. cbn [negb].
  match goal with |- context [match ?m s with _ => _ end] =>
    destruct (m s) as [[resp|e] s1] end.
  - intros Hstatus. by exists resp.
  - discriminate.
Qed.

(** The conversion goes through whenever the name is accepted, the
    parser reads the upload and the rasterizer produces a raster
    for every slide; the state it leaves holds no comment and, in
    both directories, exactly the new rasters. *)
Lemma convert_ppt_total file prs imgs :
  endswith (lower (filename file)) ".pptx" = true →
  open_wb ("temp_" +:+ filename file) = Ok tt →
  parse (read file) = Ok prs →
  Forall2 (rendered (slide_width prs // 9525) (slide_height prs // 9525))
          (slides prs) imgs →
  (slides prs ≠ [] →
   empty (slide_width prs // 9525, slide_height prs // 9525) = false) →
  ∃ l, ∀ t,
    convert_ppt file t =
      (Ok (converted_answer prs),
       {| comments_store := ∅;
          original_slides := store 1 imgs ∅;
          slides_dir := store 1 imgs ∅;
          cwd := delete ("temp_" +:+ filename file)
                   (<["temp_" +:+ filename file := read file]> (cwd t));
          logged := logged t ++ l |}).
Proof.
  intros Hacc Hopen Hparse Himgs Hsize.
  destruct (convert_loop_total _ _ _ _ Himgs Hsize 1) as [l Hloop].
  exists l. intros t. unfold convert_ppt, try_except. rewrite Hacc. cbn [negb].
  unfold bind at 1. rewrite write_file_ok by exact Hopen.
  cbn [for_each]. unfold bind at 1 2 3, rmtree_makedirs, modify at 1 2, ret at 1.
  unfold bind at 1, Presentation.
  cbn [cwd set_dir set_cwd]. rewrite lookup_insert_eq, Hparse.
  unfold bind at 1. rewrite Hloop.
  unfold bind at 1, remove.
  cbn [cwd comments_store original_slides slides_dir logged].
  rewrite lookup_insert_eq. reflexivity.
Qed.

Lemma convert_ppt_success file s resp s' :
  convert_ppt file s = (Ok resp, s') → status_code resp = 200 →
  endswith (lower (filename file)) ".pptx" = true ∧
  open_wb ("temp_" +:+ filename file) = Ok tt ∧
  ∃ prs imgs,
    parse (read file) = Ok prs ∧
    Forall2 (rendered (slide_width prs // 9525) (slide_height prs // 9525))
            (slides prs) imgs ∧
    (slides prs ≠ [] →
     empty (slide_width prs // 9525, slide_height prs // 9525) = false).
Proof.
  intros Hrun Hstatus.
  destruct (endswith (lower (filename file)) ".pptx") eqn:Hacc.
  2:{ rewrite convert_ppt_rejected in Hrun by done.
      injection Hrun as <- _. discriminate Hstatus. }
  split; [reflexivity|]. revert Hrun.
  unfold convert_ppt, try_except. rewrite Hacc. cbn [negb].
  unfold bind at 1.
  destruct (open_wb_cases ("temp_" +:+ filename file)) as [Hopen | [e Hopen]].
  2:{ by rewrite (write_file_fails _ _ e). }
  rewrite write_file_ok by exact Hopen. intros Hrun. split; [exact Hopen|].
  revert Hrun.
  cbn [for_each]. unfold bind at 1 2 3, rmtree_makedirs, modify at 1 2, ret at 1.
  unfold bind at 1, Presentation.
  cbn [cwd set_dir set_cwd]. rewrite lookup_insert_eq.
  destruct (parse (read file)) as [prs|e]; [|discriminate].
  unfold bind at 1.
  destruct (for_each (enumerate (slides prs) 1) _ tt _) as [[[]|e] t1] eqn:Hloop;
    [|discriminate].
  intros _. apply convert_loop_success in Hloop as [[imgs Himgs] Hsize].
  by exists prs, imgs.
Qed.

End Facts.

End ConversionRuns.

Module ConversionClaims.

Import Properties PIL Pptx Session IO Logs Http Main Rasterizer Names Conversion
       ConversionRuns Extension.

Section Facts.
Context {lib : Imaging} {office : Parser}.

(** What a conversion that went through has done. *)
Lemma converted_state file s resp s' :
  convert_ppt file s = (Ok resp, s') → status_code resp = 200 →
  ∃ prs imgs l,
    parse (read file) = Ok prs ∧
    Forall2 (rendered (slide_width prs // 9525) (slide_height prs // 9525))
            (slides prs) imgs ∧
    resp = converted_answer prs ∧
    s' = {| comments_store := ∅;
            original_slides := store 1 imgs ∅;
            slides_dir := store 1 imgs ∅;
            cwd := delete ("temp_" +:+ filename file)
                     (<["temp_" +:+ filename file := read file]> (cwd s));
            logged := logged s ++ l |}.
Proof.
  intros Hrun Hstatus.
  destruct (convert_ppt_success file s resp s' Hrun Hstatus)
    as (Hacc & Hopen & prs & imgs & Hparse & Himgs & Hsize).
  destruct (convert_ppt_total file prs imgs Hacc Hopen Hparse Himgs Hsize)
    as [l Htotal].
  rewrite Htotal in Hrun. injection Hrun as <- <-.
  by exists prs, imgs, l.
Qed.

(** What made it go through: the uploaded copy could be written, and
    the canvas of a document with slides has pixels. *)
Lemma converted_conditions file s resp s' :
  convert_ppt file s = (Ok resp, s') → status_code resp = 200 →
  open_wb ("temp_" +:+ filename file) = Ok tt ∧
  ∀ prs, parse (read file) = Ok prs → slides prs ≠ [] →
         empty (slide_width prs // 9525, slide_height prs // 9525) = false.
Proof.
  intros Hrun Hstatus.
  destruct (convert_ppt_success file s resp s' Hrun Hstatus)
    as (_ & Hopen & prs & imgs & Hparse & _ & Hsize).
  split; [exact Hopen|]. intros prs' Hparse'.
  rewrite Hparse in Hparse'. by injection Hparse' as <-.
Qed.

Lemma slide_url_inj : Inj (=) (=) (λ i, slide_url (i + 1)).
Proof.
  intros i j Heq. unfold slide_url in Heq.
  apply (inj (String.app "/slides/")) in Heq. apply slide_png_inj in Heq. lia.
Qed.

(** The files of a directory written by the conversion: one per
    slide, under the name of the slide number, holding the raster
    of that slide. *)
Lemma store_files w h slides imgs :
  Forall2 (rendered w h) slides imgs →
  let dir := store 1 imgs ∅ in
  base.size dir = length slides ∧
  (∀ (i : nat) slide, slides !! i = Some slide →
     ∃ img, dir !! slide_png (Z.of_nat i + 1) = Some img ∧ rendered w h slide img) ∧
  (∀ name img, dir !! name = Some img →
     ∃ (i : nat) slide, name = slide_png (Z.of_nat i + 1) ∧
                        slides !! i = Some slide ∧ rendered w h slide img).
Proof.
  intros Himgs dir. split; [|split].
  - subst dir. rewrite store_size by (intros; apply lookup_empty).
    rewrite map_size_empty. apply Forall2_length in Himgs. lia.
  - intros i slide Hi.
    destruct (Forall2_lookup_l _ _ _ _ _ Himgs Hi) as (img & Himg & Hr).
    exists img. split; [|exact Hr]. subst dir.
    replace (Z.of_nat i + 1) with (1 + Z.of_nat i) by lia.
    by apply store_lookup.
  - intros name img Hname. subst dir.
    assert (Hsome : is_Some (store 1 imgs ∅ !! name)) by (by rewrite Hname).
    apply store_is_Some in Hsome as [Hempty | (i & Hi & ->)].
    { rewrite lookup_empty in Hempty. by destruct Hempty. }
    destruct (lookup_lt_is_Some_2 imgs i Hi) as [img' Himg'].
    pose proof (store_lookup 1 imgs ∅ i img' Himg') as Hstored.
    rewrite Hstored in Hname. injection Hname as ->.
    destruct (Forall2_lookup_r _ _ _ _ _ Himgs Himg') as (slide & Hslide & Hr).
    exists i, slide. split; [f_equal; lia | by split].
Qed.

(** C4. A conversion that went through answers with the number of
    slides and one address per slide, in slide order: the address of
    the slide at position [i] is the text [/slides/slide_] followed by
    the decimal numeral of [i + 1] and by [.png], and no two slides
    share an address.  The base directory holds exactly one raster per
    slide, the raster of that slide in the file [slide_], numeral,
    [.png]; and every raster has the one size computed from the
    nominal size of the document. *)
Theorem convert_makes_one_image_per_slide file s resp s' :
  convert_ppt file s = (Ok resp, s') → status_code resp = 200 →
  ∃ prs urls,
    parse (read file) = Ok prs ∧
    let w := slide_width prs // 9525 in
    let h := slide_height prs // 9525 in
    content resp = convert_content (Z.of_nat (length (slides prs))) urls ∧
    length urls = length (slides prs) ∧
    NoDup urls ∧
    base.size (original_slides s') = length (slides prs) ∧
    (∀ (i : nat) slide, slides prs !! i = Some slide →
       urls !! i = Some ("/slides/slide_" +:+ pretty (Z.of_nat i + 1) +:+ ".png") ∧
       ∃ img,
         original_slides s' !! ("slide_" +:+ pretty (Z.of_nat i + 1) +:+ ".png")
           = Some img ∧
         rendered w h slide img) ∧
    (∀ name img, original_slides s' !! name = Some img → size img = (w, h)).
Proof.
  intros Hrun Hstatus.
  destruct (converted_state file s resp s' Hrun Hstatus)
    as (prs & imgs & l & Hparse & Himgs & -> & ->).
  destruct (store_files _ _ _ _ Himgs) as (Hsize & Hfiles & Honly).
  eexists prs, _. split; [exact Hparse|]. cbv zeta.
  split; [reflexivity|]. cbn [original_slides].
  split; [by rewrite length_fmap, length_seqZ, Nat2Z.id|].
  split; [apply (NoDup_fmap_2 _ (Inj0 := slide_url_inj)), NoDup_seqZ|].
  split; [exact Hsize|]. split.
  - intros i slide Hi. split; [|by apply Hfiles].
    rewrite list_lookup_fmap, lookup_seqZ_lt; [by rewrite Z.add_0_l|].
    apply lookup_lt_Some in Hi. lia.
  - intros name img Hname.
    destruct (Honly name img Hname) as (i & slide & _ & _ & Hr).
    by apply rendered_size in Hr.
Qed.

(** C7. After a conversion that went through, the comment list of
    every slide number is empty, the two directories hold the same
    files, every file is the raster of a slide of the new document,
    and comments and files are the same whatever the state before
    the request was. *)
Theorem convert_resets_session file s resp s' :
  convert_ppt file s = (Ok resp, s') → status_code resp = 200 →
  (∀ n, get_comments n s' = (Ok (returned (comments_content [])), s')) ∧
  slides_dir s' = original_slides s' ∧
  (∃ prs, parse (read file) = Ok prs ∧
          ∀ name img, slides_dir s' !! name = Some img →
            ∃ (i : nat) slide,
              name = slide_png (Z.of_nat i + 1) ∧ slides prs !! i = Some slide ∧
              rendered (slide_width prs // 9525) (slide_height prs // 9525)
                       slide img) ∧
  (∀ t, (convert_ppt file t).1 = Ok resp ∧
        same_session (convert_ppt file t).2 s').
Proof.
  intros Hrun Hstatus.
  destruct (convert_ppt_success file s resp s' Hrun Hstatus)
    as (Hacc & Hopen & prs & imgs & Hparse & Himgs & Hsize).
  destruct (convert_ppt_total file prs imgs Hacc Hopen Hparse Himgs Hsize)
    as [l Htotal].
  rewrite Htotal in Hrun. injection Hrun as <- <-.
  destruct (store_files _ _ _ _ Himgs) as (_ & _ & Honly).
  split; [|split; [reflexivity|split]].
  - intros n. unfold get_comments, bind, gets. cbn [comments_store].
    by rewrite lookup_empty.
  - exists prs. split; [exact Hparse|]. exact Honly.
  - intros t. rewrite Htotal. by repeat split.
Qed.

End Facts.

End ConversionClaims.

Module ConversionWitnesses.

Import Properties PIL Pptx Session IO Logs Http Main Rasterizer Names Conversion
       ConversionRuns ConversionClaims Extension.

Lemma convert_makes_one_image_per_slide_witness :
  ∃ prs urls,
    parse (Parser := Sample.sample_parser) (read (Sample.upload "deck.pptx")) = Ok prs ∧
    content (converted_answer Sample.deck)
      = convert_content (Z.of_nat (length (slides prs))) urls ∧
    length urls = length (slides prs) ∧
    urls !! 0%nat = Some "/slides/slide_1.png" ∧
    urls !! 1%nat = Some "/slides/slide_2.png" ∧
    base.size (original_slides (Sample.sample_run "deck.pptx" Sample.used).2) = length (slides prs).
Proof.
  destruct (convert_makes_one_image_per_slide
              (lib := Sample.imaging) (office := Sample.sample_parser)
              (Sample.upload "deck.pptx") Sample.used (converted_answer Sample.deck)
              (Sample.sample_run "deck.pptx" Sample.used).2)
    as (prs & urls & Hparse & Hcontent & Hlen & _ & Hsize & Hfiles & _).
  - vm_compute. reflexivity.
  - reflexivity.
  - exists prs, urls. injection Hparse as <-.
    destruct (Hfiles 0%nat _ eq_refl) as [Hfirst _].
    destruct (Hfiles 1%nat _ eq_refl) as [Hsecond _].
    auto 7.
Defined.

Lemma convert_resets_session_witness :
  (∀ n, get_comments n (Sample.sample_run "deck.pptx" Sample.used).2
        = (Ok (returned (comments_content [])), (Sample.sample_run "deck.pptx" Sample.used).2)) ∧
  slides_dir (Sample.sample_run "deck.pptx" Sample.used).2
    = original_slides (Sample.sample_run "deck.pptx" Sample.used).2 ∧
  same_session (Sample.sample_run "deck.pptx" Sample.start).2 (Sample.sample_run "deck.pptx" Sample.used).2.
Proof.
  destruct (convert_resets_session
              (lib := Sample.imaging) (office := Sample.sample_parser)
              (Sample.upload "deck.pptx") Sample.used (converted_answer Sample.deck)
              (Sample.sample_run "deck.pptx" Sample.used).2)
    as (Hcomments & Hdirs & _ & Hany).
  - vm_compute. reflexivity.
  - reflexivity.
  - split; [exact Hcomments|]. split; [exact Hdirs|].
    exact (proj2 (Hany Sample.start)).
Defined.

End ConversionWitnesses.

(** ** Unit conversion *)

Module Units.

Import Properties PIL Pptx Session IO Logs Http Main Rasterizer Conversion
       ConversionRuns ConversionClaims.

Lemma floordiv_bounds v : 9525 * (v // 9525) ≤ v < 9525 * (v // 9525) + 9525.
Proof.
  unfold floordiv. pose proof (Z.mod_pos_bound v 9525 ltac:(lia)).
  pose proof (Z.div_mod v 9525 ltac:(lia)). lia.
Qed.

Lemma floordiv_nonneg v : 0 ≤ v → v // 9525 = truncated_px v.
Proof.
  intros Hv. unfold floordiv, truncated_px. symmetry.
  apply Z.quot_div_nonneg; lia.
Qed.

Section Facts.
Context {lib : Imaging} {office : Parser}.

(** C5, as the program has it.  Every placement and size field is
    divided by the one constant 9525 with Python's floor division
    before it reaches a pixel operation: the four fields of a
    picture before [resize] and [paste], the two offsets of a text
    shape before the text is drawn, the nominal size of the document
    before the canvases are made.  Floor division agrees with
    truncation on non-negative values and only there: it rounds a
    negative offset down, away from zero. *)
Theorem placement_uses_floor_division shape img pil s file t resp t' :
  let px v := v // 9525 in
  (∀ v, 9525 * px v ≤ v < 9525 * px v + 9525) ∧
  (∀ v, 0 ≤ v → px v = truncated_px v) ∧
  (shape_type shape = 13 → decode (blob (image shape)) = Ok pil →
   draw_shape shape img s =
     (let* resized :=
        lift (resize pil (px (shape_width shape), px (shape_height shape))) in
      lift (paste img resized (px (shape_left shape), px (shape_top shape)))) s) ∧
  (shape_type shape ≠ 13 → has_text_frame shape = true →
   truthy (strip (frame_text (text_frame shape))) = true →
   draw_shape shape img s =
     lift (PIL.text img (px (shape_left shape), px (shape_top shape))
                    (frame_text (text_frame shape)) black) s) ∧
  (convert_ppt file t = (Ok resp, t') → status_code resp = 200 →
   ∃ prs, parse (read file) = Ok prs ∧
          ∀ name raster, original_slides t' !! name = Some raster →
            size raster = (px (slide_width prs), px (slide_height prs))).
Proof.
  intros px. split; [apply floordiv_bounds|]. split; [apply floordiv_nonneg|].
  split; [|split].
  - intros Htype Hdecode. unfold draw_shape. rewrite Htype. cbn [Z.eqb Pos.eqb].
    unfold bind at 1, try_except, bind at 1, lift at 1. by rewrite Hdecode.
  - intros Htype Hframe Htext. unfold draw_shape.
    apply Z.eqb_neq in Htype. by rewrite Htype, Hframe, Htext.
  - intros Hrun Hstatus.
    destruct (converted_state file t resp t' Hrun Hstatus)
      as (prs & imgs & l & Hparse & Himgs & -> & ->).
    exists prs. split; [exact Hparse|]. intros name raster Hname.
    destruct (store_files _ _ _ _ Himgs) as (_ & _ & Honly).
    destruct (Honly name raster Hname) as (i & slide & _ & _ & Hr).
    by apply rendered_size in Hr.
Qed.

End Facts.

Lemma placement_uses_floor_division_witness :
  19050 // 9525 = truncated_px 19050 ∧
  draw_shape (lib := Sample.imaging) Sample.offside Sample.two_white Sample.start
    = (paste Sample.two_white Sample.dot (-1, 0), Sample.start) ∧
  ∃ prs, parse (Parser := Sample.sample_parser)
               (read (Sample.upload "deck.pptx")) = Ok prs ∧
         ∀ name raster,
           original_slides (Sample.sample_run "deck.pptx" Sample.start).2
             !! name = Some raster →
           size raster = (12, 11).
Proof.
  destruct (placement_uses_floor_division
              (lib := Sample.imaging) (office := Sample.sample_parser)
              Sample.offside Sample.two_white Sample.dot_file Sample.start (Sample.upload "deck.pptx")
              Sample.start (converted_answer Sample.deck)
              (Sample.sample_run "deck.pptx" Sample.start).2)
    as (_ & Hpos & Hpicture & _ & Hcanvas).
  split; [apply Hpos; lia|]. split.
  - rewrite Hpicture by reflexivity. reflexivity.
  - destruct Hcanvas as (prs & Hparse & Hsizes);
      [vm_compute; reflexivity | reflexivity |].
    exists prs. split; [exact Hparse|]. intros name raster Hname.
    rewrite (Hsizes name raster Hname).
    injection Hparse as <-. reflexivity.
Defined.

(** C5, as the specification has it, fails: the offset -1 is
    converted to the pixel -1, where truncation gives 0; the picture
    is pasted outside the canvas and leaves it white, whereas at the
    truncated offset it would blacken the first pixel. *)
Lemma negative_offset_is_not_truncated :
  shape_left Sample.offside // 9525 = -1 ∧
  truncated_px (shape_left Sample.offside) = 0 ∧
  draw_shape (lib := Sample.imaging) Sample.offside Sample.two_white Sample.start
    = (Ok Sample.two_white, Sample.start) ∧
  paste Sample.two_white Sample.dot (truncated_px (shape_left Sample.offside), truncated_px (shape_top Sample.offside))
    = Ok {| mode := RGB; size := (2, 1); data := [black; white] |}.
Proof. repeat split. Qed.

End Units.

(** ** The extension test in the conversion request *)

Module ExtensionClaims.

Import Properties PIL Pptx Session IO Logs Http Main Extension ConversionRuns.

Section Facts.
Context {lib : Imaging} {office : Parser}.

Lemma venv_convert_ppt_accepted file s :
  endswith (lower (filename file)) ".pptx" = true →
  (Venv.convert_ppt file s).1 ≠ Ok rejection.
Proof.
  intros Hacc. unfold Venv.convert_ppt. rewrite Hacc. cbn [negb].
  unfold bind.
  repeat match goal with
         | |- context [match ?m ?t with _ => _ end] =>
             destruct (m t) as [[?|?] ?]; try discriminate
         end.
Qed.

(** C10. The name of the upload is lowercased before the suffix is
    tested.  A name that ends in a case variant of [.pptx] is not
    answered with the rejection (in [src/main.py] the status is 200
    or 500, never 400); every other name is answered with the 400
    rejection and the state is left as it was. *)
Theorem extension_check_ignores_case file s :
  (pptx_name (filename file) →
     (convert_ppt file s).1 ≠ Ok rejection ∧
     status (convert_ppt file s).1 ≠ 400 ∧
     (Venv.convert_ppt file s).1 ≠ Ok rejection) ∧
  (¬ pptx_name (filename file) →
     convert_ppt file s = (Ok rejection, s) ∧
     status (convert_ppt file s).1 = 400 ∧
     Venv.convert_ppt file s = (Ok rejection, s)).
Proof.
  split.
  - intros Hacc%accepted_iff.
    pose proof (convert_ppt_accepted_status file s Hacc) as Hstatus.
    split; [|split].
    + intros Hrej. rewrite Hrej in Hstatus. cbn in Hstatus. lia.
    + lia.
    + by apply venv_convert_ppt_accepted.
  - intros Hrej.
    assert (Hfalse : endswith (lower (filename file)) ".pptx" = false).
    { destruct (endswith _ _) eqn:Hacc; [|reflexivity].
      by apply accepted_iff in Hacc. }
    rewrite convert_ppt_rejected, venv_convert_ppt_rejected by exact Hfalse.
    by repeat split.
Qed.

End Facts.

Lemma upper_case_is_variant : pptx_name "Review.PPTX".
Proof.
  exists "Review", ".PPTX". split; [reflexivity|].
  exists "P"%char, "P"%char, "T"%char, "X"%char. repeat split; by right.
Defined.


Lemma ppt_is_no_variant : ¬ pptx_name "notes.ppt".
Proof.
  intros Hname%accepted_iff. discriminate Hname.
Defined.

Lemma extension_check_ignores_case_witness :
  status (Sample.sample_run "Review.PPTX" Sample.used).1 ≠ 400 ∧
  Sample.sample_run "notes.ppt" Sample.used
    = (Ok rejection, Sample.used).
Proof.
  split.
  - exact (proj1 (proj2 (proj1 (extension_check_ignores_case
             (lib := Sample.imaging) (office := Sample.sample_parser)
             (Sample.upload "Review.PPTX") Sample.used)
             upper_case_is_variant))).
  - exact (proj1 (proj2 (extension_check_ignores_case
             (lib := Sample.imaging) (office := Sample.sample_parser)
             (Sample.upload "notes.ppt") Sample.used)
             ppt_is_no_variant)).
Defined.

End ExtensionClaims.

(** ** Failures while painting a shape, in the slide and in the request *)

Module FailureClaims.

Import Properties PIL Pptx Session IO Logs Http Main Rasterizer Conversion
       ConversionRuns Failures.

Section Facts.
Context {lib : Imaging} {office : Parser}.


End Facts.



End FailureClaims.

(** ** Runs of annotation requests *)

Module AnnotationRuns.

Import Properties Scenarios PIL Pptx Session IO Logs Http Main Overlay Annotation
       AnnotationClaims Names.

Section Facts.
Context {lib : Imaging}.

(** What an annotation request does to the comments and to the files,
    and what it answers, in terms of the comments and the files it
    finds. *)
Lemma add_comment_session s n c :
  let p := (ORIGINAL_DIR, slide_png n) in
  let log := default [] (comments_store s !! n) ++ [c] in
  let s' := (add_comment n c s).2 in
  original_slides s' = original_slides s ∧
  comments_store s' =
    match original_slides s !! slide_png n with
    | Some _ => <[n := log]> (comments_store s)
    | None => comments_store s
    end ∧
  slides_dir s' =
    match original_slides s !! slide_png n, (overlay_comments p log s).1 with
    | Some _, Ok img => <[slide_png n := img]> (slides_dir s)
    | _, _ => slides_dir s
    end ∧
  (add_comment n c s).1 =
    match original_slides s !! slide_png n, (overlay_comments p log s).1 with
    | Some _, Ok img => Ok (returned (comment_content "Comment added" (slide_url n)))
    | Some _, Raise e => Raise (HTTPException 500 (InternalServerError e))
    | None, _ => Raise (HTTPException 500 (InternalServerError not_found))
    end.
Proof.
  intros p log s'. subst s'.
  destruct (original_slides s !! slide_png n) as [base|] eqn:Hbase.
  - rewrite (add_comment_found s n c base Hbase). fold p log.
    by destruct (overlay_comments p log s).1.
  - by rewrite (add_comment_missing s n c Hbase).
Qed.

Lemma add_comments_base s n cs :
  original_slides (add_comments n cs s) = original_slides s.
Proof.
  revert s. induction cs as [|c rest IH]; intros s; [reflexivity|].
  cbn [add_comments]. rewrite IH.
  by destruct (add_comment_session s n c) as (-> & _).
Qed.

Lemma add_comments_log s n cs base :
  original_slides s !! slide_png n = Some base →
  default [] (comments_store (add_comments n cs s) !! n)
    = default [] (comments_store s !! n) ++ cs.
Proof.
  revert s. induction cs as [|c rest IH]; intros s Hbase.
  - by rewrite app_nil_r.
  - cbn [add_comments].
    destruct (add_comment_session s n c) as (Ho & Hc & _). rewrite Hbase in Hc.
    rewrite IH by (by rewrite Ho). rewrite Hc, lookup_insert_eq. simpl.
    by rewrite <- app_assoc.
Qed.

Lemma add_comments_others s n cs m :
  m ≠ n → comments_store (add_comments n cs s) !! m = comments_store s !! m.
Proof.
  intros Hm. revert s. induction cs as [|c rest IH]; intros s; [reflexivity|].
  cbn [add_comments]. rewrite IH.
  destruct (add_comment_session s n c) as (_ & -> & _).
  destruct (original_slides s !! slide_png n); [|reflexivity].
  by rewrite lookup_insert_ne.
Qed.

(** X1. After any run of annotation requests on a slide that has a
    base image, the comment list of that slide is the list it had
    before followed by the comments of the run, in the order of the
    requests and with repetitions kept, whether or not the overlays
    succeeded; the lists of the other slides are as before. *)
Theorem comments_kept_in_append_order s n cs base :
  original_slides s !! slide_png n = Some base →
  let s' := add_comments n cs s in
  get_comments n s'
    = (Ok (returned (comments_content (default [] (comments_store s !! n) ++ cs))), s') ∧
  (∀ m, m ≠ n → (get_comments m s').1 = (get_comments m s).1).
Proof.
  intros Hbase s'. split.
  - unfold get_comments, bind, gets, ret. subst s'.
    by rewrite (add_comments_log s n cs base Hbase).
  - intros m Hm. unfold get_comments, bind, gets, ret. subst s'. cbn [fst].
    by rewrite (add_comments_others s n cs m Hm).
Qed.

End Facts.

Lemma comments_kept_in_append_order_witness :
  get_comments 1
    (add_comments (lib := Sample.imaging) 1 ["Looks good"; "Fix title"; "Looks good"]
                  Sample.converted)
  = (Ok (returned (comments_content ["Looks good"; "Fix title"; "Looks good"])),
     add_comments (lib := Sample.imaging) 1 ["Looks good"; "Fix title"; "Looks good"]
                  Sample.converted).
Proof.
  exact (proj1 (comments_kept_in_append_order (lib := Sample.imaging)
                  Sample.converted 1 ["Looks good"; "Fix title"; "Looks good"]
                  Sample.first_base eq_refl)).
Defined.

End AnnotationRuns.

(** ** A comment that the font cannot render *)

Module BlockedSlide.

Import Properties Scenarios PIL Pptx Session IO Logs Http Main Overlay Annotation
       AnnotationClaims AnnotationRuns.

Section Facts.
Context {lib : Imaging}.

Lemma draw_comments_raise comments c e :
  c ∈ comments → getmask c = Raise e →
  ∀ acc s, ∃ e', for_each comments draw_comment acc s = (Raise e', s).
Proof.
  intros Hin Hmask. induction Hin as [c rest | c c0 rest _ IH]; intros [o y] s.
  - exists e. cbn [for_each]. unfold bind, draw_comment, lift, PIL.text.
    by rewrite Hmask.
  - cbn [for_each]. unfold bind at 1, draw_comment at 1, bind, lift, ret.
    destruct (PIL.text o (10, y) c0 (255, 0, 0, 255)) as [o'|e0].
    + by apply IH.
    + by exists e0.
Qed.

(** The overlay of a log raises as soon as one comment of the log
    cannot be rendered. *)
Lemma overlay_raises p comments c e s :
  c ∈ comments → getmask c = Raise e →
  ∃ e', (overlay_comments p comments s).1 = Raise e'.
Proof.
  intros Hin Hmask. rewrite overlay_comments_composed.
  destruct (listdir p.1 s !! p.2) as [opened|]; [|by eexists].
  destruct (refusal opened); [by eexists|].
  unfold composed, bind at 1, lift.
  destruct (new RGBA _ _) as [overlay|e0]; [|by eexists].
  unfold bind at 1.
  destruct (draw_comments_raise comments c e Hin Hmask (overlay, 10) s) as [e' ->].
  by eexists.
Qed.

Lemma add_comment_blocked s n c c' e base :
  original_slides s !! slide_png n = Some base →
  c ∈ default [] (comments_store s !! n) ++ [c'] → getmask c = Raise e →
  status (add_comment n c' s).1 = 500 ∧
  slides_dir (add_comment n c' s).2 = slides_dir s.
Proof.
  intros Hbase Hin Hmask.
  destruct (add_comment_session s n c') as (_ & _ & Hout & Hans).
  rewrite Hout, Hans, Hbase.
  destruct (overlay_raises (ORIGINAL_DIR, slide_png n) _ c e s Hin Hmask) as [e' ->].
  by split.
Qed.

Lemma blocked_run s n c e base cs :
  original_slides s !! slide_png n = Some base →
  c ∈ default [] (comments_store s !! n) → getmask c = Raise e →
  slides_dir (add_comments n cs s) = slides_dir s.
Proof.
  intros Hbase Hin Hmask. revert s Hbase Hin.
  induction cs as [|c' rest IH]; intros s Hbase Hin; [reflexivity|].
  cbn [add_comments].
  destruct (add_comment_blocked s n c c' e base Hbase) as [_ Hout];
    [set_solver | exact Hmask |].
  destruct (add_comment_session s n c') as (Ho & Hc & _). rewrite Hbase in Hc.
  rewrite IH, Hout; [reflexivity | by rewrite Ho |].
  rewrite Hc, lookup_insert_eq. simpl. apply elem_of_app. by left.
Qed.

(** X2. A comment that the font cannot render blocks its slide: the
    request that brings it is answered with 500 but the comment stays
    in the log, so that every later request on that slide re-renders
    it and fails as well, however many comments follow; the served
    image of the slide is never replaced again. *)
Theorem unrenderable_comment_blocks_slide s n c e base cs c' :
  original_slides s !! slide_png n = Some base →
  getmask c = Raise e →
  let s1 := add_comments n (c :: cs) s in
  status (add_comment n c s).1 = 500 ∧
  c ∈ default [] (comments_store s1 !! n) ∧
  status (add_comment n c' s1).1 = 500 ∧
  slides_dir (add_comment n c' s1).2 = slides_dir s.
Proof.
  intros Hbase Hmask s1.
  assert (Hlog : c ∈ default [] (comments_store s1 !! n)).
  { subst s1. rewrite (add_comments_log s n (c :: cs) base Hbase). set_solver. }
  assert (Hbase1 : original_slides s1 !! slide_png n = Some base).
  { subst s1. by rewrite add_comments_base. }
  destruct (add_comment_blocked s n c c e base Hbase) as [H500 Hout];
    [set_solver | exact Hmask |].
  destruct (add_comment_blocked s1 n c c' e base Hbase1) as [H500' Hout'];
    [set_solver | exact Hmask |].
  split; [exact H500|]. split; [exact Hlog|]. split; [exact H500'|].
  rewrite Hout'. subst s1. cbn [add_comments].
  destruct (add_comment_session s n c) as (Ho & Hc & _). rewrite Hbase in Hc.
  rewrite (blocked_run _ n c e base cs); [exact Hout | by rewrite Ho | | exact Hmask].
  rewrite Hc, lookup_insert_eq. simpl. set_solver.
Qed.

End Facts.

Lemma unrenderable_comment_blocks_slide_witness :
  let s1 := add_comments (lib := Samples.ascii_imaging) 1
              [Samples.accented; "plain"] Sample.converted in
  status (add_comment (lib := Samples.ascii_imaging) 1 Samples.accented
            Sample.converted).1 = 500 ∧
  Samples.accented ∈ default [] (comments_store s1 !! 1) ∧
  status (add_comment (lib := Samples.ascii_imaging) 1 "again" s1).1 = 500 ∧
  slides_dir (add_comment (lib := Samples.ascii_imaging) 1 "again" s1).2
    = slides_dir Sample.converted.
Proof.
  exact (unrenderable_comment_blocks_slide (lib := Samples.ascii_imaging)
           Sample.converted 1 Samples.accented (OtherError "UnicodeEncodeError")
           Sample.first_base ["plain"] "again" eq_refl eq_refl).
Defined.

End BlockedSlide.

(** ** Requests on different slides *)

Module Independence.

Import Properties Scenarios PIL Pptx Session IO Logs Http Main Overlay Annotation
       AnnotationClaims AnnotationRuns Names.

Section Facts.
Context {lib : Imaging}.

Lemma overlay_outcome_base n log s t :
  original_slides s = original_slides t →
  (overlay_comments (ORIGINAL_DIR, slide_png n) log s).1
    = (overlay_comments (ORIGINAL_DIR, slide_png n) log t).1.
Proof.
  intros Ho. apply overlay_comments_outcome. cbn [fst snd listdir]. by rewrite Ho.
Qed.

(** X3. Annotation requests on two different slide numbers are
    independent: served in either order they leave the same comments
    and the same image files, and each one gets the answer it would
    have got alone. *)
Theorem add_comment_on_other_slide_commutes s n m c c' :
  n ≠ m →
  let s_n := (add_comment n c s).2 in
  let s_m := (add_comment m c' s).2 in
  same_session (add_comment m c' s_n).2 (add_comment n c s_m).2 ∧
  (add_comment m c' s_n).1 = (add_comment m c' s).1 ∧
  (add_comment n c s_m).1 = (add_comment n c s).1.
Proof.
  intros Hnm s_n s_m.
  assert (Hpng : slide_png n ≠ slide_png m) by (intros ?%slide_png_inj; done).
  destruct (add_comment_session s n c) as (Ho_n & Hc_n & Hd_n & _).
  destruct (add_comment_session s m c') as (Ho_m & Hc_m & Hd_m & _).
  destruct (add_comment_session s_n m c') as (Ho_nm & Hc_nm & Hd_nm & Ha_nm).
  destruct (add_comment_session s_m n c) as (Ho_mn & Hc_mn & Hd_mn & Ha_mn).
  destruct (add_comment_session s m c') as (_ & _ & _ & Ha_m).
  destruct (add_comment_session s n c) as (_ & _ & _ & Ha_n).
  fold s_n in Ho_n, Hc_n, Hd_n. fold s_m in Ho_m, Hc_m, Hd_m.
  assert (Hlog_m : comments_store s_n !! m = comments_store s !! m).
  { rewrite Hc_n. destruct (original_slides s !! slide_png n); [|done].
    by rewrite lookup_insert_ne. }
  assert (Hlog_n : comments_store s_m !! n = comments_store s !! n).
  { rewrite Hc_m. destruct (original_slides s !! slide_png m); [|done].
    by rewrite lookup_insert_ne. }
  rewrite Ho_n, Hlog_m in Hc_nm, Hd_nm, Ha_nm.
  rewrite Ho_m, Hlog_n in Hc_mn, Hd_mn, Ha_mn.
  rewrite (overlay_outcome_base m _ s_n s Ho_n) in Hd_nm, Ha_nm.
  rewrite (overlay_outcome_base n _ s_m s Ho_m) in Hd_mn, Ha_mn.
  split; [|split; congruence].
  unfold same_session. rewrite Ho_nm, Ho_mn, Ho_n, Ho_m, Hc_nm, Hc_mn, Hd_nm, Hd_mn.
  rewrite Hc_n, Hc_m, Hd_n, Hd_m.
  destruct (original_slides s !! slide_png n), (original_slides s !! slide_png m);
    repeat match goal with
           | |- context [match ?r with Ok _ => _ | Raise _ => _ end] => destruct r
           end;
    repeat split; try reflexivity; by apply insert_insert_ne.
Qed.

End Facts.

End Independence.

Module IndependenceWitness.

Import Properties Scenarios PIL Pptx Session IO Logs Http Main Independence.

Lemma add_comment_on_other_slide_commutes_witness :
  let add := add_comment (lib := Sample.imaging) in
  let s_1 := (add 1 "Fix title" Sample.converted).2 in
  let s_2 := (add 2 "Crop" Sample.converted).2 in
  same_session (add 2 "Crop" s_1).2 (add 1 "Fix title" s_2).2 ∧
  (add 2 "Crop" s_1).1 = (add 2 "Crop" Sample.converted).1 ∧
  (add 1 "Fix title" s_2).1 = (add 1 "Fix title" Sample.converted).1.
Proof.
  apply (add_comment_on_other_slide_commutes (lib := Sample.imaging)
           Sample.converted 1 2 "Fix title" "Crop").
  discriminate.
Defined.

End IndependenceWitness.

(** ** Conversions that fail, and conversions that cannot *)

Module ConversionEdges.

Import Properties Scenarios PIL Pptx Session IO Logs Http Main Rasterizer Names
       Conversion ConversionRuns ConversionClaims.

Section Facts.
Context {lib : Imaging}.

Lemma convert_slide_fails w h k slide e l :
  (∀ t, painted slide w h t = (Raise e, add_logs l t)) →
  ∀ t, convert_slide w h (k, slide) tt t = (Raise e, add_logs l t).
Proof.
  intros Hp t. unfold convert_slide, bind at 1.
  rewrite draw_slide_content_painted. unfold bind at 1. by rewrite Hp.
Qed.

(** A loop over the slides that stops with an exception has written
    the rasters of the slides before the failing one, and nothing
    else. *)
Lemma convert_loop_failure w h slides k t e t' :
  for_each (enumerate slides k) (convert_slide w h) tt t = (Raise e, t') →
  ∃ imgs l,
    (length imgs < length slides)%nat ∧
    Forall2 (rendered w h) (take (length imgs) slides) imgs ∧
    (imgs ≠ [] → empty (w, h) = false) ∧
    t' = {| comments_store := comments_store t;
            original_slides := store k imgs (original_slides t);
            slides_dir := store k imgs (slides_dir t);
            cwd := cwd t; logged := logged t ++ l |}.
Proof.
  revert k t t'. induction slides as [|slide slides IH]; intros k t t' Hrun;
    [discriminate|].
  cbn [enumerate for_each] in Hrun. unfold bind in Hrun.
  destruct (painted_logs_only slide w h) as (r & l0 & Hp). destruct r as [img|e0].
  - assert (Hr : rendered w h slide img) by (intros u; by rewrite Hp).
    destruct (empty (w, h)) eqn:Hsize.
    + destruct (convert_slide_empty w h k slide img t Hr Hsize) as [l1 H1].
      rewrite H1 in Hrun. injection Hrun as <- <-. exists [], l1. cbn [length].
      split; [lia|]. split; [rewrite take_0; constructor|]. by split.
    + destruct (convert_slide_run w h k slide img Hr Hsize) as [l1 H1].
      rewrite H1 in Hrun. apply IH in Hrun as (imgs & l & Hlen & Himgs & _ & ->).
      exists (img :: imgs), (l1 ++ l)%list. cbn [length take store].
      split; [lia|]. split; [by constructor|]. split; [done|].
      cbn [comments_store original_slides slides_dir cwd logged].
      by rewrite app_assoc.
  - rewrite (convert_slide_fails w h k slide e0 l0 Hp) in Hrun.
    injection Hrun as <- <-. exists [], l0. cbn [length]. split; [lia|].
    split; [rewrite take_0; constructor|]. by split.
Qed.

End Facts.

Section Requests.
Context {lib : Imaging} {office : Parser}.

(** What a failed conversion leaves behind when the uploaded copy
    could be written. *)
Lemma convert_ppt_failed file s :
  endswith (lower (filename file)) ".pptx" = true →
  open_wb ("temp_" +:+ filename file) = Ok tt →
  status (convert_ppt file s).1 ≠ 200 →
  ∃ imgs l,
    (convert_ppt file s).2
      = {| comments_store := comments_store s;
           original_slides := store 1 imgs ∅;
           slides_dir := store 1 imgs ∅;
           cwd := <["temp_" +:+ filename file := read file]> (cwd s);
           logged := logged s ++ l |} ∧
    (imgs ≠ [] ∨ is_ok (parse (read file)) = true →
     ∃ prs,
       parse (read file) = Ok prs ∧
       (length imgs < length (slides prs))%nat ∧
       Forall2 (rendered (slide_width prs // 9525) (slide_height prs // 9525))
               (take (length imgs) (slides prs)) imgs ∧
       (imgs ≠ [] →
        empty (slide_width prs // 9525, slide_height prs // 9525) = false)).
Proof.
  intros Hacc Hopen Hstatus.
  destruct (convert_ppt file s) as [r s2] eqn:Hrun. cbn [fst snd] in *.
  revert Hrun. unfold convert_ppt, try_except. rewrite Hacc. cbn [negb].
  unfold bind at 1. rewrite write_file_ok by exact Hopen.
  cbn [for_each]. unfold bind at 1 2 3, rmtree_makedirs, modify at 1 2, ret at 1.
  unfold bind at 1, Presentation.
  cbn [cwd set_dir set_cwd]. rewrite lookup_insert_eq.
  destruct (parse (read file)) as [prs|e] eqn:Hparse.
  - unfold bind at 1.
    destruct (for_each (enumerate (slides prs) 1) _ tt _) as [[[]|e] t1] eqn:Hloop.
    + destruct (convert_loop_success _ _ _ _ _ _ Hloop) as [[imgs Himgs] Hsize].
      destruct (convert_loop_total _ _ _ _ Himgs Hsize 1) as [l Htotal].
      rewrite Htotal in Hloop. injection Hloop as <-.
      unfold bind at 1, remove. cbn [cwd]. rewrite lookup_insert_eq.
      intros [= <- _]. by cbn in Hstatus.
    + apply convert_loop_failure in Hloop as (imgs & l & Hlen & Himgs & Hsize & ->).
      cbn [Exception]. unfold bind, log, modify, raise. intros [= _ <-].
      cbn [add_log comments_store cwd slides_dir original_slides logged].
      exists imgs, (l ++ [(ERROR, ErrorIn "convert_ppt" e)])%list.
      split; [by rewrite app_assoc|]. intros _. by exists prs.
  - cbn [Exception]. unfold bind, log, modify, raise. intros [= _ <-].
    cbn [add_log comments_store cwd slides_dir original_slides logged].
    exists [], [(ERROR, ErrorIn "convert_ppt" e)]. split; [reflexivity|].
    by intros [?|?].
Qed.



(** X5. A conversion that went through removes the uploaded copy from
    the working directory and touches no other file of it; a file
    that had the name of the copy before the request is gone as
    well. *)
Theorem convert_removes_uploaded_copy file s resp s' :
  convert_ppt file s = (Ok resp, s') → status_code resp = 200 →
  cwd s' = delete ("temp_" +:+ filename file) (cwd s).
Proof.
  intros Hrun Hstatus.
  destruct (converted_state file s resp s' Hrun Hstatus)
    as (prs & imgs & l & _ & _ & _ & ->).
  cbn [cwd]. apply delete_insert_eq.
Qed.

(** X6. After a conversion that went through, the slide numbers with a
    base image are exactly 1 to the number of slides: an annotation
    request inside that range starts the comment list of its slide,
    one outside it is answered with 500 and changes neither comments
    nor files. *)
Theorem annotations_match_converted_slides file s resp s' (k : Z) (c : string) :
  convert_ppt file s = (Ok resp, s') → status_code resp = 200 →
  ∃ prs,
    parse (read file) = Ok prs ∧
    (is_Some (original_slides s' !! slide_png k)
       ↔ (1 ≤ k ≤ Z.of_nat (length (slides prs)))%Z) ∧
    ((1 ≤ k ≤ Z.of_nat (length (slides prs)))%Z →
       comments_store (add_comment k c s').2 !! k = Some [c]) ∧
    (¬ (1 ≤ k ≤ Z.of_nat (length (slides prs)))%Z →
       status (add_comment k c s').1 = 500 ∧ same_session (add_comment k c s').2 s').
Proof.
  intros Hrun Hstatus.
  destruct (converted_state file s resp s' Hrun Hstatus)
    as (prs & imgs & l & Hparse & Himgs & _ & Hs').
  assert (Ho : original_slides s' = store 1 imgs ∅) by (by rewrite Hs').
  assert (Hc : comments_store s' = ∅) by (by rewrite Hs').
  clear Hs'.
  destruct (store_files _ _ _ _ Himgs) as (_ & Hfiles & Honly).
  exists prs. split; [exact Hparse|].
  assert (Hrange : is_Some (original_slides s' !! slide_png k)
                   ↔ (1 ≤ k ≤ Z.of_nat (length (slides prs)))%Z).
  { rewrite Ho. split.
    - intros [img Himg]. destruct (Honly _ _ Himg) as (i & slide & Hk & Hi & _).
      apply slide_png_inj in Hk. apply lookup_lt_Some in Hi. lia.
    - intros Hk.
      destruct (lookup_lt_is_Some_2 (slides prs) (Z.to_nat (k - 1))) as [slide Hi];
        [lia|].
      destruct (Hfiles _ _ Hi) as (img & Himg & _).
      replace (Z.of_nat (Z.to_nat (k - 1)) + 1) with k in Himg by lia. eauto. }
  split; [exact Hrange|]. split.
  - intros [base Hbase]%Hrange.
    rewrite (Annotation.add_comment_found s' k c base Hbase).
    rewrite Hc, lookup_empty.
    destruct (overlay_comments _ _ _).1; cbn; apply lookup_insert_eq.
  - intros Hout. assert (Hnone : original_slides s' !! slide_png k = None).
    { destruct (original_slides s' !! slide_png k) eqn:Hk; [|done].
      exfalso. apply Hout, Hrange. eauto. }
    rewrite (Annotation.add_comment_missing s' k c Hnone). by repeat split.
Qed.

End Requests.

End ConversionEdges.

Module ConversionEdgeWitnesses.

Import Properties Scenarios PIL Pptx Session IO Logs Http Main Conversion
       ConversionRuns ConversionEdges.


Lemma convert_removes_uploaded_copy_witness :
  cwd (Sample.sample_run "deck.pptx" Sample.used).2
    = delete ("temp_" +:+ "deck.pptx") (cwd Sample.used).
Proof.
  apply (convert_removes_uploaded_copy
           (lib := Sample.imaging) (office := Sample.sample_parser)
           (Sample.upload "deck.pptx") Sample.used (converted_answer Sample.deck)).
  - vm_compute. reflexivity.
  - reflexivity.
Defined.

Lemma annotations_match_converted_slides_witness :
  let s' := (Sample.sample_run "deck.pptx" Sample.used).2 in
  comments_store (add_comment (lib := Sample.imaging) 2 "Crop" s').2 !! 2
    = Some ["Crop"] ∧
  status (add_comment (lib := Sample.imaging) 7 "stale" s').1 = 500.
Proof.
  intros s'.
  destruct (annotations_match_converted_slides
              (lib := Sample.imaging) (office := Sample.sample_parser)
              (Sample.upload "deck.pptx") Sample.used (converted_answer Sample.deck)
              s' 2 "Crop")
    as (prs2 & Hparse2 & _ & Hin & _); [vm_compute; reflexivity | reflexivity |].
  destruct (annotations_match_converted_slides
              (lib := Sample.imaging) (office := Sample.sample_parser)
              (Sample.upload "deck.pptx") Sample.used (converted_answer Sample.deck)
              s' 7 "stale")
    as (prs7 & Hparse7 & _ & _ & Hout); [vm_compute; reflexivity | reflexivity |].
  injection Hparse2 as <-. injection Hparse7 as <-. split.
  - apply Hin. cbn. lia.
  - apply Hout. cbn. lia.
Defined.

End ConversionEdgeWitnesses.

(** ** Documents that convert *)

Module ConversionTotal.

Import Properties Scenarios PIL Pptx Session IO Logs Http Main Rasterizer Names
       Conversion ConversionRuns ConversionClaims EmptyLog.

Lemma c_int_intro v : -2147483648 ≤ v ≤ 2147483647 → c_int v = true.
Proof. intros Hv. unfold c_int. apply andb_true_intro. split; apply Z.leb_le; lia. Qed.

Section Facts.
Context {lib : Imaging}.

Lemma resize_size pil sz resized : resize pil sz = Ok resized → size resized = sz.
Proof.
  unfold resize. destruct sz as [w h]. destruct (load pil) as [loaded|]; [|discriminate].
  destruct (size_eqb (size loaded) (w, h)) eqn:Hsame.
  - intros [= <-]. destruct (size loaded) as [w0 h0].
    apply andb_true_iff in Hsame as [Hw%Z.eqb_eq Hh%Z.eqb_eq].
    cbn [fst snd] in *. congruence.
  - destruct (negb _); [discriminate|]. destruct (_ || _); [discriminate|].
    by intros [= <-].
Qed.

Lemma resize_ok pil w h :
  is_ok (load pil) = true → 1 ≤ w ≤ 2147483647 → 1 ≤ h ≤ 2147483647 →
  is_ok (resize pil (w, h)) = true.
Proof.
  intros Hload Hw Hh. unfold resize.
  destruct (load pil) as [loaded|]; [|discriminate Hload].
  destruct (size_eqb _ _); [reflexivity|].
  rewrite !c_int_intro by lia. cbn [andb negb].
  destruct (Z.ltb_spec w 1); [lia|]. by destruct (Z.ltb_spec h 1); [lia|].
Qed.

Lemma paste_ok dst src x0 y0 :
  -2147483648 ≤ x0 → -2147483648 ≤ y0 →
  0 ≤ fst (size src) → 0 ≤ snd (size src) →
  x0 + fst (size src) ≤ 2147483647 → y0 + snd (size src) ≤ 2147483647 →
  is_ok (paste dst src (x0, y0)) = true.
Proof.
  intros Hx Hy Hw Hh Hx1 Hy1. unfold paste. destruct (size src) as [sw sh].
  cbn [fst snd] in *. by rewrite !c_int_intro by lia.
Qed.

Lemma draw_paintable W H shape img s :
  W ≤ largest_side → H ≤ largest_side →
  paintable W H shape → is_ok (draw_shape shape img s).1 = true.
Proof.
  unfold largest_side. intros HW HH.
  unfold paintable, draw_shape. destruct (shape_type shape =? 13).
  - unfold bind, try_except, lift, ret, log, modify.
    destruct (decode (blob (image shape))) as [pil|e]; [|by intros ->].
    intros (Hload & Hw & Hh & Hx & Hy & Hx1 & Hy1).
    pose proof (Units.floordiv_bounds (shape_width shape)).
    pose proof (Units.floordiv_bounds (shape_height shape)).
    pose proof (Units.floordiv_bounds (shape_left shape)).
    pose proof (Units.floordiv_bounds (shape_top shape)).
    pose proof (resize_ok pil (shape_width shape // 9525) (shape_height shape // 9525)
                  Hload ltac:(lia) ltac:(lia)) as Hresize.
    destruct (resize pil _) as [resized|] eqn:Hr; [|discriminate Hresize].
    apply resize_size in Hr.
    pose proof (paste_ok img resized (shape_left shape // 9525) (shape_top shape // 9525))
      as Hpaste.
    rewrite Hr in Hpaste. cbn [fst snd] in Hpaste.
    specialize (Hpaste ltac:(lia) ltac:(lia) ltac:(lia) ltac:(lia) ltac:(lia) ltac:(lia)).
    by destruct (paste img resized _).
  - destruct (has_text_frame shape); [|reflexivity].
    intros [-> | [Hmask _]]; [reflexivity|].
    destruct (negb _); [reflexivity|].
    unfold lift, PIL.text. by destruct (getmask _).
Qed.

Lemma draw_all_paintable W H shapes img s :
  W ≤ largest_side → H ≤ largest_side →
  Forall (paintable W H) shapes → is_ok (for_each shapes draw_shape img s).1 = true.
Proof.
  intros HW HH Hall. revert img s.
  induction Hall as [|shape rest Hshape _ IH]; intros img s; [reflexivity|].
  cbn [for_each]. unfold bind.
  pose proof (draw_paintable W H shape img s HW HH Hshape) as Hok.
  destruct (draw_shape shape img s) as [[img'|e] s1]; [apply IH | discriminate Hok].
Qed.

(** A slide of paintable shapes on a canvas of valid size has a
    raster. *)
Lemma paintable_rendered W H w h slide :
  W ≤ largest_side → H ≤ largest_side →
  0 ≤ w ≤ 2147483647 → 0 ≤ h ≤ 2147483647 →
  Forall (paintable W H) (shapes slide) → ∃ img, rendered w h slide img.
Proof.
  intros HW HH Hw Hh Hall.
  destruct (painted_logs_only slide w h) as (r & l & Hp).
  assert (Hok : is_ok (painted slide w h Sample.start).1 = true).
  { unfold painted, bind, lift. rewrite new_ok by done.
    by apply (draw_all_paintable W H). }
  rewrite Hp in Hok. destruct r as [img|e]; [|discriminate Hok].
  exists img. intros t. by rewrite Hp.
Qed.

Lemma all_rendered W H w h slides :
  W ≤ largest_side → H ≤ largest_side →
  0 ≤ w ≤ 2147483647 → 0 ≤ h ≤ 2147483647 →
  Forall (λ slide, Forall (paintable W H) (shapes slide)) slides →
  ∃ imgs, Forall2 (rendered w h) slides imgs.
Proof.
  intros HW HH Hw Hh. induction 1 as [|slide rest Hslide _ [imgs IH]].
  - exists []. constructor.
  - destruct (paintable_rendered W H w h slide HW HH Hw Hh Hslide) as [img Himg].
    exists (img :: imgs). by constructor.
Qed.

End Facts.

Section Requests.
Context {lib : Imaging} {office : Parser}.

(** X7. The conversion goes through, with status 200 and the number of
    slides, for every upload whose name is accepted and can be written
    under the prefix [temp_], that the parser reads as a document whose
    nominal size is at least one pixel and at most the largest slide
    of the format each way, and all of whose shapes are paintable:
    pictures that the decoder refuses, blank texts and shapes of other
    kinds do not stand in the way. *)
Theorem convert_goes_through file prs s :
  pptx_name (filename file) →
  open_wb ("temp_" +:+ filename file) = Ok tt →
  parse (read file) = Ok prs →
  9525 ≤ slide_width prs ≤ largest_side →
  9525 ≤ slide_height prs ≤ largest_side →
  Forall (λ slide, Forall (paintable (slide_width prs) (slide_height prs))
                          (shapes slide)) (slides prs) →
  (convert_ppt file s).1 = Ok (converted_answer prs) ∧
  status (convert_ppt file s).1 = 200 ∧
  base.size (original_slides (convert_ppt file s).2) = length (slides prs).
Proof.
  intros Hacc%Extension.accepted_iff Hopen Hparse [Hw HW] [Hh HH] Hall.
  pose proof (Units.floordiv_bounds (slide_width prs)).
  pose proof (Units.floordiv_bounds (slide_height prs)).
  assert (HW' : slide_width prs ≤ 51206400) by exact HW.
  assert (HH' : slide_height prs ≤ 51206400) by exact HH.
  destruct (all_rendered _ _ (slide_width prs // 9525) (slide_height prs // 9525)
              _ HW HH ltac:(lia) ltac:(lia) Hall) as [imgs Himgs].
  assert (Hsize : slides prs ≠ [] →
                  empty (slide_width prs // 9525, slide_height prs // 9525) = false).
  { intros _. unfold empty. cbn [fst snd]. apply orb_false_iff.
    split; apply Z.leb_gt; lia. }
  destruct (convert_ppt_total file prs imgs Hacc Hopen Hparse Himgs Hsize) as [l ->].
  destruct (store_files _ _ _ _ Himgs) as (Hfiles & _).
  by repeat split.
Qed.

(** X8. A document without slides converts whatever its nominal size
    is, since no canvas is ever made, provided that the uploaded copy
    can be written: the answer counts 0 slides and lists no address,
    and both directories and the comments are left empty. *)
Theorem empty_document_converts file prs s :
  pptx_name (filename file) →
  open_wb ("temp_" +:+ filename file) = Ok tt →
  parse (read file) = Ok prs → slides prs = [] →
  (convert_ppt file s).1 = Ok (returned (convert_content 0 [])) ∧
  original_slides (convert_ppt file s).2 = ∅ ∧
  slides_dir (convert_ppt file s).2 = ∅ ∧
  comments_store (convert_ppt file s).2 = ∅.
Proof.
  intros Hacc%Extension.accepted_iff Hopen Hparse Hnone.
  assert (Himgs : Forall2 (rendered (slide_width prs // 9525) (slide_height prs // 9525))
                          (slides prs) []) by (rewrite Hnone; constructor).
  destruct (convert_ppt_total file prs [] Hacc Hopen Hparse Himgs ltac:(done)) as [l ->].
  unfold converted_answer. rewrite Hnone. by repeat split.
Qed.

End Requests.

End ConversionTotal.

Module ConversionTotalWitnesses.

Import Properties Scenarios PIL Pptx Session IO Logs Http Main Conversion
       ConversionRuns ConversionTotal.

Lemma busy_slide_paintable :
  Forall (paintable (lib := Sample.imaging) (3 * 9525) (2 * 9525))
         (shapes Samples.busy_slide).
Proof.
  unfold Samples.busy_slide. cbn [shapes].
  apply Forall_cons_2; [vm_compute; repeat split; discriminate|].
  apply Forall_cons_2; [by left|].
  apply Forall_cons_2; [right; vm_compute; repeat split; discriminate|].
  apply Forall_cons_2; [reflexivity|]. apply Forall_nil_2.
Qed.

Lemma convert_goes_through_witness :
  let run := convert_ppt (lib := Sample.imaging) (office := Samples.busy_parser)
               (Sample.upload "Review.PPTX") Sample.used in
  run.1 = Ok (converted_answer Samples.busy_deck) ∧
  status run.1 = 200 ∧
  base.size (original_slides run.2) = 2%nat.
Proof.
  apply (convert_goes_through (lib := Sample.imaging) (office := Samples.busy_parser)
           (Sample.upload "Review.PPTX") Samples.busy_deck Sample.used
           ExtensionClaims.upper_case_is_variant eq_refl eq_refl).
  - vm_compute. split; discriminate.
  - vm_compute. split; discriminate.
  - apply Forall_cons_2; [apply busy_slide_paintable|].
    apply Forall_cons_2; [apply Forall_nil_2|]. apply Forall_nil_2.
Defined.

Lemma empty_document_converts_witness :
  let run := convert_ppt (lib := Sample.imaging) (office := Samples.empty_parser)
               (Sample.upload "Review.PPTX") Sample.used in
  run.1 = Ok (returned (convert_content 0 [])) ∧
  original_slides run.2 = ∅ ∧ slides_dir run.2 = ∅ ∧ comments_store run.2 = ∅.
Proof.
  exact (empty_document_converts (lib := Sample.imaging) (office := Samples.empty_parser)
           (Sample.upload "Review.PPTX") Samples.empty_deck Sample.used
           ExtensionClaims.upper_case_is_variant eq_refl eq_refl eq_refl).
Defined.

End ConversionTotalWitnesses.

(** ** The addresses handed out *)

Module Addresses.

Import Properties Scenarios PIL Pptx Session IO Logs Http Main Overlay Annotation
       Conversion ConversionRuns ConversionClaims Static.

Lemma strip_prefix_app prefix s : strip_prefix prefix (prefix +:+ s) = Some s.
Proof.
  induction prefix as [|a prefix IH]; [reflexivity|].
  change (String a prefix +:+ s) with (String a (prefix +:+ s)).
  cbn [strip_prefix]. by rewrite Ascii.eqb_refl.
Qed.

Lemma get_file_slide_url k s :
  get_file (slide_url k) s =
    match slides_dir s !! slide_png k with
    | Some im => (Ok im, s)
    | None => (Raise no_such_file, s)
    end.
Proof. unfold get_file, slide_url. by rewrite strip_prefix_app. Qed.

Section Requests.
Context {lib : Imaging} {office : Parser}.

(** X9. Every address in the answer of a conversion that went through
    is served by the static mount: the address at position [i] yields
    the raster of slide [i], the same raster as the base image of that
    slide. *)
Theorem converted_addresses_are_served file s resp s' (i : nat) slide :
  convert_ppt file s = (Ok resp, s') → status_code resp = 200 →
  (∃ prs, parse (read file) = Ok prs ∧ slides prs !! i = Some slide) →
  ∃ urls url img,
    content resp = convert_content (Z.of_nat (length urls)) urls ∧
    urls !! i = Some url ∧
    get_file url s' = (Ok img, s') ∧
    original_slides s' !! slide_png (Z.of_nat i + 1) = Some img.
Proof.
  intros Hrun Hstatus (prs' & Hparse' & Hi).
  destruct (converted_state file s resp s' Hrun Hstatus)
    as (prs & imgs & l & Hparse & Himgs & -> & ->).
  rewrite Hparse in Hparse'. injection Hparse' as <-.
  destruct (store_files _ _ _ _ Himgs) as (_ & Hfiles & _).
  destruct (Hfiles i slide Hi) as (img & Himg & _).
  exists ((λ i, slide_url (i + 1)) <$> seqZ 0 (Z.of_nat (length (slides prs)))),
         (slide_url (Z.of_nat i + 1)), img.
  split; [|split; [|split]].
  - unfold converted_answer, returned, JSONResponse. cbn [content].
    by rewrite length_fmap, length_seqZ, Nat2Z.id.
  - rewrite list_lookup_fmap, lookup_seqZ_lt; [by rewrite Z.add_0_l|].
    apply lookup_lt_Some in Hi. lia.
  - rewrite get_file_slide_url. cbn [slides_dir]. by rewrite Himg.
  - exact Himg.
Qed.

End Requests.

Section Annotation.
Context {lib : Imaging}.

(** X10. The address in the answer of an annotation request that went
    through is served by the static mount and yields the overlay of
    the base image with the whole comment list of the slide. *)
Theorem annotated_address_is_served s n c message url :
  (add_comment n c s).1 = Ok (returned (comment_content message url)) →
  let s' := (add_comment n c s).2 in
  ∃ img,
    get_file url s' = (Ok img, s') ∧
    (overlay_comments (ORIGINAL_DIR, slide_png n)
       (default [] (comments_store s !! n) ++ [c]) s).1 = Ok img.
Proof.
  intros Hans s'. subst s'.
  destruct (original_slides s !! slide_png n) as [base|] eqn:Hbase.
  - revert Hans. rewrite (add_comment_found s n c base Hbase).
    destruct (overlay_comments _ _ s).1 as [img|e]; [|discriminate].
    intros [= <- <-]. exists img. split; [|reflexivity].
    rewrite get_file_slide_url. cbn [snd slides_dir set_dir].
    by rewrite lookup_insert_eq.
  - by rewrite (add_comment_missing s n c Hbase) in Hans.
Qed.

End Annotation.

Lemma converted_addresses_are_served_witness :
  ∃ urls url img,
    content (converted_answer Sample.deck)
      = convert_content (Z.of_nat (length urls)) urls ∧
    urls !! 1%nat = Some url ∧
    get_file url Sample.converted = (Ok img, Sample.converted) ∧
    original_slides Sample.converted !! slide_png 2 = Some img.
Proof.
  apply (converted_addresses_are_served
           (lib := Sample.imaging) (office := Sample.sample_parser)
           (Sample.upload "deck.pptx") Sample.start (converted_answer Sample.deck)
           Sample.converted 1
           {| shapes := [Sample.picture [Byte.x00] 9525 9525 9525 9525] |}).
  - vm_compute. reflexivity.
  - reflexivity.
  - exists Sample.deck. by split.
Defined.

Lemma annotated_address_is_served_witness :
  let s' := (add_comment (lib := Sample.imaging) 1 "Fix title" Sample.converted).2 in
  ∃ img,
    get_file (slide_url 1) s' = (Ok img, s') ∧
    (overlay_comments (lib := Sample.imaging) (ORIGINAL_DIR, slide_png 1)
       (default [] (comments_store Sample.converted !! 1) ++ ["Fix title"])
       Sample.converted).1 = Ok img.
Proof.
  apply (annotated_address_is_served (lib := Sample.imaging)
           Sample.converted 1 "Fix title" "Comment added" (slide_url 1)).
  vm_compute. reflexivity.
Defined.

End Addresses.

(** ** The text of a text shape *)

Module FrameText.

Import Properties Scenarios PIL Pptx Session IO Logs Http Main Rasterizer Shapes.

Lemma blank_append a b : blank (a +:+ b) = blank a && blank b.
Proof.
  induction a as [|c a IH]; [reflexivity|].
  change (String c a +:+ b) with (String c (a +:+ b)). cbn [blank].
  by rewrite IH, andb_assoc.
Qed.

Lemma blank_rev_app s acc : blank (String.rev_app s acc) = blank s && blank acc.
Proof.
  revert acc. induction s as [|c s IH]; intros acc; [reflexivity|].
  cbn [String.rev_app blank]. rewrite IH. cbn [blank].
  by destruct (isspace c), (blank s), (blank acc).
Qed.

Lemma truthy_rev_app s acc :
  truthy (String.rev_app s acc) = truthy s || truthy acc.
Proof.
  revert acc. induction s as [|c s IH]; intros acc; [reflexivity|].
  cbn [String.rev_app]. rewrite IH. cbn [truthy]. by rewrite orb_true_r.
Qed.

Lemma blank_lstrip_eq s : blank (lstrip s) = blank s.
Proof.
  induction s as [|c s IH]; [reflexivity|]. cbn [lstrip blank].
  destruct (isspace c) eqn:Hc; [exact IH|]. cbn [blank]. by rewrite Hc.
Qed.

Lemma truthy_lstrip s : truthy (lstrip s) = negb (blank s).
Proof.
  induction s as [|c s IH]; [reflexivity|]. cbn [lstrip blank].
  by destruct (isspace c).
Qed.

(** Stripping leaves something exactly when the string is not blank. *)
Lemma truthy_strip s : truthy (strip s) = negb (blank s).
Proof.
  unfold strip, String.rev. rewrite truthy_rev_app, orb_false_r, truthy_lstrip.
  by rewrite blank_rev_app, andb_true_r, blank_lstrip_eq.
Qed.

Lemma join_app xs ys : join (xs ++ ys) = join xs +:+ join ys.
Proof.
  induction xs as [|x xs IH]; [reflexivity|]. cbn [app join fold_right].
  fold (join (xs ++ ys)). fold (join xs). rewrite IH.
  generalize (join xs) (join ys). intros a b.
  induction x as [|c x IHx]; [reflexivity|].
  change (String c x +:+ a +:+ b) with (String c (x +:+ a +:+ b)).
  change ((String c x +:+ a) +:+ b) with (String c ((x +:+ a) +:+ b)).
  by rewrite IHx.
Qed.

Lemma append_nil_r (a : string) : a +:+ EmptyString = a.
Proof.
  induction a as [|c a IH]; [reflexivity|].
  change (String c a +:+ EmptyString) with (String c (a +:+ EmptyString)).
  by rewrite IH.
Qed.

Lemma frame_text_visible frame : frame_text frame = join (visible_lines frame).
Proof.
  unfold frame_text, visible_lines.
  enough (Hgen : ∀ ps text lines,
    text = join lines →
    fold_left (λ text paragraph,
                 let para_text := join (run_text <$> runs paragraph) in
                 if truthy (strip para_text)
                 then text +:+ para_text +:+ newline
                 else text) ps text
    = join (lines ++ ((λ paragraph, join (run_text <$> runs paragraph) +:+ newline)
                        <$> List.filter
                              (λ paragraph,
                                 negb (blank (join (run_text <$> runs paragraph))))
                              ps)))
    by (apply (Hgen (paragraphs frame) EmptyString []); reflexivity).
  induction ps as [|paragraph ps IH]; intros text lines Htext.
  - cbn. by rewrite app_nil_r.
  - cbn [fold_left List.filter]. rewrite truthy_strip.
    destruct (negb (blank _)).
    + rewrite (IH _ (lines ++ [join (run_text <$> runs paragraph) +:+ newline])).
      * rewrite fmap_cons, <- app_assoc. reflexivity.
      * rewrite join_app, Htext. cbn [join fold_right].
        by rewrite append_nil_r.
    + by apply IH.
Qed.

Lemma visible_line_not_blank line lines :
  blank line = false → blank (join (line :: lines)) = false.
Proof. intros Hline. cbn [join fold_right]. by rewrite blank_append, Hline. Qed.

Section Facts.
Context {lib : Imaging}.

(** X11. The text drawn for a text shape is made of its paragraphs
    that hold something other than whitespace, in order, each followed
    by a line feed; blank paragraphs leave no empty line, wherever
    they stand.  The shape is skipped exactly when no paragraph is
    visible; otherwise that text is drawn in black at the converted
    offset of the shape. *)
Theorem text_shape_draws_visible_lines shape img s :
  shape_type shape ≠ 13 → has_text_frame shape = true →
  let lines := visible_lines (text_frame shape) in
  frame_text (text_frame shape) = join lines ∧
  (lines = [] → draw_shape shape img s = (Ok img, s)) ∧
  (lines ≠ [] →
   draw_shape shape img s
     = lift (PIL.text img (shape_left shape // 9525, shape_top shape // 9525)
                      (join lines) black) s).
Proof.
  intros Htype Hframe lines. apply Z.eqb_neq in Htype.
  split; [apply frame_text_visible|].
  unfold draw_shape. rewrite Htype, Hframe, truthy_strip, frame_text_visible.
  fold lines. split.
  - by intros ->.
  - intros Hlines. destruct lines as [|line rest] eqn:Hl; [done|].
    rewrite visible_line_not_blank; [reflexivity|].
    assert (Hin : line ∈ visible_lines (text_frame shape)).
    { fold lines. rewrite Hl. by left. }
    unfold visible_lines in Hin.
    apply list_elem_of_fmap in Hin as (paragraph & -> & Hp).
    apply list_elem_of_In, filter_In in Hp as [_ Hp].
    rewrite blank_append. by destruct (blank (join _)).
Qed.

End Facts.

Lemma text_shape_draws_visible_lines_witness :
  let shape := Sample.text_shape 9525 19050 ["Title"; "  "; ""; "Body"] in
  frame_text (text_frame shape)
    = join ["Title" +:+ newline; "Body" +:+ newline] ∧
  ∀ img s,
    draw_shape (lib := Sample.imaging) shape img s
      = lift (PIL.text (lib := Sample.imaging) img (1, 2)
                (join ["Title" +:+ newline; "Body" +:+ newline]) black) s.
Proof.
  intros shape. split.
  - exact (proj1 (text_shape_draws_visible_lines (lib := Sample.imaging) shape
                    {| mode := RGB; size := (0, 0); data := [] |} Sample.start
                    ltac:(discriminate) eq_refl)).
  - intros img s.
    exact (proj2 (proj2 (text_shape_draws_visible_lines (lib := Sample.imaging) shape
                           img s ltac:(discriminate) eq_refl))
             ltac:(discriminate)).
Defined.

End FrameText.

(** ** The image files stay in order *)

Module Rasters.

Import Properties Scenarios PIL Pptx Session IO Logs Http Main Rasterizer Overlay
       Annotation Conversion ConversionRuns ConversionClaims EmptyLog AnnotationRuns.

Lemma imap_opaque (f : nat → pixel → pixel) ps :
  (∀ i p, alpha p = 255 → alpha (f i p) = 255) → opaque ps → opaque (imap f ps).
Proof.
  intros Hf Hps. revert f Hf.
  induction Hps as [|p ps Hp _ IH]; intros f Hf; cbn [imap]; constructor.
  - by apply Hf.
  - apply IH. intros i q. apply Hf.
Qed.

Lemma alpha_to_mode_rgb q : alpha (to_mode RGB q) = 255.
Proof. by destruct q as [[[r g] b] a]. Qed.

Lemma blend_opaque c : blend c 255 255 = 255.
Proof.
  unfold blend. replace (255 * (255 - c) + 255 * c) with 65025 by lia. reflexivity.
Qed.

Lemma blend_pixel_opaque m c p ink :
  alpha p = 255 → alpha ink = 255 → alpha (blend_pixel m c p ink) = 255.
Proof.
  unfold blend_pixel. destruct (c <=? 0); [done|]. destruct (255 <=? c); [done|].
  destruct p as [[[r g] b] a], ink as [[[ir ig] ib] ia]. unfold alpha. cbn [snd].
  intros -> ->. apply blend_opaque.
Qed.

Section Facts.
Context {lib : Imaging}.

Lemma paste_opaque dst src box im :
  mode dst = RGB → opaque (data dst) → paste dst src box = Ok im →
  opaque (data im).
Proof.
  intros Hmode Hdst. unfold paste. destruct box as [x0 y0].
  destruct (size src) as [sw sh]. destruct (_ && _); [|discriminate].
  intros [= <-]. cbn [data]. apply imap_opaque; [|exact Hdst].
  intros i p Hp. rewrite Hmode.
  destruct (_ && _); [apply alpha_to_mode_rgb | exact Hp].
Qed.

Lemma text_opaque im xy t fill im' :
  mode im = RGB → opaque (data im) → PIL.text im xy t fill = Ok im' →
  opaque (data im').
Proof.
  intros Hmode Him. unfold PIL.text. destruct xy as [x0 y0].
  destruct (getmask t) as [mask|]; [|discriminate]. intros [= <-]. cbn [data].
  apply imap_opaque; [|exact Him]. intros i p Hp.
  apply blend_pixel_opaque; [exact Hp|]. rewrite Hmode. apply alpha_to_mode_rgb.
Qed.

Lemma draw_shape_opaque shape img s img' s' :
  mode img = RGB → opaque (data img) →
  draw_shape shape img s = (Ok img', s') → opaque (data img').
Proof.
  intros Hmode Himg. unfold draw_shape. destruct (shape_type shape =? 13).
  - unfold bind, try_except, lift, ret, log, modify.
    destruct (decode _) as [pil|e].
    + destruct (resize pil _) as [resized|]; [|discriminate].
      intros [Hp _]%run_inv. by apply paste_opaque in Hp.
    + destruct (is_IOError e); [|discriminate]. by intros [= <- _].
  - destruct (has_text_frame shape).
    + destruct (negb _).
      * by intros [= <- _].
      * unfold lift. intros [Ht _]%run_inv. by apply text_opaque in Ht.
    + by intros [= <- _].
Qed.

Lemma for_each_opaque shapes img s img' s' :
  mode img = RGB → opaque (data img) →
  for_each shapes draw_shape img s = (Ok img', s') → opaque (data img').
Proof.
  revert img s. induction shapes as [|shape shapes IH]; intros img s Hmode Himg.
  - by intros [= <- _].
  - cbn [for_each]. unfold bind.
    destruct (draw_shape shape img s) as [[img1|e] s1] eqn:H1; [|discriminate].
    apply IH.
    + apply draw_shape_frame in H1 as (-> & _). exact Hmode.
    + by apply (draw_shape_opaque shape img s img1 s1).
Qed.

(** The raster of a slide is a well-formed opaque [RGB] raster. *)
Lemma rendered_opaque w h slide img :
  rendered w h slide img → empty (w, h) = false → opaque_rgb img.
Proof.
  intros Hr Hsize. specialize (Hr Sample.start).
  destruct (painted slide w h Sample.start) as [r t] eqn:Hp.
  cbn [fst] in Hr. subst r.
  destruct (painted_frame _ _ _ _ _ _ Hp) as (Hmode & Hs & Hwf).
  split; [exact Hmode|]. split; [exact Hwf|].
  split; [|by rewrite Hs].
  revert Hp. unfold painted, bind, lift.
  destruct (new RGB (w, h) white) as [canvas|] eqn:Hnew; [|discriminate].
  apply new_frame in Hnew as (Hm & _ & _ & Hdata).
  apply for_each_opaque; [exact Hm|]. rewrite Hdata.
  by apply Forall_replicate.
Qed.

(** The overlay of a well-formed base image is a well-formed opaque
    [RGB] raster of the size of the base image. *)
Lemma overlay_frame p comments s base img :
  listdir p.1 s !! p.2 = Some base → wf base →
  (overlay_comments p comments s).1 = Ok img →
  opaque_rgb img ∧ size img = size base.
Proof.
  intros Hfile (Hw & Hh & Hlen) Himg.
  pose proof (overlay_not_empty _ _ _ _ Himg) as Hfull. revert Himg Hfull.
  rewrite overlay_comments_composed, Hfile.
  destruct (refusal base) eqn:Href; [discriminate|].
  apply refusal_None in Href as [Hsize Hbomb].
  destruct base as [m [w h] ps]. cbn [mode size data fst snd] in *.
  destruct (accepted_size w h Hsize Hbomb) as [Hw' Hh'].
  unfold composed, bind at 1, lift.
  change (size (convert {| mode := m; size := (w, h); data := ps |} RGBA))
    with (w, h).
  rewrite new_ok by lia. unfold bind at 1.
  destruct (for_each comments draw_comment _ s) as [[[o' y']|e] s1] eqn:Hloop;
    [|discriminate].
  apply draw_comments_frame in Hloop as (Hm & Hs & Hl). cbn [mode size data] in *.
  unfold bind, lift, ret, alpha_composite. cbn [fst mode].
  destruct (convert _ RGBA) as [m1 sz1 ps1] eqn:Hconv.
  assert (Hm1 : m1 = RGBA ∧ sz1 = (w, h) ∧ length ps1 = length ps).
  { unfold convert in Hconv. cbn [mode size data] in Hconv.
    injection Hconv as <- <- <-. repeat split.
    destruct m; by rewrite ?length_fmap. }
  destruct Hm1 as (-> & -> & Hl1). cbn [mode size data]. rewrite Hm, Hs.
  unfold size_eqb. cbn [fst snd]. rewrite !Z.eqb_refl. cbn [andb fst].
  intros [= <-]. unfold convert, opaque_rgb, wf. cbn [mode size data fst snd].
  rewrite length_fmap, length_zip_with_l_eq
    by (rewrite Hl, length_replicate; lia).
  intros Hfull. repeat split; try lia; [|exact Hfull].
  apply Forall_fmap, Forall_true. by intros [[[r g] b] a].
Qed.

(** X12. After an annotation request, whatever its outcome, the image
    files are in order if they were before: served images stay
    well-formed opaque [RGB] rasters of the size of their base
    image. *)
Theorem add_comment_keeps_images_in_order s n c :
  images_in_order s → images_in_order (add_comment n c s).2.
Proof.
  intros [Hbase Hserved].
  destruct (add_comment_session s n c) as (Ho & _ & Hd & _).
  split.
  - intros name base. rewrite Ho. apply Hbase.
  - intros name img. rewrite Hd, Ho.
    destruct (original_slides s !! slide_png n) as [base|] eqn:Hb; [|apply Hserved].
    destruct (overlay_comments _ _ s).1 as [new|] eqn:Hnew; [|apply Hserved].
    destruct (decide (name = slide_png n)) as [->|Hne].
    + rewrite lookup_insert_eq. intros [= <-].
      destruct (overlay_frame (ORIGINAL_DIR, slide_png n)
                  (default [] (comments_store s !! n) ++ [c]) s base new Hb)
        as [Hopaque Hsize]; [by destruct (Hbase _ _ Hb) as (_ & ? & _) | exact Hnew |].
      split; [exact Hopaque|]. by exists base.
    + rewrite lookup_insert_ne by done. apply Hserved.
Qed.

End Facts.

Section Requests.
Context {lib : Imaging} {office : Parser}.

Lemma stored_in_order w h slides imgs comments files records :
  Forall2 (rendered w h) slides imgs →
  (slides ≠ [] → empty (w, h) = false) →
  images_in_order {| comments_store := comments;
                     original_slides := store 1 imgs ∅;
                     slides_dir := store 1 imgs ∅;
                     cwd := files; logged := records |}.
Proof.
  intros Himgs Hsize. destruct (store_files _ _ _ _ Himgs) as (_ & _ & Honly).
  assert (Hopaque : ∀ name img, store 1 imgs ∅ !! name = Some img → opaque_rgb img).
  { intros name img Hname. destruct (Honly _ _ Hname) as (i & slide & _ & Hi & Hr).
    apply (rendered_opaque _ _ _ _ Hr), Hsize. intros Hnil. by rewrite Hnil in Hi. }
  split; cbn [original_slides slides_dir].
  - exact Hopaque.
  - intros name img Hname. split; [by apply (Hopaque name)|]. by exists img.
Qed.

(** X13. A conversion that went through leaves the image files in
    order, whatever state it started from: every base image and every
    served image is a well-formed opaque [RGB] raster, so that the
    overlay finds in every slide the kind of image it is stated for. *)
Theorem convert_puts_images_in_order file s resp s' :
  convert_ppt file s = (Ok resp, s') → status_code resp = 200 →
  images_in_order s'.
Proof.
  intros Hrun Hstatus.
  destruct (converted_conditions file s resp s' Hrun Hstatus) as [_ Hsize].
  destruct (converted_state file s resp s' Hrun Hstatus)
    as (prs & imgs & l & Hparse & Himgs & _ & ->).
  exact (stored_in_order _ _ _ _ _ _ _ Himgs (Hsize prs Hparse)).
Qed.

End Requests.

Lemma sample_in_order : images_in_order Sample.converted.
Proof.
  destruct (converted_state
              (lib := Sample.imaging) (office := Sample.sample_parser)
              (Sample.upload "deck.pptx") Sample.start (converted_answer Sample.deck)
              Sample.converted)
    as (prs & imgs & l & Hparse & Himgs & _ & ->); [vm_compute; reflexivity | reflexivity |].
  injection Hparse as <-.
  exact (stored_in_order (lib := Sample.imaging) _ _ _ _ _ _ _ Himgs (λ _, eq_refl)).
Qed.

Lemma convert_puts_images_in_order_witness : images_in_order Sample.converted.
Proof.
  apply (convert_puts_images_in_order
           (lib := Sample.imaging) (office := Sample.sample_parser)
           (Sample.upload "deck.pptx") Sample.start (converted_answer Sample.deck)).
  - vm_compute. reflexivity.
  - reflexivity.
Defined.

Lemma add_comment_keeps_images_in_order_witness :
  images_in_order (add_comment (lib := Sample.imaging) 1 "Fix title" Sample.converted).2.
Proof.
  exact (add_comment_keeps_images_in_order (lib := Sample.imaging)
           Sample.converted 1 "Fix title" sample_in_order).
Defined.

End Rasters.

(** ** The pixels of the overlay *)

Module OverlayPixels.

Import Properties Scenarios PIL Pptx Session IO Logs Http Main Rasterizer Overlay
       EmptyLog Rasters.

Lemma composite_transparent_pixel p : composite_pixel p transparent = p.
Proof. reflexivity. Qed.

Lemma composite_red p : composite_pixel p red = red.
Proof.
  destruct p as [[[dr dg] db] da]. unfold composite_pixel, red, alpha. cbn [snd].
  change (255 =? 0) with false. cbv iota.
  replace (da * (255 - 255)) with 0 by lia.
  change (255 * 255 + 0) with 65025.
  change (255 * 255 * 255 * 128 / 65025) with 32640.
  change (255 * 128 - 32640) with 0.
  rewrite !Z.mul_0_r. reflexivity.
Qed.

Lemma blend_red m c : blend_pixel m c red red = red.
Proof.
  unfold blend_pixel. destruct (c <=? 0); [done|]. destruct (255 <=? c); [done|].
  unfold red, blend. change (255 =? 0) with false.
  destruct m; cbv iota;
    replace (255 * (255 - c) + 255 * c) with 65025 by lia;
    replace (0 * (255 - c) + 0 * c) with 0 by lia; reflexivity.
Qed.

Section Facts.
Context {lib : Imaging}.

(** One comment drawn on the overlay, pixel by pixel. *)
Lemma draw_comment_pixel c o y o1 y1 s s1 mask (i : nat) :
  draw_comment c (o, y) s = (Ok (o1, y1), s1) → getmask c = Ok mask →
  y1 = y + 20 ∧ same_frame o1 o ∧
  data o1 !! i
    = (λ q, blend_pixel (mode o)
                        (mask (column (size o).1 i - 10) (row (size o).1 i - y))
                        q (to_mode (mode o) red)) <$> data o !! i.
Proof.
  unfold draw_comment, bind, lift, ret, PIL.text. intros Hrun Hmask.
  rewrite Hmask in Hrun. injection Hrun as <- <- _.
  split; [reflexivity|]. split; [repeat split; apply length_imap|].
  cbn [data]. by rewrite list_lookup_imap.
Qed.

Lemma draw_comment_mask c o y o1 y1 s s1 :
  draw_comment c (o, y) s = (Ok (o1, y1), s1) → ∃ mask, getmask c = Ok mask.
Proof.
  unfold draw_comment, bind, lift, ret, PIL.text.
  destruct (getmask c) as [mask|]; [by exists mask | discriminate].
Qed.

(** A pixel that no comment covers is as it was when the loop ends. *)
Lemma uncovered_pixel comments o y o' y' s s' (i : nat) :
  for_each comments draw_comment (o, y) s = (Ok (o', y'), s') →
  (∀ (k : nat) comment mask,
     comments !! k = Some comment → getmask comment = Ok mask →
     mask (column (size o).1 i - 10) (row (size o).1 i - (y + 20 * Z.of_nat k)) ≤ 0) →
  data o' !! i = data o !! i.
Proof.
  revert o y. induction comments as [|c rest IH]; intros o y Hrun Hfree.
  - by injection Hrun as <- _.
  - cbn [for_each] in Hrun. unfold bind at 1 in Hrun.
    destruct (draw_comment c (o, y) s) as [[[o1 y1]|e] s1] eqn:Hc; [|discriminate].
    destruct (draw_comment_mask _ _ _ _ _ _ _ Hc) as [mask Hmask].
    destruct (draw_comment_pixel _ _ _ _ _ _ _ mask i Hc Hmask)
      as (-> & (_ & Hsize & _) & Hpixel).
    assert (Hs1 : s1 = s).
    { revert Hc. unfold draw_comment, bind, lift, ret.
      destruct (PIL.text _ _ _ _); by intros [= ? ?]. }
    subst s1. rewrite (IH o1 (y + 20) Hrun).
    + rewrite Hpixel. specialize (Hfree 0%nat c mask eq_refl Hmask).
      replace (y + 20 * Z.of_nat 0) with y in Hfree by lia.
      apply Z.leb_le in Hfree. unfold blend_pixel. rewrite Hfree.
      by destruct (data o !! i).
    + intros k comment mask' Hk Hmask'. rewrite Hsize.
      specialize (Hfree (S k) comment mask' Hk Hmask').
      by replace (y + 20 + 20 * Z.of_nat k) with (y + 20 * Z.of_nat (S k)) by lia.
Qed.

(** A red pixel of the overlay stays red. *)
Lemma red_pixel_stays comments o y o' y' s s' (i : nat) :
  mode o = RGBA → data o !! i = Some red →
  for_each comments draw_comment (o, y) s = (Ok (o', y'), s') →
  data o' !! i = Some red.
Proof.
  revert o y s. induction comments as [|c rest IH]; intros o y s Hmode Hred Hrun.
  - by injection Hrun as <- _.
  - cbn [for_each] in Hrun. unfold bind at 1 in Hrun.
    destruct (draw_comment c (o, y) s) as [[[o1 y1]|e] s1] eqn:Hc; [|discriminate].
    destruct (draw_comment_mask _ _ _ _ _ _ _ Hc) as [mask Hmask].
    destruct (draw_comment_pixel _ _ _ _ _ _ _ mask i Hc Hmask)
      as (-> & (Hm1 & _ & _) & Hpixel).
    apply (IH o1 (y + 20) s1); [congruence | | exact Hrun].
    rewrite Hpixel, Hred, Hmode. cbn. by rewrite blend_red.
Qed.

(** A pixel that some comment covers fully is red when the loop ends. *)
Lemma covered_pixel comments o y o' y' s s' (i k : nat) c mask :
  mode o = RGBA → (i < length (data o))%nat →
  for_each comments draw_comment (o, y) s = (Ok (o', y'), s') →
  comments !! k = Some c → getmask c = Ok mask →
  255 ≤ mask (column (size o).1 i - 10) (row (size o).1 i - (y + 20 * Z.of_nat k)) →
  data o' !! i = Some red.
Proof.
  revert o y s k. induction comments as [|c0 rest IH];
    intros o y s k Hmode Hi Hrun Hk Hmask Hcover; [discriminate|].
  cbn [for_each] in Hrun. unfold bind at 1 in Hrun.
  destruct (draw_comment c0 (o, y) s) as [[[o1 y1]|e] s1] eqn:Hc; [|discriminate].
  destruct (draw_comment_mask _ _ _ _ _ _ _ Hc) as [mask0 Hmask0].
  destruct (draw_comment_pixel _ _ _ _ _ _ _ mask0 i Hc Hmask0)
    as (-> & (Hm1 & Hsize & Hlen) & Hpixel).
  destruct k as [|k].
  - injection Hk as ->. rewrite Hmask in Hmask0. injection Hmask0 as <-.
    apply (red_pixel_stays rest o1 (y + 20) o' y' s1 s'); [congruence | | exact Hrun].
    rewrite Hpixel, Hmode. replace (y + 20 * Z.of_nat 0) with y in Hcover by lia.
    destruct (lookup_lt_is_Some_2 (data o) i Hi) as [q ->]. cbn.
    unfold blend_pixel.
    rewrite (proj2 (Z.leb_gt _ 0)) by lia. by rewrite (proj2 (Z.leb_le 255 _)) by lia.
  - apply (IH o1 (y + 20) s1 k); [congruence | lia | exact Hrun | exact Hk | exact Hmask |].
    rewrite Hsize.
    by replace (y + 20 + 20 * Z.of_nat k) with (y + 20 * Z.of_nat (S k)) by lia.
Qed.

(** The pixels of an overlay that went through: the base pixel under
    the pixel of the drawn layer, made opaque. *)
Lemma overlay_pixels p comments s base img :
  listdir p.1 s !! p.2 = Some base → opaque_rgb base →
  (overlay_comments p comments s).1 = Ok img →
  ∃ o' y' s1,
    for_each comments draw_comment
      ({| mode := RGBA; size := size base;
          data := replicate (length (data base)) transparent |}, 10) s
      = (Ok (o', y'), s1) ∧
    ∀ i : nat,
      data img !! i
        = match data base !! i, data o' !! i with
          | Some q, Some q' => Some (set_alpha 255 (composite_pixel q q'))
          | _, _ => None
          end.
Proof.
  intros Hfile (Hmode & (Hw & Hh & Hlen) & Hopaque & Hsize).
  rewrite overlay_comments_composed, Hfile.
  destruct (refusal base) eqn:Href; [discriminate|].
  apply refusal_None in Href as [_ Hbomb].
  destruct base as [m [w h] ps]. cbn [mode size data fst snd] in *. subst m.
  destruct (accepted_size w h Hsize Hbomb) as [Hw' Hh'].
  unfold composed. rewrite (convert_opaque _ _ _ _ RGBA Hopaque).
  cbn [size]. rewrite new_ok by lia. unfold bind at 1, lift at 1.
  rewrite <- Hlen. cbn [to_mode]. unfold bind at 1.
  destruct (for_each comments draw_comment _ s) as [[[o' y']|e] s1] eqn:Hloop;
    [|discriminate].
  exists o', y', s1. split; [reflexivity|].
  apply draw_comments_frame in Hloop as (Hm & Hs & Hl). cbn [mode size data] in *.
  revert H. unfold bind, lift, ret, alpha_composite. cbn [fst mode size].
  rewrite Hm, Hs. unfold size_eqb. cbn [fst snd]. rewrite !Z.eqb_refl. cbn [andb fst].
  intros [= <-] i. unfold convert. cbn [mode data].
  rewrite list_lookup_fmap, lookup_zip_with.
  by destruct (ps !! i), (data o' !! i).
Qed.

(** X14. The overlay changes only what the comments cover: a pixel
    that lies outside the glyphs of every comment, the comment at
    position [k] being drawn at the offset (10, 10 + 20 k), is in the
    served image what it is in the base image. *)
Theorem overlay_keeps_uncovered_pixels p comments s base img (i : nat) :
  listdir p.1 s !! p.2 = Some base → opaque_rgb base →
  (overlay_comments p comments s).1 = Ok img →
  (∀ (k : nat) comment mask,
     comments !! k = Some comment → getmask comment = Ok mask →
     mask (column (size base).1 i - 10)
          (row (size base).1 i - (10 + 20 * Z.of_nat k)) ≤ 0) →
  data img !! i = data base !! i.
Proof.
  intros Hfile Hbase Himg Hfree.
  destruct (overlay_pixels p comments s base img Hfile Hbase Himg)
    as (o' & y' & s1 & Hloop & ->).
  rewrite (uncovered_pixel _ _ _ _ _ _ _ i Hloop Hfree). cbn [data].
  destruct Hbase as (_ & _ & Hopaque & _).
  destruct (data base !! i) as [q|] eqn:Hq; [|reflexivity].
  assert (Hlt : (i < length (data base))%nat) by (by eapply lookup_lt_Some).
  rewrite lookup_replicate_2 by exact Hlt. cbv beta iota.
  rewrite composite_transparent_pixel. f_equal.
  pose proof (proj1 (Forall_lookup _ _) Hopaque i q Hq) as Ha.
  destruct q as [[[r g] b] a]. unfold alpha in Ha. cbn in Ha. by subst a.
Qed.

(** X15. A pixel that lies fully inside the glyphs of some comment is
    pure red in the served image, whatever the base image holds there
    and whatever is drawn later. *)
Theorem overlay_paints_covered_pixels_red p comments s base img (i k : nat) c mask :
  listdir p.1 s !! p.2 = Some base → opaque_rgb base →
  (overlay_comments p comments s).1 = Ok img →
  (i < length (data base))%nat →
  comments !! k = Some c → getmask c = Ok mask →
  255 ≤ mask (column (size base).1 i - 10)
             (row (size base).1 i - (10 + 20 * Z.of_nat k)) →
  data img !! i = Some red.
Proof.
  intros Hfile Hbase Himg Hi Hk Hmask Hcover.
  destruct (overlay_pixels p comments s base img Hfile Hbase Himg)
    as (o' & y' & s1 & Hloop & ->).
  rewrite (covered_pixel comments
             {| mode := RGBA; size := size base;
                data := replicate (length (data base)) transparent |}
             10 o' y' s s1 i k c mask eq_refl
             ltac:(cbn [data]; by rewrite length_replicate) Hloop Hk Hmask Hcover).
  destruct (lookup_lt_is_Some_2 (data base) i Hi) as [q ->]. cbv beta iota.
  by rewrite composite_red.
Qed.

End Facts.

End OverlayPixels.

Module OverlayPixelWitnesses.

Import Properties Scenarios PIL Pptx Session IO Logs Http Main Overlay Rasters
       OverlayPixels.

Lemma first_base_opaque : opaque_rgb Sample.first_base.
Proof.
  destruct sample_in_order as [Hbase _].
  apply (Hbase (slide_png 1)). vm_compute. reflexivity.
Qed.

Lemma overlay_keeps_uncovered_pixels_witness :
  ∃ img,
    (overlay_comments (lib := Sample.imaging) (ORIGINAL_DIR, slide_png 1)
       ["ab"; "c"] Sample.converted).1 = Ok img ∧
    data img !! 0%nat = data Sample.first_base !! 0%nat.
Proof.
  destruct (overlay_comments (lib := Sample.imaging) (ORIGINAL_DIR, slide_png 1)
              ["ab"; "c"] Sample.converted).1 as [img|e] eqn:Himg.
  - exists img. split; [reflexivity|].
    apply (overlay_keeps_uncovered_pixels (lib := Sample.imaging)
             (ORIGINAL_DIR, slide_png 1) ["ab"; "c"] Sample.converted
             Sample.first_base img 0).
    + vm_compute. reflexivity.
    + exact first_base_opaque.
    + exact Himg.
    + intros k comment mask _ [= <-]. vm_compute. discriminate.
  - vm_compute in Himg. discriminate Himg.
Defined.

Lemma overlay_paints_covered_pixels_red_witness :
  ∃ img,
    (overlay_comments (lib := Sample.imaging) (ORIGINAL_DIR, slide_png 1)
       ["ab"; "c"] Sample.converted).1 = Ok img ∧
    data img !! 130%nat = Some red.
Proof.
  destruct (overlay_comments (lib := Sample.imaging) (ORIGINAL_DIR, slide_png 1)
              ["ab"; "c"] Sample.converted).1 as [img|e] eqn:Himg.
  - exists img. split; [reflexivity|].
    eapply (overlay_paints_covered_pixels_red (lib := Sample.imaging)
              (ORIGINAL_DIR, slide_png 1) ["ab"; "c"] Sample.converted
              Sample.first_base img 130 0 "ab").
    + vm_compute. reflexivity.
    + exact first_base_opaque.
    + exact Himg.
    + vm_compute. lia.
    + reflexivity.
    + reflexivity.
    + vm_compute. discriminate.
  - vm_compute in Himg. discriminate Himg.
Defined.

End OverlayPixelWitnesses.

(** ** The older copy and undecodable pictures *)

Module OlderCopy.

Import Properties Scenarios PIL Pptx Session IO Logs Http Main Rasterizer Overlay
       Failures.

Section Facts.
Context {lib : Imaging}.

Lemma venv_draw_shape_stateless shape img : stateless (Venv.draw_shape shape img).
Proof.
  unfold Venv.draw_shape. destruct (shape_type shape =? 13).
  - apply stateless_bind; [apply stateless_lift|]. intros pil.
    apply stateless_bind; [apply stateless_lift | intros; apply stateless_lift].
  - destruct (has_text_frame shape); [|apply stateless_ret].
    destruct (negb _); [apply stateless_ret | apply stateless_lift].
Qed.

(** X16. In the older copy [src/venv/main.py] a picture that the
    decoder refuses is not skipped: whatever the exception, it leaves
    [draw_slide_content] and no file is written, where [src/main.py],
    when the exception is an [IOError], does what it does for the slide
    without the picture: the same outcome, and the same image files
    with the same rasters in them. *)
Theorem venv_undecodable_picture_aborts before bad after e w h p s :
  shape_type bad = 13 → decode (blob (image bad)) = Raise e →
  (Venv.draw_slide_content {| shapes := before |} w h p s).1 = Ok tt →
  Venv.draw_slide_content {| shapes := before ++ bad :: after |} w h p s
    = (Raise e, s) ∧
  (is_IOError e = true →
   let with_bad := draw_slide_content {| shapes := before ++ bad :: after |} w h p s in
   let without := draw_slide_content {| shapes := before ++ after |} w h p s in
   with_bad.1 = without.1 ∧ same_session with_bad.2 without.2).
Proof.
  intros Htype Hdecode Hbefore. split.
  - unfold Venv.draw_slide_content in *. cbn [shapes] in *.
    unfold bind, lift in *.
    destruct (new RGB (w, h) white) as [canvas|e0]; [|discriminate Hbefore].
    rewrite for_each_app. unfold bind.
    destruct (stateless_for_each before Venv.draw_shape canvas
                venv_draw_shape_stateless) as [r1 H1].
    rewrite H1 in *. destruct r1 as [img1|e1]; [|discriminate Hbefore].
    cbn [for_each]. unfold bind, Venv.draw_shape. rewrite Htype.
    cbn [Z.eqb Pos.eqb]. unfold bind, lift. by rewrite Hdecode.
  - destruct e as [msg| | | | | | |]; try discriminate. intros _.
    destruct (skipped_like_absent before bad after msg w h p s Htype Hdecode)
      as (Hout & Hfiles & _).
    by split.
Qed.

End Facts.

Lemma venv_undecodable_picture_aborts_witness :
  let p := (ORIGINAL_DIR, slide_png 1) in
  Venv.draw_slide_content (lib := Sample.imaging)
    {| shapes := [Sample.greeting; Sample.corrupt; Sample.greeting] |} 4 2 p Sample.start
    = (Raise (IOError "cannot identify image file"), Sample.start) ∧
  (draw_slide_content (lib := Sample.imaging)
     {| shapes := [Sample.greeting; Sample.corrupt; Sample.greeting] |} 4 2 p Sample.start).1
    = (draw_slide_content (lib := Sample.imaging)
         {| shapes := [Sample.greeting; Sample.greeting] |} 4 2 p Sample.start).1 ∧
  same_session
    (draw_slide_content (lib := Sample.imaging)
       {| shapes := [Sample.greeting; Sample.corrupt; Sample.greeting] |} 4 2 p Sample.start).2
    (draw_slide_content (lib := Sample.imaging)
       {| shapes := [Sample.greeting; Sample.greeting] |} 4 2 p Sample.start).2.
Proof.
  intros p.
  destruct (venv_undecodable_picture_aborts (lib := Sample.imaging)
              [Sample.greeting] Sample.corrupt [Sample.greeting]
              (IOError "cannot identify image file") 4 2 p Sample.start
              eq_refl eq_refl eq_refl) as [Habort Hmain].
  split; [exact Habort | exact (Hmain eq_refl)].
Defined.

End OlderCopy.

(** ** Paint order *)

Module PaintOrder.

Import Properties Scenarios PIL Pptx Session IO Logs Http Main Rasterizer.

Section Facts.
Context {lib : Imaging}.

(** X17. Shapes are painted in list order and a picture is clipped to
    the canvas: when the last shape of a slide is a picture that the
    decoder reads and that can be resized, the slide is painted like
    the shapes before it, with the resized picture pasted on top at the
    converted offset.  The paste goes through exactly when the four
    sides of the box are in the range of a C [int]; the raster then has
    the size of the canvas, and each pixel of it shows the resized
    picture inside the box and, outside the box, what the shapes before
    had painted there. *)
Theorem last_picture_is_on_top before pic pil resized img0 s s0 w h (i : nat) :
  shape_type pic = 13 → decode (blob (image pic)) = Ok pil →
  resize pil (shape_width pic // 9525, shape_height pic // 9525) = Ok resized →
  painted {| shapes := before |} w h s = (Ok img0, s0) →
  let x0 := shape_left pic // 9525 in
  let y0 := shape_top pic // 9525 in
  painted {| shapes := before ++ [pic] |} w h s
    = (paste img0 resized (x0, y0), s0) ∧
  (is_ok (paste img0 resized (x0, y0)) = true
     ↔ c_int x0 && c_int y0 && c_int (x0 + (size resized).1)
         && c_int (y0 + (size resized).2) = true) ∧
  (∀ img, paste img0 resized (x0, y0) = Ok img →
     size img = (w, h) ∧
     data img !! i
       = (λ under,
            if (x0 <=? column w i) && (column w i <? x0 + (size resized).1)
               && (y0 <=? row w i) && (row w i <? y0 + (size resized).2)
            then to_mode RGB (getpixel resized (column w i - x0) (row w i - y0))
            else under) <$> data img0 !! i).
Proof.
  intros Htype Hdecode Hresize Hbefore x0 y0.
  destruct (painted_frame _ _ _ _ _ _ Hbefore) as (Hmode & Hsize & _).
  split; [|split].
  - unfold painted in *. cbn [shapes] in *. unfold bind, lift in *.
    destruct (new RGB (w, h) white) as [canvas|]; [|discriminate Hbefore].
    rewrite for_each_app. unfold bind. rewrite Hbefore.
    cbn [for_each]. unfold bind, draw_shape. rewrite Htype. cbn [Z.eqb Pos.eqb].
    unfold bind, try_except, lift, ret. rewrite Hdecode.
    fold x0 y0. rewrite Hresize. by destruct (paste img0 resized (x0, y0)).
  - unfold paste. destruct (size resized) as [sw sh]. cbn [fst snd].
    by destruct (_ && _).
  - intros img Hpaste. split.
    + destruct (paste_frame _ _ _ _ Hpaste) as (_ & -> & _). exact Hsize.
    + revert Hpaste. unfold paste. destruct (size resized) as [sw sh].
      destruct (_ && _); [|discriminate]. intros [= <-]. cbn [data fst snd].
      rewrite list_lookup_imap, Hmode, Hsize. reflexivity.
Qed.

End Facts.

Lemma last_picture_is_on_top_witness :
  let canvas := {| mode := RGB; size := (2, 1); data := [white; white] |} in
  let dot := Sample.picture [Byte.x00] 9525 0 9525 9525 in
  let far := Sample.picture [Byte.x00] (2147483647 * 9525) 0 9525 9525 in
  (∃ img,
     painted (lib := Sample.imaging) {| shapes := [] ++ [dot] |} 2 1 Sample.start
       = (Ok img, Sample.start) ∧
     size img = (2, 1) ∧ data img !! 1%nat = Some black ∧ data img !! 0%nat = Some white) ∧
  is_ok (painted (lib := Sample.imaging) {| shapes := [] ++ [far] |} 2 1 Sample.start).1
    = false.
Proof.
  intros canvas dot far. split.
  - destruct (last_picture_is_on_top (lib := Sample.imaging) [] dot Sample.dot_file
                Sample.dot canvas Sample.start Sample.start 2 1 1
                eq_refl eq_refl eq_refl eq_refl)
      as (Hrun & _ & Hpixels).
    destruct (last_picture_is_on_top (lib := Sample.imaging) [] dot Sample.dot_file
                Sample.dot canvas Sample.start Sample.start 2 1 0
                eq_refl eq_refl eq_refl eq_refl)
      as (_ & _ & Hpixels').
    destruct (paste canvas Sample.dot (shape_left dot // 9525, shape_top dot // 9525))
      as [img|] eqn:Hpaste; [|discriminate Hpaste].
    destruct (Hpixels img eq_refl) as [Hsize Hone].
    destruct (Hpixels' img eq_refl) as [_ Hzero].
    exists img. split; [exact Hrun|]. split; [exact Hsize|]. split.
    + rewrite Hone. reflexivity.
    + rewrite Hzero. reflexivity.
  - destruct (last_picture_is_on_top (lib := Sample.imaging) [] far Sample.dot_file
                Sample.dot canvas Sample.start Sample.start 2 1 0
                eq_refl eq_refl eq_refl eq_refl)
      as (Hrun & _ & _).
    rewrite Hrun. reflexivity.
Defined.

End PaintOrder.

(** ** A canvas without pixels *)

Module InvalidCanvas.

Import Properties Scenarios PIL Pptx Session IO Logs Http Main Rasterizer Names
       Conversion ConversionRuns ConversionClaims ConversionEdges.

Section Requests.
Context {lib : Imaging} {office : Parser}.

(** X18. A document with at least one slide and a nominal width or
    height of less than one pixel (below 9525, negative included)
    cannot be converted: the canvas of the first slide cannot be made,
    or is made and cannot be saved for want of pixels.  When the
    uploaded copy could be written, the request is answered with 500,
    both directories are left empty and the comments of the previous
    document are left in the store. *)
Theorem invalid_canvas_aborts_conversion file prs s :
  pptx_name (filename file) →
  open_wb ("temp_" +:+ filename file) = Ok tt →
  parse (read file) = Ok prs → slides prs ≠ [] →
  slide_width prs < 9525 ∨ slide_height prs < 9525 →
  let s' := (convert_ppt file s).2 in
  status (convert_ppt file s).1 = 500 ∧
  original_slides s' = ∅ ∧ slides_dir s' = ∅ ∧
  comments_store s' = comments_store s.
Proof.
  intros Hacc%Extension.accepted_iff Hopen Hparse Hslides Hsmall s'. subst s'.
  assert (Hempty : empty (slide_width prs // 9525, slide_height prs // 9525) = true).
  { pose proof (Units.floordiv_bounds (slide_width prs)).
    pose proof (Units.floordiv_bounds (slide_height prs)).
    unfold empty. cbn [fst snd]. apply orb_true_iff.
    destruct Hsmall; [left | right]; apply Z.leb_le; lia. }
  assert (Hstatus : status (convert_ppt file s).1 ≠ 200).
  { intros (resp & Hresp & H200)%convert_ppt_200.
    destruct (convert_ppt file s) as [r s2] eqn:Hrun. cbn [fst] in Hresp. subst r.
    destruct (convert_ppt_success file s resp s2 Hrun H200)
      as (_ & _ & prs' & imgs & Hparse' & _ & Hsize).
    rewrite Hparse in Hparse'. injection Hparse' as <-.
    rewrite Hsize in Hempty by exact Hslides. discriminate Hempty. }
  destruct (convert_ppt_accepted_status file s Hacc) as [H200|H500]; [done|].
  split; [exact H500|].
  destruct (convert_ppt_failed file s Hacc Hopen Hstatus) as (imgs & l & -> & Hprs).
  cbn [original_slides slides_dir comments_store].
  destruct imgs as [|img imgs]; [done|]. exfalso.
  destruct Hprs as (prs' & Hparse' & _ & _ & Hsize); [by left|].
  rewrite Hparse in Hparse'. injection Hparse' as <-.
  rewrite Hsize in Hempty by done. discriminate Hempty.
Qed.

End Requests.

Lemma invalid_canvas_aborts_conversion_witness :
  let deck := {| slide_width := 5000; slide_height := 9525;
                 slides := [ {| shapes := [] |} ] |} in
  let run := convert_ppt (lib := Sample.imaging) (office := Sample.parser (Ok deck))
               (Sample.upload "Review.PPTX") Sample.used in
  status run.1 = 500 ∧ original_slides run.2 = ∅ ∧ slides_dir run.2 = ∅ ∧
  comments_store run.2 = comments_store Sample.used.
Proof.
  intros deck.
  apply (invalid_canvas_aborts_conversion
           (lib := Sample.imaging) (office := Sample.parser (Ok deck))
           (Sample.upload "Review.PPTX") deck Sample.used
           ExtensionClaims.upper_case_is_variant eq_refl eq_refl).
  - discriminate.
  - left. reflexivity.
Defined.

End InvalidCanvas.
